(** * forum_parser: the extraction-and-fallback engine of [parse_quora.py]

    A shallow embedding of the field extractors, the count normaliser, the
    date parser and earliest-date resolver, and the answer record builder,
    followed by the properties the specification states about them.

    - Text is a [string], one [ascii] per character: the pages are taken to
      be ASCII, so [\d] and [str.isdigit] are the digits 0-9, and [\s] and
      [str.strip] use the ASCII white space.
    - Regular expressions are the fragment of [re] the source uses, run by
      a backtracking matcher with groups.
    - Floats are IEEE 754 binary64, as in CPython.
    - The browser is an oracle: every driver call takes the current world
      and gives the next world with a value or a raised exception.  Each
      in-page script is typed by what its last statement returns.
    - The clock is read to the second; [urlparse] and [urlunsplit] are
      taken as given.
    - Of the narration printed by the source nothing is kept. *)

From Stdlib Require Import String Ascii List Bool Arith ZArith Lia.
From Stdlib Require Import Floats.SpecFloat.
From Stdlib Require DecimalString.
From Stdlib Require Import Sorting.Permutation Sorting.Sorted.
Import ListNotations.
Local Open Scope string_scope.
Local Open Scope nat_scope.

Set Implicit Arguments.

(* ===================================================================== *)
(** * Python strings *)
(* ===================================================================== *)

Module PyStr.

Definition code (c : ascii) : nat := nat_of_ascii c.

(** [c.isdigit()] for an ASCII character. *)
Definition is_digit (c : ascii) : bool :=
  (48 <=? code c) && (code c <=? 57).

(** [c.isspace()]: tab, line feed, vertical tab, form feed, carriage
    return, the four separators 0x1c-0x1f, and the space. *)
Definition is_space (c : ascii) : bool :=
  ((9 <=? code c) && (code c <=? 13))
  || ((28 <=? code c) && (code c <=? 31))
  || (code c =? 32).

Definition is_upper (c : ascii) : bool :=
  (65 <=? code c) && (code c <=? 90).

Definition lower_char (c : ascii) : ascii :=
  if is_upper c then ascii_of_nat (code c + 32) else c.

(** [s.lower()] *)
Fixpoint lower (s : string) : string :=
  match s with
  | EmptyString => EmptyString
  | String c s' => String (lower_char c) (lower s')
  end.

(** [bool(s)]: a string is true when it is not empty. *)
Definition truthy (s : string) : bool :=
  match s with EmptyString => false | _ => true end.

Fixpoint all_chars (p : ascii -> bool) (s : string) : bool :=
  match s with
  | EmptyString => true
  | String c s' => p c && all_chars p s'
  end.

(** [s.isdigit()] on ASCII text: not empty and digits only.  On other text
    [str.isdigit] is wider than [\d]: it also accepts characters such as
    the superscript digits, which no pattern of the source matches. *)
Definition isdigit (s : string) : bool := truthy s && all_chars is_digit s.

(** [''.join(c for c in s if c.isdigit())] *)
Fixpoint digits_of (s : string) : string :=
  match s with
  | EmptyString => EmptyString
  | String c s' => if is_digit c then String c (digits_of s') else digits_of s'
  end.

Fixpoint drop (n : nat) (s : string) : string :=
  match n, s with
  | O, _ => s
  | S _, EmptyString => EmptyString
  | S n', String _ s' => drop n' s'
  end.

Fixpoint take (n : nat) (s : string) : string :=
  match n, s with
  | O, _ => EmptyString
  | S _, EmptyString => EmptyString
  | S n', String c s' => String c (take n' s')
  end.

(** [s[:-1]] *)
Definition but_last (s : string) : string := take (String.length s - 1) s.

(** [s.startswith(p)] *)
Definition startswith (p s : string) : bool := prefix p s.

(** [sub in s] *)
Fixpoint contains (sub s : string) : bool :=
  prefix sub s ||
  match s with
  | EmptyString => false
  | String _ s' => contains sub s'
  end.

(** [s.endswith(p)] *)
Definition endswith (p s : string) : bool :=
  (String.length p <=? String.length s)
  && String.eqb (drop (String.length s - String.length p) s) p.

Fixpoint lstrip (s : string) : string :=
  match s with
  | EmptyString => EmptyString
  | String c s' => if is_space c then lstrip s' else s
  end.

Fixpoint rstrip (s : string) : string :=
  match s with
  | EmptyString => EmptyString
  | String c s' =>
      match rstrip s' with
      | EmptyString => if is_space c then EmptyString else String c EmptyString
      | r => String c r
      end
  end.

(** [s.strip()] *)
Definition strip (s : string) : string := rstrip (lstrip s).

(** [s.replace(old, new)] where [old] is one character, as in every call
    of the source: [replace('k', '')], [replace('m', '')],
    [replace(',', '')] and [replace('-', ' ')]. *)
Fixpoint replace (old : ascii) (new : string) (s : string) : string :=
  match s with
  | EmptyString => EmptyString
  | String c s' =>
      if Ascii.eqb c old then (new ++ replace old new s')%string
      else String c (replace old new s')
  end.

(** [s.partition(sep)] when [sep] occurs in [s]: the text before the first
    occurrence and the text after it. *)
Fixpoint cut (sep s : string) : option (string * string) :=
  if prefix sep s then Some (EmptyString, drop (String.length sep) s)
  else
    match s with
    | EmptyString => None
    | String c s' =>
        match cut sep s' with
        | Some (a, b) => Some (String c a, b)
        | None => None
        end
    end.

Fixpoint split_fuel (fuel : nat) (sep s : string) : list string :=
  match fuel with
  | O => [s]
  | S fuel' =>
      match cut sep s with
      | None => [s]
      | Some (a, b) => a :: split_fuel fuel' sep b
      end
  end.

(** [s.split(sep)] for a separator that is not empty: each cut removes at
    least one character, so [length s] cuts are enough. *)
Definition split (sep s : string) : list string :=
  split_fuel (String.length s) sep s.

End PyStr.

Export PyStr.

(* ===================================================================== *)
(** * Regular expressions: the fragment of Python's [re] the source uses *)
(* ===================================================================== *)

Module Re.

(** One-character atoms. *)
Inductive cclass : Type :=
| CChar (c : ascii)      (* a literal character *)
| CDigit                 (* \d *)
| CSpace                 (* \s *)
| CSet (l : string).     (* [...] *)

Fixpoint in_set (c : ascii) (l : string) : bool :=
  match l with
  | EmptyString => false
  | String a l' => Ascii.eqb c a || in_set c l'
  end.

(** [ic] is the flag [re.IGNORECASE]: letters are compared lower-cased. *)
Definition class_ok (ic : bool) (cl : cclass) (c : ascii) : bool :=
  match cl with
  | CChar a =>
      if ic then Ascii.eqb (lower_char c) (lower_char a) else Ascii.eqb c a
  | CDigit => is_digit c
  | CSpace => is_space c
  | CSet l => if ic then in_set (lower_char c) (lower l) else in_set c l
  end.

Inductive regex : Type :=
| Eps
| Chr (cl : cclass)
| Seq (r1 r2 : regex)
| Alt (r1 r2 : regex)            (* r1|r2, r1 tried first *)
| Star (r : regex)               (* r*, greedy *)
| Group (i : nat) (r : regex).   (* capturing group number i *)

Definition Plus (r : regex) : regex := Seq r (Star r).      (* r+ *)
Definition Opt (r : regex) : regex := Alt r Eps.            (* r? *)
Definition digit : regex := Chr CDigit.
Definition space : regex := Chr CSpace.
Definition chr (c : ascii) : regex := Chr (CChar c).

Fixpoint lit (s : string) : regex :=
  match s with
  | EmptyString => Eps
  | String c s' => Seq (chr c) (lit s')
  end.

Fixpoint seqs (l : list regex) : regex :=
  match l with
  | [] => Eps
  | [r] => r
  | r :: l' => Seq r (seqs l')
  end.

Fixpoint alts (l : list regex) : regex :=
  match l with
  | [] => Eps
  | [r] => r
  | r :: l' => Alt r (alts l')
  end.

(** Captures: the text last matched by each group that took part. *)
Definition caps : Type := list (nat * string).

Fixpoint cap_get (i : nat) (cs : caps) : option string :=
  match cs with
  | [] => None
  | (j, w) :: cs' => if Nat.eqb i j then Some w else cap_get i cs'
  end.

(** The backtracking matcher, in continuation-passing style: [k] is what
    has to match after [r]; an alternative is tried when the first one, or
    what follows it, fails.  A star stops iterating when an iteration
    consumes nothing. *)
Fixpoint rmatch (A : Type) (ic : bool) (r : regex) (s : string) (cs : caps)
         (k : string -> caps -> option A) {struct r} : option A :=
  match r with
  | Eps => k s cs
  | Chr cl =>
      match s with
      | EmptyString => None
      | String c s' => if class_ok ic cl c then k s' cs else None
      end
  | Seq r1 r2 => rmatch ic r1 s cs (fun s' cs' => rmatch ic r2 s' cs' k)
  | Alt r1 r2 =>
      match rmatch ic r1 s cs k with
      | Some x => Some x
      | None => rmatch ic r2 s cs k
      end
  | Star r1 =>
      (fix loop (fuel : nat) (s : string) (cs : caps) {struct fuel} : option A :=
         match fuel with
         | O => k s cs
         | S fuel' =>
             match rmatch ic r1 s cs
                     (fun s' cs' =>
                        if String.length s' <? String.length s
                        then loop fuel' s' cs' else None) with
             | Some x => Some x
             | None => k s cs
             end
         end) (String.length s) s cs
  | Group i r1 =>
      rmatch ic r1 s cs
        (fun s' cs' =>
           k s' ((i, take (String.length s - String.length s') s) :: cs'))
  end.

(** A match object: where it starts and ends in the searched text, and
    its groups. *)
Record rematch : Type := MkMatch {
  m_start : nat;
  m_len : nat;
  m_caps : caps
}.

(** [m.group(i)], [None] when the group did not take part. *)
Definition group (i : nat) (m : rematch) : option string := cap_get i (m_caps m).

(** A group as [re.findall] gives it: the empty string when the group did
    not take part. *)
Definition group_or_empty (i : nat) (m : rematch) : string :=
  match group i m with Some w => w | None => EmptyString end.

Definition match_here (ic : bool) (r : regex) (pos : nat) (s : string)
  : option rematch :=
  rmatch ic r s []
    (fun s' cs => Some (MkMatch pos (String.length s - String.length s') cs)).

Fixpoint search_from (ic : bool) (r : regex) (pos : nat) (s : string)
  : option rematch :=
  match match_here ic r pos s with
  | Some m => Some m
  | None =>
      match s with
      | EmptyString => None
      | String _ s' => search_from ic r (S pos) s'
      end
  end.

(** [re.search(r, s)] and [re.search(r, s, re.IGNORECASE)]. *)
Definition search (r : regex) (s : string) : option rematch :=
  search_from false r 0 s.
Definition search_i (r : regex) (s : string) : option rematch :=
  search_from true r 0 s.

(** [re.match(r, s)]: a match at the start of [s]. *)
Definition match_ (r : regex) (s : string) : option rematch :=
  match_here false r 0 s.

(** The matches of [re.findall(r, s)], left to right, not overlapping: the
    scan resumes where the last match ended ([skip] characters further),
    one character further after an empty match. *)
Fixpoint findall_from (ic : bool) (r : regex) (pos skip : nat) (s : string)
  : list rematch :=
  match skip with
  | S skip' =>
      match s with
      | EmptyString => []
      | String _ s' => findall_from ic r (S pos) skip' s'
      end
  | O =>
      match match_here ic r pos s with
      | Some m =>
          m :: match s with
               | EmptyString => []
               | String _ s' => findall_from ic r (S pos) (m_len m - 1) s'
               end
      | None =>
          match s with
          | EmptyString => []
          | String _ s' => findall_from ic r (S pos) 0 s'
          end
      end
  end.

Definition findall (r : regex) (s : string) : list rematch :=
  findall_from false r 0 0 s.

(** The words of a regular expression. *)
Inductive lang (ic : bool) : regex -> string -> Prop :=
| L_eps : lang ic Eps EmptyString
| L_chr cl c : class_ok ic cl c = true -> lang ic (Chr cl) (String c EmptyString)
| L_seq r1 r2 u v : lang ic r1 u -> lang ic r2 v -> lang ic (Seq r1 r2) (u ++ v)
| L_alt_l r1 r2 u : lang ic r1 u -> lang ic (Alt r1 r2) u
| L_alt_r r1 r2 u : lang ic r2 u -> lang ic (Alt r1 r2) u
| L_star_nil r : lang ic (Star r) EmptyString
| L_star_cons r u v : lang ic r u -> lang ic (Star r) v -> lang ic (Star r) (u ++ v)
| L_group i r u : lang ic r u -> lang ic (Group i r) u.

End Re.

Export Re.

(** ** The patterns of the source *)

(** [(January|February|...|December|Jan|Feb|...|Dec)], in the order of the
    source. *)
Definition month_names : list string :=
  ["January"; "February"; "March"; "April"; "May"; "June"; "July"; "August";
   "September"; "October"; "November"; "December";
   "Jan"; "Feb"; "Mar"; "Apr"; "May"; "Jun"; "Jul"; "Aug"; "Sep"; "Oct";
   "Nov"; "Dec"].

Definition month_re : regex := alts (map lit month_names).

Definition d12 : regex := Seq digit (Opt digit).                    (* \d{1,2} *)
Definition d2 : regex := Seq digit digit.                           (* \d{2} *)
Definition d4 : regex := seqs [digit; digit; digit; digit].         (* \d{4} *)
Definition apm2 : regex := Seq (Chr (CSet "APM")) (Chr (CSet "APM")). (* [APM]{2} *)

(** [ at (\d{1,2}):(\d{2})(?::(\d{2}))? ([APM]{2})] *)
Definition time_part_re : regex :=
  seqs [lit " at "; Group 4 d12; chr ":"; Group 5 d2;
        Opt (Seq (chr ":") (Group 6 d2)); chr " "; Group 7 apm2].

(** [(MONTH) (\d{1,2}), (\d{4})] *)
Definition date_re : regex :=
  seqs [Group 1 month_re; chr " "; Group 2 d12; lit ", "; Group 3 d4].

(** Pattern 1:
    [(MONTH) (\d{1,2}), (\d{4}) at (\d{1,2}):(\d{2})(?::(\d{2}))? ([APM]{2})] *)
Definition time_date_re : regex := Seq date_re time_part_re.

(** Pattern 3: [(\d{1,2}) (MONTH),? (\d{4})] *)
Definition alt_date_re : regex :=
  seqs [Group 1 d12; chr " "; Group 2 month_re; Opt (chr ","); chr " ";
        Group 3 d4].

(** The pattern of the creation marker:
    [(MONTH) (\d{1,2}), (\d{4})(?: at (\d{1,2}):(\d{2})(?::(\d{2}))? ([APM]{2}))?] *)
Definition creation_date_re : regex := Seq date_re (Opt time_part_re).

(** [\d+(?:,\d+)*(?:\.\d+)?(?:[KkMm])?], the count token. *)
Definition count_token_re : regex :=
  seqs [Plus digit; Star (Seq (chr ",") (Plus digit));
        Opt (Seq (chr ".") (Plus digit)); Opt (Chr (CSet "KkMm"))].

(** [(TOKEN)\s+views?] *)
Definition views_re : regex :=
  seqs [Group 1 count_token_re; Plus space; lit "view"; Opt (chr "s")].

(** [(?:view\s+)?(TOKEN)\s+upvotes?] *)
Definition upvotes_re : regex :=
  seqs [Opt (Seq (lit "view") (Plus space)); Group 1 count_token_re;
        Plus space; lit "upvote"; Opt (chr "s")].

(** [(TOKEN)\s+comments?] *)
Definition comments_re : regex :=
  seqs [Group 1 count_token_re; Plus space; lit "comment"; Opt (chr "s")].

(** [(?:view\s+)?(TOKEN)\s+shares?] *)
Definition view_shares_re : regex :=
  seqs [Opt (Seq (lit "view") (Plus space)); Group 1 count_token_re;
        Plus space; lit "share"; Opt (chr "s")].

(** [(TOKEN)\s+shares?] *)
Definition shares_re : regex :=
  seqs [Group 1 count_token_re; Plus space; lit "share"; Opt (chr "s")].

(** [\d+], as in [re.match(r'\d+', match[0])]. *)
Definition digits_re : regex := Plus digit.

Definition groups7 (m : rematch) : list string :=
  map (fun i => group_or_empty i m) [1; 2; 3; 4; 5; 6; 7].

(* ===================================================================== *)
(** * Exceptions, integers and dates *)
(* ===================================================================== *)

(** A raised exception: its class name and the text [str(e)] gives. *)
Record exn : Type := Exn { exn_class : string; exn_text : string }.

Inductive result (A : Type) : Type :=
  | Ok (a : A)
  | Raise (e : exn).
Arguments Ok {A} a.
Arguments Raise {A} e.

Definition ValueError (msg : string) : exn := Exn "ValueError" msg.
Definition OverflowError (msg : string) : exn := Exn "OverflowError" msg.
Definition IndexError (msg : string) : exn := Exn "IndexError" msg.

Definition digit_val (c : ascii) : Z := Z.of_nat (code c) - 48.

Fixpoint digits_val (acc : Z) (s : string) : Z :=
  match s with
  | EmptyString => acc
  | String c s' => digits_val (10 * acc + digit_val c) s'
  end.

(** [int(s)] on a string of digits; the source only converts groups that
    matched [\d{1,2}], [\d{2}] or [\d{4}].  Anything else is a ValueError
    here (signs, blanks and underscores never reach [int]). *)
Definition py_int (s : string) : result Z :=
  if isdigit s then Ok (digits_val 0 s)
  else Raise (ValueError "invalid literal for int() with base 10").

(** [str(n)] and [f"{n}"] for an integer. *)
Definition str_of_Z (n : Z) : string :=
  DecimalString.NilZero.string_of_int (Z.to_int n).

Module Date.

(** [datetime.datetime], read to the second. *)
Record datetime : Type := MkDate {
  year : Z; month : Z; day : Z; hour : Z; minute : Z; second : Z
}.

Definition is_leap (y : Z) : bool :=
  ((y mod 4 =? 0) && negb (y mod 100 =? 0) || (y mod 400 =? 0))%Z.

Definition days_in_month (y m : Z) : Z :=
  (if m =? 2 then (if is_leap y then 29 else 28)
   else if (m =? 4) || (m =? 6) || (m =? 9) || (m =? 11) then 30
   else 31)%Z.

Definition between (lo x hi : Z) : bool := ((lo <=? x) && (x <=? hi))%Z.

(** [datetime.datetime(y, mo, d, h, mi, s)]: a ValueError when a field is
    out of range. *)
Definition mk_datetime (y mo d h mi s : Z) : result datetime :=
  if negb (between 1 y 9999) then Raise (ValueError "year is out of range")
  else if negb (between 1 mo 12) then Raise (ValueError "month must be in 1..12")
  else if negb (between 1 d (days_in_month y mo))
       then Raise (ValueError "day is out of range for month")
  else if negb (between 0 h 23) then Raise (ValueError "hour must be in 0..23")
  else if negb (between 0 mi 59) then Raise (ValueError "minute must be in 0..59")
  else if negb (between 0 s 59) then Raise (ValueError "second must be in 0..59")
  else Ok (MkDate y mo d h mi s).

Definition fields (t : datetime) : list Z :=
  [year t; month t; day t; hour t; minute t; second t].

Fixpoint lex_compare (a b : list Z) : comparison :=
  match a, b with
  | x :: a', y :: b' =>
      match Z.compare x y with
      | Eq => lex_compare a' b'
      | c => c
      end
  | [], [] => Eq
  | [], _ :: _ => Lt
  | _ :: _, [] => Gt
  end.

(** The order of [datetime] objects. *)
Definition compare (a b : datetime) : comparison :=
  lex_compare (fields a) (fields b).

Definition leb (a b : datetime) : bool :=
  match compare a b with Gt => false | _ => true end.
Definition ltb (a b : datetime) : bool :=
  match compare a b with Lt => true | _ => false end.

(** [month_map.get(name, 1)] *)
Definition month_map : list (string * Z) :=
  [("January", 1); ("February", 2); ("March", 3); ("April", 4); ("May", 5);
   ("June", 6); ("July", 7); ("August", 8); ("September", 9);
   ("October", 10); ("November", 11); ("December", 12);
   ("Jan", 1); ("Feb", 2); ("Mar", 3); ("Apr", 4); ("May", 5); ("Jun", 6);
   ("Jul", 7); ("Aug", 8); ("Sep", 9); ("Oct", 10); ("Nov", 11);
   ("Dec", 12)]%Z.

Fixpoint dict_get (k : string) (d : list (string * Z)) (default : Z) : Z :=
  match d with
  | [] => default
  | (k', v) :: d' => if String.eqb k k' then v else dict_get k d' default
  end.

Definition month_num (name : string) : Z := dict_get name month_map 1%Z.

Definition full_month_name (m : Z) : string :=
  nth (Z.to_nat (m - 1)) month_names "".

Definition pad2 (n : Z) : string :=
  if (n <? 10)%Z then "0" ++ str_of_Z n else str_of_Z n.

(** [t.strftime("%B %d, %Y")] *)
Definition strftime_BdY (t : datetime) : string :=
  full_month_name (month t) ++ " " ++ pad2 (day t) ++ ", " ++ str_of_Z (year t).

(** [t.isoformat()], to the second. *)
Definition isoformat (t : datetime) : string :=
  str_of_Z (year t) ++ "-" ++ pad2 (month t) ++ "-" ++ pad2 (day t) ++ "T"
  ++ pad2 (hour t) ++ ":" ++ pad2 (minute t) ++ ":" ++ pad2 (second t).

End Date.

Export Date.

(* ===================================================================== *)
(** * Date candidates and the earliest one *)
(* ===================================================================== *)

(** A DateCandidate: the tuple [(date_obj, formatted_date)]. *)
Definition candidate : Type := (datetime * string)%type.

Definition timestamp (c : candidate) : datetime := fst c.
Definition displayText (c : candidate) : string := snd c.

(** A block [try: ... append ... except Exception: print(...)]: a raised
    ValueError leaves the list as it was. *)
Definition appended (r : result candidate) : list candidate :=
  match r with
  | Ok c => [c]
  | Raise _ => []
  end.

Definition bind_res (A B : Type) (r : result A) (f : A -> result B) : result B :=
  match r with
  | Ok a => f a
  | Raise e => Raise e
  end.

Notation "x <-? r ;; k" := (bind_res r (fun x => k))
  (at level 61, r at next level, right associativity).

(** The AM/PM adjustment of the hour. *)
Definition adjust_hour (hour : Z) (ampm : string) : Z :=
  if String.eqb ampm "PM" && (hour <? 12)%Z then (hour + 12)%Z
  else if String.eqb ampm "AM" && (hour =? 12)%Z then 0%Z
  else hour.

(** [int(m.group(6)) if m.group(6) else 0] *)
Definition seconds_of (g6 : string) : result Z :=
  if truthy g6 then py_int g6 else Ok 0%Z.

(** ** The log page: one span (lines 138-237) *)

(** A span matched by pattern 1: the display text is the text of the span. *)
Definition span_timed_candidate (span_text : string) (m : rematch)
  : result candidate :=
  let formatted_date := span_text in
  let month := group_or_empty 1 m in
  day <-? py_int (group_or_empty 2 m) ;;
  year <-? py_int (group_or_empty 3 m) ;;
  hour <-? py_int (group_or_empty 4 m) ;;
  minute <-? py_int (group_or_empty 5 m) ;;
  let hour := adjust_hour hour (group_or_empty 7 m) in
  second <-? seconds_of (group_or_empty 6 m) ;;
  date_obj <-? mk_datetime year (month_num month) day hour minute second ;;
  Ok (date_obj, formatted_date).

(** A span matched by pattern 2 only. *)
Definition span_simple_candidate (m : rematch) : result candidate :=
  let formatted_date :=
    group_or_empty 1 m ++ " " ++ group_or_empty 2 m ++ ", " ++ group_or_empty 3 m in
  let month := group_or_empty 1 m in
  day <-? py_int (group_or_empty 2 m) ;;
  year <-? py_int (group_or_empty 3 m) ;;
  date_obj <-? mk_datetime year (month_num month) day 0 0 0 ;;
  Ok (date_obj, formatted_date).

(** A span matched by pattern 3 only. *)
Definition span_alt_candidate (m : rematch) : result candidate :=
  let formatted_date :=
    group_or_empty 2 m ++ " " ++ group_or_empty 1 m ++ ", " ++ group_or_empty 3 m in
  day <-? py_int (group_or_empty 1 m) ;;
  let month := group_or_empty 2 m in
  year <-? py_int (group_or_empty 3 m) ;;
  date_obj <-? mk_datetime year (month_num month) day 0 0 0 ;;
  Ok (date_obj, formatted_date).

Definition is_some (A : Type) (o : option A) : bool :=
  match o with Some _ => true | None => false end.

(** What pattern 1, 2 and 3 add to [all_found_dates] for one span. *)
Definition span_via_pattern1 (span_text : string) : list candidate :=
  match search time_date_re span_text with
  | Some m => appended (span_timed_candidate span_text m)
  | None => []
  end.

Definition span_via_pattern2 (span_text : string) : list candidate :=
  let time_date_match := search time_date_re span_text in
  match search date_re span_text with
  | Some m =>
      if negb (is_some time_date_match) then appended (span_simple_candidate m)
      else []
  | None => []
  end.

Definition span_via_pattern3 (span_text : string) : list candidate :=
  let time_date_match := search time_date_re span_text in
  let date_match := search date_re span_text in
  match search alt_date_re span_text with
  | Some m =>
      if negb (is_some time_date_match) && negb (is_some date_match)
      then appended (span_alt_candidate m)
      else []
  | None => []
  end.

Definition scan_span (span_text : string) : list candidate :=
  span_via_pattern1 span_text ++ span_via_pattern2 span_text
  ++ span_via_pattern3 span_text.

(** [all_found_dates] after the loop over the spans. *)
Definition scan_spans (date_spans : list string) : list candidate :=
  flat_map scan_span date_spans.

(** ** The page source (lines 349-409) *)

(** The tuple [re.findall] gives for a match of a pattern with [n] groups. *)
Definition match_tuple (n : nat) (m : rematch) : list string :=
  map (fun i => group_or_empty i m) (seq 1 n).

Definition item (i : nat) (t : list string) : string := nth i t "".

(** "Format the date string" (lines 372-376):
    [f"{month} {day}, {year} at {match[3]}:{match[4]}"], then the seconds
    when there are some, then the AM/PM mark. *)
Definition format_timed (month : string) (day year : Z)
           (hour minute second ampm : string) : string :=
  let formatted_date :=
    month ++ " " ++ str_of_Z day ++ ", " ++ str_of_Z year ++ " at "
    ++ hour ++ ":" ++ minute in
  let formatted_date :=
    if truthy second then formatted_date ++ ":" ++ second else formatted_date in
  formatted_date ++ " " ++ ampm.

(** The body of [for match in matches], for one tuple. *)
Definition source_candidate (mt : list string) : result candidate :=
  if 7 <=? List.length mt then
    let month := item 0 mt in
    day <-? py_int (item 1 mt) ;;
    year <-? py_int (item 2 mt) ;;
    hour <-? py_int (item 3 mt) ;;
    minute <-? py_int (item 4 mt) ;;
    let hour := adjust_hour hour (item 6 mt) in
    second <-? seconds_of (item 5 mt) ;;
    let formatted_date :=
      format_timed month day year (item 3 mt) (item 4 mt) (item 5 mt) (item 6 mt) in
    date_obj <-? mk_datetime year (month_num month) day hour minute second ;;
    Ok (date_obj, formatted_date)
  else if 3 <=? List.length mt then
    if is_some (match_ digits_re (item 0 mt)) then
      day <-? py_int (item 0 mt) ;;
      let month := item 1 mt in
      year <-? py_int (item 2 mt) ;;
      let formatted_date := month ++ " " ++ str_of_Z day ++ ", " ++ str_of_Z year in
      date_obj <-? mk_datetime year (month_num month) day 0 0 0 ;;
      Ok (date_obj, formatted_date)
    else
      let month := item 0 mt in
      day <-? py_int (item 1 mt) ;;
      year <-? py_int (item 2 mt) ;;
      let formatted_date := month ++ " " ++ str_of_Z day ++ ", " ++ str_of_Z year in
      date_obj <-? mk_datetime year (month_num month) day 0 0 0 ;;
      Ok (date_obj, formatted_date)
  else
    Raise (Exn "UnboundLocalError" "local variable 'month' referenced before assignment").

(** [date_patterns], each with the number of its groups. *)
Definition date_patterns : list (regex * nat) :=
  [(time_date_re, 7); (date_re, 3); (alt_date_re, 3)].

(** What one pattern adds to [all_date_objects]. *)
Definition source_via_pattern (p : regex * nat) (page_source : string)
  : list candidate :=
  flat_map (fun m => appended (source_candidate (match_tuple (snd p) m)))
           (findall (fst p) page_source).

(** [all_date_objects] after the loop over the patterns. *)
Definition scan_source (page_source : string) : list candidate :=
  flat_map (fun p => source_via_pattern p page_source) date_patterns.

(** ** Sorting and selection *)

(** [l.sort(key=lambda x: x[0])].  Python's sort is stable, and a stable
    sort has one result only; here it is computed by insertion, an element
    going in front of the first one that is not earlier. *)
Fixpoint insert_by_key (c : candidate) (l : list candidate) : list candidate :=
  match l with
  | [] => [c]
  | d :: l' =>
      if Date.leb (timestamp c) (timestamp d) then c :: d :: l'
      else d :: insert_by_key c l'
  end.

Fixpoint sort_by_key (l : list candidate) : list candidate :=
  match l with
  | [] => []
  | c :: l' => insert_by_key c (sort_by_key l')
  end.

(** [if dates: dates.sort(key=lambda x: x[0]); return dates[0][1]], the
    selection of both paths (lines 240-246 and 412-415). *)
Definition earliest (dates : list candidate) : option string :=
  match dates with
  | [] => None
  | _ =>
      match sort_by_key dates with
      | c :: _ => Some (displayText c)
      | [] => None
      end
  end.


(* ===================================================================== *)
(** * Floats and the count normaliser *)
(* ===================================================================== *)

Module PyFloat.

(** Python's [float] is the IEEE 754 binary64 format. *)
Definition prec : Z := 53.
Definition emax : Z := 1024.

Definition float : Type := spec_float.

(** [float(n)] for an integer. *)
Definition of_Z (n : Z) : float := binary_normalize prec emax n 0 false.

(** The float nearest to [num / den], ties to even, for [0 <= num] and
    [0 < den]. *)
Definition of_ratio (num den : Z) : float :=
  match num, den with
  | Zpos n, Zpos d => SFdiv prec emax (S754_finite false n 0) (S754_finite false d 0)
  | _, _ => S754_zero false
  end.

(** The digits before and after the point of [\d+] or [\d+\.\d+]. *)
Definition decimal_parts (s : string) : option (string * string) :=
  match cut "." s with
  | None => if isdigit s then Some (s, EmptyString) else None
  | Some (a, b) => if isdigit a && isdigit b then Some (a, b) else None
  end.

(** [float(s)].  The source calls it on a count token without its suffix
    letter: digits, commas and at most one point.  Such a string is a
    decimal numeral, correctly rounded, or, with a comma in it, a
    ValueError.  The other spellings [float] reads (signs, exponents,
    blanks, [inf], [nan]) never reach it and are a ValueError here. *)
Definition py_float (s : string) : result float :=
  match decimal_parts s with
  | Some (a, b) =>
      Ok (of_ratio (digits_val 0 (a ++ b)) (10 ^ Z.of_nat (String.length b)))
  | None => Raise (ValueError "could not convert string to float")
  end.

(** [x * n] for a float [x] and an integer [n]. *)
Definition mul_int (x : float) (n : Z) : float := SFmul prec emax x (of_Z n).

(** [int(x)]: truncation towards zero. *)
Definition to_int (x : float) : result Z :=
  match x with
  | S754_zero _ => Ok 0%Z
  | S754_finite s m e =>
      let a := (if 0 <=? e then Zpos m * 2 ^ e else Zpos m / 2 ^ (- e))%Z in
      Ok (if s then (- a)%Z else a)
  | S754_infinity _ => Raise (OverflowError "cannot convert float infinity to integer")
  | S754_nan => Raise (ValueError "cannot convert float NaN to integer")
  end.

End PyFloat.

Export PyFloat.

(** [str(int(float(t) * n))] *)
Definition scaled (t : string) (n : Z) : result string :=
  x <-? py_float t ;;
  i <-? to_int (mul_int x n) ;;
  Ok (str_of_Z i).

(** The block "Convert K/M notation to full numbers" that follows every
    regex capture of a count (lines 455-463, and again in each count
    extractor). *)
Definition normalize_count (view_count : string) : result string :=
  if contains "k" (lower view_count) then
    scaled (replace "k" "" (lower view_count)) 1000
  else if contains "m" (lower view_count) then
    scaled (replace "m" "" (lower view_count)) 1000000
  else
    Ok (replace "," "" view_count).

(* ===================================================================== *)
(** * The browser and the monad of the extractors *)
(* ===================================================================== *)

(** A computation over a world [W]: it leaves a world, and a value or a
    raised exception.  What a call did to the browser stays done when it
    raises. *)
Definition M (W A : Type) : Type := W -> W * result A.

Definition ret (W A : Type) (a : A) : M W A := fun w => (w, Ok a).

Definition bind (W A B : Type) (m : M W A) (f : A -> M W B) : M W B :=
  fun w =>
    match m w with
    | (w', Ok a) => f a w'
    | (w', Raise e) => (w', Raise e)
    end.

(** A pure step that may raise. *)
Definition lift (W A : Type) (r : result A) : M W A := fun w => (w, r).

(** [try: m except Exception as e: h e] *)
Definition try_except (W A : Type) (m : M W A) (h : exn -> M W A) : M W A :=
  fun w =>
    match m w with
    | (w', Ok a) => (w', Ok a)
    | (w', Raise e) => h e w'
    end.

Arguments ret {W A} a.
Arguments bind {W A B} m f.
Arguments lift {W A} r.
Arguments try_except {W A} m h.

Declare Scope py_scope.
Delimit Scope py_scope with py.
Notation "x <- m ;; k" := (bind m (fun x => k))
  (at level 61, m at next level, right associativity) : py_scope.
Notation "m ;; k" := (bind m (fun _ => k))
  (at level 61, right associativity) : py_scope.
Local Open Scope py_scope.

(** A [for] loop whose body may [return]: [Some v] is a return of [v],
    [None] lets the loop go on.  An exception leaves the loop. *)
Fixpoint for_first (W A B : Type) (l : list A) (body : A -> M W (option B))
  : M W (option B) :=
  match l with
  | [] => ret None
  | a :: l' =>
      r <- body a ;;
      match r with
      | Some v => ret (Some v)
      | None => for_first l' body
      end
  end.
Arguments for_first {W A B} l body.

(** A block of statements that may [return]: when it does not, the
    statements after it run. *)
Definition or_else (W A : Type) (block : M W (option A)) (rest : M W A) : M W A :=
  r <- block ;;
  match r with
  | Some v => ret v
  | None => rest
  end.
Arguments or_else {W A} block rest.

(** The scripts that return one text, or null. *)
Inductive text_script : Type :=
| views_js
| upvote_specific_js       (* js_specific_finder of extract_upvote_count *)
| upvote_finder_js         (* js_upvote_finder *)
| comment_specific_js      (* js_specific_finder of extract_comment_count *)
| comment_finder_js        (* js_comment_finder *)
| shares_js.

(** The page renderer.  [E] is the type of element handles.  Each script is
    typed by what its last statement returns: [date_spans_js] an array of
    texts, [find_creation_js] null or an object with the keys [element] and
    [dateText], the others a text or null. *)
Record driver (W E : Type) : Type := MkDriver {
  get : string -> M W unit;                        (* driver.get(url) *)
  current_url : M W string;                        (* driver.current_url *)
  page_source : M W string;                        (* driver.page_source *)
  title : M W string;                              (* driver.title *)
  find_element : string -> M W E;                  (* find_element(By.XPATH, x) *)
  find_elements : string -> M W (list E);          (* find_elements(By.XPATH, x) *)
  text : E -> M W string;                          (* element.text *)
  wait_for_body : M W unit;                        (* WebDriverWait(driver, 15).until(...) *)
  execute_date_spans : M W (list string);
  execute_find_creation : M W (option (string * string));
  execute_text_script : text_script -> M W (option string);
  sleep : nat -> W -> W;                           (* time.sleep(n) *)
  now : W -> W * datetime                          (* datetime.datetime.now() *)
}.

(** [urllib.parse]: the parts of a parsed URL.  [urlparse] and [urlunsplit]
    are library functions, taken as given. *)
Record parsed_url : Type := MkParsed {
  scheme : string; netloc : string; path : string; query : string;
  fragment : string
}.

(** The AnswerRecord: the dictionary [scrape_quora_answer] returns.  A key
    that a dictionary may lack is an option. *)
Record stats : Type := MkStats {
  views : string; upvotes : string; comments : string; shares : string
}.

Record answer_record : Type := MkRecord {
  answer_url : string;
  base_url : string;
  author : string;
  post_date : string;
  record_stats : stats;
  scraped_at : string;
  is_deleted : option bool;
  error : option string
}.

Section Extractors.

Context {W E : Type}.
Variable drv : driver W E.
Variable urlparse : string -> result parsed_url.
Variable urlunsplit : string -> string -> string -> string -> string -> string.

Definition do_sleep (n : nat) : M W unit := fun w => (sleep drv n w, Ok tt).
Definition get_now : M W datetime := fun w => let (w', t) := now drv w in (w', Ok t).

(** ** extract_author_name *)

Definition author_selectors : list string :=
  ["//div[contains(@class, 'q-box')]//a[contains(@class, 'qu-bold')]/span";
   "//div[contains(@class, 'q-box')]//span[contains(@class, 'qu-bold')]";
   "//span[contains(@class, 'qu-bold--done')]";
   "//div[contains(@class, 'qu-borderBottom')]//span[contains(@class, 'qu-bold')]"].

(** [name and len(name) > 1 and "answer" not in name.lower()] *)
Definition plausible_author (name : string) : bool :=
  truthy name && (1 <? String.length name) && negb (contains "answer" (lower name)).

(** The loop over the selectors (lines 32-41). *)
Definition author_from_selectors : M W (option string) :=
  for_first author_selectors (fun selector =>
    try_except
      (author_elements <- find_elements drv selector ;;
       for_first author_elements (fun element =>
         t <- text drv element ;;
         let name := strip t in
         if plausible_author name then ret (Some name) else ret None))
      (fun _ => ret None)).

(** [current_url.split('/answer/')[1].split('/')[0].replace('-', ' ')] *)
Definition username_of_url (current_url : string) : result string :=
  match nth_error (split "/answer/" current_url) 1 with
  | None => Raise (IndexError "list index out of range")
  | Some after =>
      match nth_error (split "/" after) 0 with
      | None => Raise (IndexError "list index out of range")
      | Some seg => Ok (replace "-" " " seg)
      end
  end.

(** The fallback on the URL (lines 43-50). *)
Definition author_from_url : M W string :=
  url <- current_url drv ;;
  if contains "/answer/" url then lift (username_of_url url)
  else ret "Name not found".

Definition extract_author_name : M W string :=
  try_except
    (or_else author_from_selectors author_from_url)
    (fun _ => ret "Error extracting name").

(** ** extract_post_date *)

Definition login_indicators : list string :=
  ["Something went wrong"; "You need to login to view this page";
   "Log in to Quora"; "Page not found";
   "This content isn't available right now"; "Error";
   "The page you requested was not found"].

(** The loop over the indicators (lines 93-96): only the texts count. *)
Definition restricted_access (page_source : string) : bool :=
  existsb (fun indicator => contains indicator page_source) login_indicators.

Definition log_url_of (answer_url : string) : string :=
  if negb (endswith "/log" answer_url) && negb (contains "/log/" answer_url)
  then answer_url ++ "/log" else answer_url.

(** "Return to original URL before returning the date". *)
Definition return_after_going_back (original_url date : string)
  : M W (option string) :=
  get drv original_url ;; do_sleep 3 ;; ret (Some date).

(** The text built from the match of the creation pattern (lines 312-318). *)
Definition creation_display (m : rematch) : string :=
  let simple :=
    group_or_empty 1 m ++ " " ++ group_or_empty 2 m ++ ", " ++ group_or_empty 3 m in
  if truthy (group_or_empty 4 m) then
    let formatted_date :=
      simple ++ " at " ++ group_or_empty 4 m ++ ":" ++ group_or_empty 5 m in
    let formatted_date :=
      if truthy (group_or_empty 6 m)
      then formatted_date ++ ":" ++ group_or_empty 6 m else formatted_date in
    formatted_date ++ " " ++ group_or_empty 7 m
  else simple.

(** The creation marker (lines 257-327). *)
Definition date_from_creation_marker (original_url : string)
  : M W (option string) :=
  try_except
    (creation_info <- execute_find_creation drv ;;
     match creation_info with
     | Some (_, dateText) =>
         match search creation_date_re dateText with
         | Some m => return_after_going_back original_url (creation_display m)
         | None => ret None
         end
     | None => ret None
     end)
    (fun _ => ret None).

(** The log page (lines 99-329). *)
Definition date_from_log_page (original_url : string) : M W (option string) :=
  try_except
    (date_spans <- execute_date_spans drv ;;
     match date_spans with
     | [] => ret None
     | _ =>
         let all_found_dates := scan_spans date_spans in
         match earliest all_found_dates with
         | Some earliest_formatted_date =>
             return_after_going_back original_url earliest_formatted_date
         | None => date_from_creation_marker original_url
         end
     end)
    (fun _ => ret None).

(** The page source (lines 332-427). *)
Definition date_from_page_source (original_url page_source : string)
  : M W (option string) :=
  try_except
    (let all_date_objects := scan_source page_source in
     match earliest all_date_objects with
     | Some earliest_date => return_after_going_back original_url earliest_date
     | None => ret None
     end)
    (fun _ => ret None).

(** The sentinel (lines 429-437). *)
Definition approximate_date (original_url : string) (system_now : datetime)
  : M W string :=
  get drv original_url ;; do_sleep 3 ;;
  let current_date := strftime_BdY system_now in
  ret ("Approx. " ++ current_date).

Definition extract_post_date (answer_url : string) : M W string :=
  system_now <- get_now ;;
  original_url <- current_url drv ;;
  let log_url := log_url_of answer_url in
  get drv log_url ;;
  do_sleep 5 ;;
  page_source <- page_source drv ;;
  (* the list of indicators reads the current URL *)
  _ <- current_url drv ;;
  or_else
    (if negb (restricted_access page_source) then date_from_log_page original_url
     else ret None)
    (or_else
       (date_from_page_source original_url page_source)
       (approximate_date original_url system_now)).

(** ** The count extractors *)

(** After a match: [count = m.group(1)], then the conversion and the
    [return] of its result. *)
Definition return_count (m : rematch) : M W (option string) :=
  v <- lift (normalize_count (group_or_empty 1 m)) ;;
  ret (Some v).

(** [m = re.search(r, text)], [if m: ...] *)
Definition count_in (searcher : regex -> string -> option rematch) (r : regex)
           (text : string) : M W (option string) :=
  match searcher r text with
  | Some m => return_count m
  | None => ret None
  end.

(** The loop over text selectors that the four extractors share:
    [for selector in selectors: try: ...for element in elements: ...
    except: continue], the element text stripped and lower-cased, searched
    when it contains [word]. *)
Definition count_from_selectors (selectors : list string) (word : string)
           (searcher : regex -> string -> option rematch) (r : regex)
  : M W (option string) :=
  for_first selectors (fun selector =>
    try_except
      (elements <- find_elements drv selector ;;
       for_first elements (fun element =>
         t <- text drv element ;;
         let text := lower (strip t) in
         if contains word text then count_in searcher r text else ret None))
      (fun _ => ret None)).

(** *** extract_view_count *)

Definition view_xpath : string :=
  "//div[contains(@class, 'qu-color--gray_light')]//span[contains(@class, 'c1h7helg')][1]".

Definition view_selectors : list string :=
  ["//span[contains(text(), 'views')]";
   "//div[contains(text(), 'views')]";
   "//span[contains(@class, 'c1h7helg')]"].

(** Lines 444-465. *)
Definition views_from_xpath : M W (option string) :=
  try_except
    (view_element <- find_element drv view_xpath ;;
     t <- text drv view_element ;;
     let views_text := strip t in
     if contains "views" (lower views_text)
     then count_in search views_re views_text
     else ret None)
    (fun _ => ret None).

(** Lines 467-495. *)
Definition views_from_selectors : M W (option string) :=
  count_from_selectors view_selectors "views" search views_re.

(** Lines 497-519. *)
Definition views_from_script : M W (option string) :=
  views_text <- execute_text_script drv views_js ;;
  match views_text with
  | Some views_text =>
      if truthy views_text then count_in search views_re views_text else ret None
  | None => ret None
  end.

Definition extract_view_count : M W string :=
  try_except
    (or_else views_from_xpath
       (or_else views_from_selectors
          (or_else views_from_script
             (ret "0"))))
    (fun _ => ret "0").

(** *** extract_upvote_count *)

Definition upvote_xpath : string :=
  "/html/body/div[2]/div/div[2]/div/div[3]/div/div/div/div[1]/div[1]/div[6]/div/div/div/div[1]/div[1]/div/div/div/button/div[2]/div/span/span[4]/div/span[2]".

Definition upvote_buttons_xpath : string :=
  "//button[contains(@aria-label, 'Upvote')]".

Definition upvote_selectors : list string :=
  ["//span[contains(text(), 'upvotes')]";
   "//div[contains(text(), 'upvotes')]";
   "//div[contains(@class, 'qu-color--gray_light')]//span[contains(@class, 'c1h7helg')][contains(text(), 'upvotes')]"].

(** [upvote_count and upvote_count.isdigit() and len(upvote_count) < 10] *)
Definition plausible_upvote (upvote_count : string) : bool :=
  truthy upvote_count && isdigit upvote_count && (String.length upvote_count <? 10).

(** [digits and len(digits) < 10] *)
Definition plausible_upvote_digits (digits : string) : bool :=
  truthy digits && (String.length digits <? 10).

(** [x = driver.execute_script(js)], [if x: return x], in a [try]. *)
Definition text_from_script (js : text_script) : M W (option string) :=
  try_except
    (r <- execute_text_script drv js ;;
     match r with
     | Some t => if truthy t then ret (Some t) else ret None
     | None => ret None
     end)
    (fun _ => ret None).

(** Lines 531-541. *)
Definition upvotes_from_xpath : M W (option string) :=
  try_except
    (upvote_element <- find_element drv upvote_xpath ;;
     t <- text drv upvote_element ;;
     let upvote_count := strip t in
     if plausible_upvote upvote_count then ret (Some upvote_count) else ret None)
    (fun _ => ret None).

(** Lines 621-632. *)
Definition upvotes_from_buttons : M W (option string) :=
  try_except
    (upvote_buttons <- find_elements drv upvote_buttons_xpath ;;
     for_first upvote_buttons (fun button =>
       t <- text drv button ;;
       let button_text := strip t in
       let digits := digits_of button_text in
       if plausible_upvote_digits digits then ret (Some digits) else ret None))
    (fun _ => ret None).

(** Lines 634-662. *)
Definition upvotes_from_selectors : M W (option string) :=
  count_from_selectors upvote_selectors "upvote" search_i upvotes_re.

Definition extract_upvote_count : M W string :=
  try_except
    (or_else upvotes_from_xpath
       (or_else (text_from_script upvote_specific_js)
          (or_else (text_from_script upvote_finder_js)
             (or_else upvotes_from_buttons
                (or_else upvotes_from_selectors
                   (ret "0"))))))
    (fun _ => ret "0").

(** *** extract_comment_count *)

Definition comment_xpath : string :=
  "/html/body/div[2]/div/div[2]/div/div[3]/div/div/div/div[1]/div[1]/div[6]/div/div/div/div[1]/div[2]/div/div/div/button/div/div[2]/span[2]".

Definition comment_spans_xpath : string :=
  "//button[contains(@aria-label, 'comment') or contains(@aria-label, 'Comment')]//div[contains(@class, 'q-text')]//span[contains(@class, 'q-text') and not(contains(@class, 'qu-visibility--hidden'))]".

Definition comment_buttons_xpath : string :=
  "//button[contains(@aria-label, 'Comment') or contains(@aria-label, 'comment')]".

Definition comment_selectors : list string :=
  ["//span[contains(text(), 'comments')]";
   "//div[contains(text(), 'comments')]"].

(** [text and text.isdigit()] *)
Definition plausible_digits (text : string) : bool := truthy text && isdigit text.

(** Lines 675-684. *)
Definition comments_from_xpath : M W (option string) :=
  try_except
    (comment_element <- find_element drv comment_xpath ;;
     t <- text drv comment_element ;;
     let comment_count := strip t in
     if plausible_digits comment_count then ret (Some comment_count) else ret None)
    (fun _ => ret None).

(** Lines 713-722. *)
Definition comments_from_spans : M W (option string) :=
  try_except
    (comment_spans <- find_elements drv comment_spans_xpath ;;
     for_first comment_spans (fun span =>
       t <- text drv span ;;
       let text := strip t in
       if plausible_digits text then ret (Some text) else ret None))
    (fun _ => ret None).

(** Lines 725-739. *)
Definition comments_from_buttons : M W (option string) :=
  try_except
    (comment_buttons <- find_elements drv comment_buttons_xpath ;;
     for_first comment_buttons (fun button =>
       t <- text drv button ;;
       let button_text := strip t in
       if plausible_digits button_text then ret (Some button_text)
       else
         let digits := digits_of button_text in
         if truthy digits then ret (Some digits) else ret None))
    (fun _ => ret None).

(** Lines 774-801. *)
Definition comments_from_selectors : M W (option string) :=
  count_from_selectors comment_selectors "comment" search_i comments_re.

Definition extract_comment_count : M W string :=
  try_except
    (or_else comments_from_xpath
       (or_else (text_from_script comment_specific_js)
          (or_else comments_from_spans
             (or_else comments_from_buttons
                (or_else (text_from_script comment_finder_js)
                   (or_else comments_from_selectors
                      (ret "0")))))))
    (fun _ => ret "0").

(** *** extract_share_count *)

Definition share_selectors : list string :=
  ["//span[contains(text(), 'shares')]";
   "//div[contains(text(), 'shares')]";
   "//div[contains(@class, 'qu-color--gray_light')]//span[contains(@class, 'c1h7helg')][contains(text(), 'shares')]"].

Definition share_buttons_xpath : string :=
  "//button[contains(@aria-label, 'Share')]".

(** Lines 820-841. *)
Definition shares_from_selectors : M W (option string) :=
  count_from_selectors share_selectors "shares" search_i view_shares_re.

(** Lines 843-852. *)
Definition shares_from_buttons : M W (option string) :=
  try_except
    (share_buttons <- find_elements drv share_buttons_xpath ;;
     for_first share_buttons (fun button =>
       t <- text drv button ;;
       let button_text := strip t in
       if plausible_digits button_text then ret (Some button_text) else ret None))
    (fun _ => ret None).

(** Lines 854-876. *)
Definition shares_from_script : M W (option string) :=
  shares_text <- execute_text_script drv shares_js ;;
  match shares_text with
  | Some shares_text =>
      if truthy shares_text then count_in search_i shares_re shares_text
      else ret None
  | None => ret None
  end.

Definition extract_share_count : M W string :=
  try_except
    (or_else shares_from_selectors
       (or_else shares_from_buttons
          (or_else shares_from_script
             (ret "0"))))
    (fun _ => ret "0").

(** ** extract_base_url *)

Definition extract_base_url (answer_url : string) : string :=
  match urlparse answer_url with
  | Ok parsed_url =>
      let path := path parsed_url in
      if contains "/answer/" path then
        match split "/answer/" path with
        | base_path :: _ =>
            urlunsplit (scheme parsed_url) (netloc parsed_url) base_path
                       (query parsed_url) (fragment parsed_url)
        | [] => answer_url
        end
      else answer_url
  | Raise _ => answer_url
  end.

(** ** scrape_quora_answer *)

Definition deletion_indicators : list string :=
  ["//div[contains(text(), 'Quora deleted this answer')]";
   "//div[contains(text(), 'deleted by Quora Moderation')]";
   "//div[contains(text(), 'Quora deleted this')]"].

(** The deletion check (lines 944-959): [is_deleted] stays [False] when a
    lookup raises. *)
Definition check_deleted : M W bool :=
  try_except
    (r <- for_first deletion_indicators (fun indicator =>
            deletion_elements <- find_elements drv indicator ;;
            match deletion_elements with
            | [] => ret None
            | _ => ret (Some true)
            end) ;;
     match r with
     | Some b => ret b
     | None => ret false
     end)
    (fun _ => ret false).

Definition zero_stats : stats := MkStats "0" "0" "0" "0".

(** The body of the [try] (lines 926-1017). *)
Definition scrape_body (url : string) : M W answer_record :=
  get drv url ;;
  wait_for_body drv ;;
  do_sleep 3 ;;
  _ <- current_url drv ;;
  _ <- title drv ;;
  let base_url := extract_base_url url in
  is_deleted <- check_deleted ;;
  if is_deleted : bool then
    let author_name := "POST DELETED" in
    post_date <- extract_post_date url ;;
    scraped_at <- get_now ;;
    ret (MkRecord url base_url author_name post_date zero_stats
                  (isoformat scraped_at) (Some is_deleted) None)
  else
    author_name <- extract_author_name ;;
    post_date <- extract_post_date url ;;
    view_count <- extract_view_count ;;
    upvote_count <- extract_upvote_count ;;
    comment_count <- extract_comment_count ;;
    share_count <- extract_share_count ;;
    scraped_at <- get_now ;;
    ret (MkRecord url base_url author_name post_date
                  (MkStats view_count upvote_count comment_count share_count)
                  (isoformat scraped_at) (Some is_deleted) None).

(** The handler (lines 1019-1034): the dictionary has no key [is_deleted]. *)
Definition error_record (url : string) (e : exn) : M W answer_record :=
  scraped_at <- get_now ;;
  ret (MkRecord url (extract_base_url url) "Error" "Error" zero_stats
                (isoformat scraped_at) None (Some (exn_text e))).

Definition scrape_quora_answer (url : string) : M W answer_record :=
  try_except (scrape_body url) (error_record url).

End Extractors.

(* ===================================================================== *)
(** * [main.py]: the rows of the sheet, the update of the sheet, the code *)
(* ===================================================================== *)

(** The spreadsheet is an oracle like the browser: a call takes the world
    and gives the next world with a value or a raised exception.  A cell
    is a [string], a row a list of cells, as [gspread] returns them. *)

Definition is_lower (c : ascii) : bool :=
  (97 <=? code c) && (code c <=? 122).

Definition upper_char (c : ascii) : ascii :=
  if is_lower c then ascii_of_nat (code c - 32) else c.

(** [s.upper()] *)
Fixpoint upper (s : string) : string :=
  match s with
  | EmptyString => EmptyString
  | String c s' => String (upper_char c) (upper s')
  end.

(** [m.group()]: the text of the match, in the searched text [s]. *)
Definition matched_text (s : string) (m : rematch) : string :=
  take (m_len m) (drop (m_start m) s).

(** ** get_urls_from_sheet: the range and the rows (lines 808-858) *)

(** An entry of [processed_urls]: [{'row': i, 'url': ...}]. *)
Record row_task : Type := MkTask { task_row : Z; task_url : string }.

(** "Ensure we're starting from row 2 to skip the header" (lines 814-816). *)
Definition adjust_range (url_range : string) : result string :=
  if startswith "A1:" url_range then
    match nth_error (split ":" url_range) 1 with
    | Some b => Ok ("A2:" ++ b)
    | None => Raise (IndexError "list index out of range")
    end
  else Ok url_range.

(** [int(re.search(r'\d+', url_range.split(':')[0]).group())] (line 819). *)
Definition start_row_of (url_range : string) : result Z :=
  match nth_error (split ":" url_range) 0 with
  | Some a =>
      match search digits_re a with
      | Some m => py_int (matched_text a m)
      | None =>
          Raise (Exn "AttributeError" "'NoneType' object has no attribute 'group'")
      end
  | None => Raise (IndexError "list index out of range")
  end.

(** [f'P{start_row}:P{start_row + len(urls_data)}'] (line 821). *)
Definition flags_range (start_row : Z) (n : nat) : string :=
  "P" ++ str_of_Z start_row ++ ":P" ++ str_of_Z (start_row + Z.of_nat n).

(** "Extend processed_flags if needed" (lines 826-827). *)
Definition extend_flags (processed_flags : list (list string)) (n : nat)
  : list (list string) :=
  if List.length processed_flags <? n
  then (processed_flags ++ repeat ["FALSE"] (n - List.length processed_flags))%list
  else processed_flags.

(** [not url_row or not url_row[0].strip()] *)
Definition blank_row (url_row : list string) : bool :=
  match url_row with
  | [] => true
  | u :: _ => negb (truthy (strip u))
  end.

(** [flag_row and flag_row[0].strip().upper() == 'TRUE'] *)
Definition is_processed (flag_row : list string) : bool :=
  match flag_row with
  | [] => false
  | f :: _ => String.eqb (upper (strip f)) "TRUE"
  end.

(** [max_urls and len(processed_urls) >= max_urls]: [None] and 0 are
    false, so they set no limit. *)
Definition limit_reached (max_urls : option Z) (n : nat) : bool :=
  match max_urls with
  | None => false
  | Some k => negb (k =? 0)%Z && (k <=? Z.of_nat n)%Z
  end.

(** [url_row[0].strip().replace("@", "")] *)
Definition clean_url (url_row : list string) : string :=
  match url_row with
  | [] => EmptyString
  | u :: _ => replace "@" "" (strip u)
  end.

(** The loop of lines 834-853 over [enumerate(zip(urls_data,
    processed_flags), start=start_row)]: [i] is the row of the head of
    [rows], [processed_urls] the list built so far; the [break] returns
    it. *)
Fixpoint select_rows (max_urls : option Z) (i : Z)
         (rows : list (list string * list string))
         (processed_urls : list row_task) : list row_task :=
  match rows with
  | [] => processed_urls
  | (url_row, flag_row) :: rest =>
      if blank_row url_row then
        select_rows max_urls (i + 1) rest processed_urls
      else if is_processed flag_row then
        select_rows max_urls (i + 1) rest processed_urls
      else if negb (blank_row url_row) then
        let processed_urls := (processed_urls ++ [MkTask i (clean_url url_row)])%list in
        if limit_reached max_urls (List.length processed_urls)
        then processed_urls
        else select_rows max_urls (i + 1) rest processed_urls
      else select_rows max_urls (i + 1) rest processed_urls
  end.

(** [processed_urls] from the two ranges read (lines 826-853). *)
Definition select_urls (urls_data processed_flags : list (list string))
           (start_row : Z) (max_urls : option Z) : list row_task :=
  select_rows max_urls start_row
              (combine urls_data (extend_flags processed_flags (List.length urls_data)))
              [].

(** [is_quora_url] (lines 898-900) and the filter of [main] (line 1004). *)
Definition is_quora_url (url : string) : bool := contains "quora.com" url.

Definition quora_tasks (urls : list row_task) : list row_task :=
  filter (fun t => is_quora_url (task_url t)) urls.

(** The worksheet, with the pause [time.sleep(random.uniform(3, 7))]. *)
Record worksheet (W : Type) : Type := MkSheet {
  get_all_values : M W (list (list string));
  get_values : string -> M W (list (list string));
  update : Z -> Z -> string -> M W unit;          (* sheet.update_cell(row, col, value) *)
  random_pause : W -> W
}.

(** The body of the [try] that follows the opening of the worksheet
    (lines 808-858); the list is what the function returns with the
    sheet. *)
Definition worksheet_rows (W : Type) (sheet : worksheet W)
           (url_range : string) (max_urls : option Z) : M W (list row_task) :=
  _ <- get_all_values sheet ;;
  url_range <- lift (adjust_range url_range) ;;
  start_row <- lift (start_row_of url_range) ;;
  urls_data <- get_values sheet url_range ;;
  processed_flags <- get_values sheet (flags_range start_row (List.length urls_data)) ;;
  ret (select_urls urls_data processed_flags start_row max_urls).

(** ** process_quora_urls (lines 902-968) *)

(** [t.strftime("%Y-%m-%d %H:%M:%S")], for a year of four digits. *)
Definition strftime_YmdHMS (t : datetime) : string :=
  str_of_Z (year t) ++ "-" ++ pad2 (month t) ++ "-" ++ pad2 (day t) ++ " "
  ++ pad2 (hour t) ++ ":" ++ pad2 (minute t) ++ ":" ++ pad2 (second t).

(** An update the sheet accepted: row, column, value. *)
Definition cell_write : Type := (Z * Z * string)%type.

(** An entry of [results]: [{"row": row, "data": result}]. *)
Record row_result : Type := MkResult { result_row : Z; data : answer_record }.

Section Processing.

Context {W E : Type}.
Variable drv : driver W E.
Variable urlparse : string -> result parsed_url.
Variable urlunsplit : string -> string -> string -> string -> string -> string.
Variable sheet : worksheet W.

(** The world with the list of the updates the sheet accepted so far, kept
    to state what was written and in which order. *)
Definition logged : Type := (W * list cell_write)%type.

Definition off_sheet (A : Type) (m : M W A) : M logged A :=
  fun wl => let (w', r) := m (fst wl) in ((w', snd wl), r).

(** [sheet.update_cell(row, col, value)] *)
Definition update_cell (row col : Z) (value : string) : M logged unit :=
  fun wl =>
    match update sheet row col value (fst wl) with
    | (w', Ok _) => ((w', (snd wl ++ [(row, col, value)])%list), Ok tt)
    | (w', Raise e) => ((w', snd wl), Raise e)
    end.

(** The body of the [try] of lines 921-952. *)
Definition update_row (row : Z) (result : answer_record) : M logged unit :=
  update_cell row 2 (base_url result) ;;
  update_cell row 7 (author result) ;;
  update_cell row 8 (post_date result) ;;
  update_cell row 9 (views (record_stats result)) ;;
  update_cell row 10 (upvotes (record_stats result)) ;;
  update_cell row 11 (comments (record_stats result)) ;;
  update_cell row 12 (shares (record_stats result)) ;;
  timestamp <- off_sheet (get_now drv) ;;
  update_cell row 13 (strftime_YmdHMS timestamp) ;;
  update_cell row 16 "TRUE" ;;
  off_sheet (do_sleep drv 2).

(** The loop over [quora_urls]; [results] is the list built so far. *)
Fixpoint process_loop (quora_urls : list row_task) (results : list row_result)
  : M logged (list row_result) :=
  match quora_urls with
  | [] => ret results
  | url_data :: rest =>
      let row := task_row url_data in
      let url := task_url url_data in
      result <- off_sheet (scrape_quora_answer drv urlparse urlunsplit url) ;;
      if is_some (error result) then process_loop rest results
      else
        try_except (update_row row result) (fun _ => ret tt) ;;
        let results := (results ++ [MkResult row result])%list in
        off_sheet (fun w => (random_pause sheet w, Ok tt)) ;;
        process_loop rest results
  end.

Definition process_quora_urls (quora_urls : list row_task)
  : M logged (list row_result) :=
  process_loop quora_urls [].

End Processing.

(** ** get_2fa_code_from_sheet (lines 199-247) *)

(** The client, the spreadsheet [Sp] and the sheet [Sh] of the code, with
    the clock and the pause the function uses. *)
Record code_client (W Sp Sh : Type) : Type := MkClient {
  open_by_key : string -> M W Sp;
  worksheet_named : Sp -> string -> M W Sh;
  add_worksheet : Sp -> string -> M W Sh;
  acell_value : Sh -> string -> M W (option string);   (* acell(...).value *)
  update_code_cell : Sh -> Z -> Z -> string -> M W unit;
  wait_seconds : nat -> W -> W;
  read_clock : W -> W * datetime
}.

(** [try: m except cls: h] for one class of exceptions. *)
Definition try_only (W A : Type) (cls : string) (m : M W A) (h : M W A) : M W A :=
  fun w =>
    match m w with
    | (w', Ok a) => (w', Ok a)
    | (w', Raise e) =>
        if String.eqb (exn_class e) cls then h w' else (w', Raise e)
    end.

(** [code_cell and code_cell.strip().isdigit() and len(code_cell.strip()) >= 4] *)
Definition looks_like_code (code_cell : option string) : bool :=
  match code_cell with
  | None => false
  | Some c =>
      truthy c && isdigit (strip c) && (4 <=? String.length (strip c))
  end.

Section TwoFactor.

Context {W Sp Sh : Type}.
Variable gc : code_client W Sp Sh.

(** The sheet "Code", created when it is missing (lines 211-218). *)
Definition code_sheet_of (spreadsheet : Sp) : M W Sh :=
  try_only "WorksheetNotFound"
    (worksheet_named gc spreadsheet "Code")
    (code_sheet <- add_worksheet gc spreadsheet "Code" ;;
     update_code_cell gc code_sheet 1 1 "Enter 2FA code here when prompted" ;;
     ret code_sheet).

(** [for attempt in range(max_attempts)], from [attempt] on with [todo]
    attempts left (lines 221-241). *)
Fixpoint read_code (code_sheet : Sh) (max_attempts retry_interval : nat)
         (attempt todo : nat) : M W (option string) :=
  match todo with
  | O => ret None
  | S todo' =>
      code_cell <- acell_value gc code_sheet "A1" ;;
      if looks_like_code code_cell then
        let code := strip (match code_cell with Some c => c | None => EmptyString end) in
        t <- (fun w => let (w', t) := read_clock gc w in (w', Ok t)) ;;
        update_code_cell gc code_sheet 1 1
          ("Code used at " ++ strftime_YmdHMS t) ;;
        ret (Some code)
      else
        (if attempt <? max_attempts - 1
         then (fun w => (wait_seconds gc retry_interval w, Ok tt))
         else ret tt) ;;
        read_code code_sheet max_attempts retry_interval (S attempt) todo'
  end.

Definition get_2fa_code_from_sheet (spreadsheet_id : string)
           (max_attempts retry_interval : nat) : M W (option string) :=
  try_except
    (spreadsheet <- open_by_key gc spreadsheet_id ;;
     code_sheet <- code_sheet_of spreadsheet ;;
     read_code code_sheet max_attempts retry_interval 0 max_attempts)
    (fun _ => ret None).

End TwoFactor.

(* ===================================================================== *)
(** * Vocabulary of the statements *)
(* ===================================================================== *)

(** A character test holds nowhere in [s]. *)
Definition free_of (p : ascii -> bool) (s : string) : bool :=
  all_chars (fun c => negb (p c)) s.

Section Captures.

Variable ic : bool.

(** [P i w]: the text [w] is acceptable for group [i]. *)
Variable P : nat -> string -> Prop.

Definition caps_ok (cs : caps) : Prop := Forall (fun iw => P (fst iw) (snd iw)) cs.

(** Every group of [r] captures acceptable texts only. *)
Fixpoint groups_ok (r : regex) : Prop :=
  match r with
  | Eps | Chr _ => True
  | Seq r1 r2 | Alt r1 r2 => groups_ok r1 /\ groups_ok r2
  | Star r1 => groups_ok r1
  | Group i r1 => (forall w, lang ic r1 w -> P i w) /\ groups_ok r1
  end.

(** Group [i] takes part in every match of [r]. *)
Fixpoint mandatory (i : nat) (r : regex) : bool :=
  match r with
  | Eps | Chr _ | Star _ => false
  | Seq r1 r2 => mandatory i r1 || mandatory i r2
  | Alt r1 r2 => mandatory i r1 && mandatory i r2
  | Group j r1 => Nat.eqb i j || mandatory i r1
  end.

Definition has (i : nat) (cs : caps) : bool := is_some (cap_get i cs).

End Captures.

(** A match of the whole text. *)
Definition fullmatch (ic : bool) (r : regex) (s : string) : bool :=
  is_some (rmatch ic r s []
             (fun s' _ => match s' with EmptyString => Some tt | _ => None end)).


(** The order of the candidates by timestamp. *)
Definition key_le (c d : candidate) : Prop :=
  Date.leb (timestamp c) (timestamp d) = true.


(* ===================================================================== *)
(** * A scripted browser, for runs on concrete pages *)
(* ===================================================================== *)

(** A browser that shows the same page whatever the URL: its source, its
    date spans, the texts of the elements an XPath finds, what the scripts
    return, and whether navigation, look-ups and reading the URL work. *)
Record page : Type := MkPage {
  shown_url : string;
  nav_ok : bool;
  url_ok : bool;
  lookup_ok : bool;
  source : string;
  date_spans : list string;
  creation : option (string * string);
  elements : string -> list string;
  script : text_script -> option string;
  clock : datetime
}.

Definition WebDriverException : exn :=
  Exn "WebDriverException" "Message: unknown error: net::ERR_CONNECTION_RESET".
Definition NoSuchElementException : exn :=
  Exn "NoSuchElementException" "Message: no such element: Unable to locate element".
Definition TimeoutException : exn := Exn "TimeoutException" "Message: ".

Definition with_url (url : string) (p : page) : page :=
  MkPage url (nav_ok p) (url_ok p) (lookup_ok p) (source p) (date_spans p)
         (creation p) (elements p) (script p) (clock p).

Definition guarded (A : Type) (ok : page -> bool) (f : page -> A) : M page A :=
  fun p => if ok p then (p, Ok (f p)) else (p, Raise WebDriverException).

(** An element is its text. *)
Definition scripted : driver page string :=
  {| get := fun url p =>
       if nav_ok p then (with_url url p, Ok tt) else (p, Raise WebDriverException);
     current_url := guarded url_ok shown_url;
     page_source := guarded nav_ok source;
     title := guarded nav_ok (fun _ => "Quora");
     find_element := fun x p =>
       if lookup_ok p then
         match elements p x with
         | e :: _ => (p, Ok e)
         | [] => (p, Raise NoSuchElementException)
         end
       else (p, Raise WebDriverException);
     find_elements := fun x => guarded lookup_ok (fun p => elements p x);
     text := fun e => ret e;
     wait_for_body := fun p =>
       if nav_ok p then (p, Ok tt) else (p, Raise TimeoutException);
     execute_date_spans := guarded lookup_ok date_spans;
     execute_find_creation := guarded lookup_ok creation;
     execute_text_script := fun js => guarded lookup_ok (fun p => script p js);
     sleep := fun _ p => p;
     now := fun p => (p, clock p) |}.

(** [urlparse] and [urlunsplit] for the runs: the path is the whole URL. *)
Definition urlparse_whole (url : string) : result parsed_url :=
  Ok (MkParsed "" "" url "" "").
Definition urlunsplit_path (scheme netloc path query fragment : string) : string :=
  path.

Definition no_elements : string -> list string := fun _ => [].
Definition no_script : text_script -> option string := fun _ => None.

Definition today : datetime := MkDate 2026 11 3 9 30 0.

(** An answer page with nothing to find on it. *)
Definition bare_page (url : string) : page :=
  MkPage url true true true "" [] None no_elements no_script today.

(** The display text rebuilt from the groups of a match of pattern 1. *)
Definition rebuilt_display (m : rematch) : string :=
  format_timed (group_or_empty 1 m)
               (digits_val 0 (group_or_empty 2 m)) (digits_val 0 (group_or_empty 3 m))
               (group_or_empty 4 m) (group_or_empty 5 m) (group_or_empty 6 m)
               (group_or_empty 7 m).

(** The page source of the run for the pattern precedence. *)
Definition timed_source : string := "Answered January 5, 2023 at 3:15 PM".

Definition timed_source_page : page :=
  MkPage "https://x.com/T/answer/A" true true true timed_source [] None
         no_elements no_script today.

(** [^\d+(\.\d+)?[Kk]$], [^\d+(\.\d+)?[Mm]$] and the count token without a
    suffix, [^\d+(?:,\d+)*(?:\.\d+)?$]. *)
Definition count_K_re : regex :=
  seqs [Plus digit; Opt (Seq (chr ".") (Plus digit)); Chr (CSet "Kk")].
Definition count_M_re : regex :=
  seqs [Plus digit; Opt (Seq (chr ".") (Plus digit)); Chr (CSet "Mm")].
Definition plain_count_re : regex :=
  seqs [Plus digit; Star (Seq (chr ",") (Plus digit));
        Opt (Seq (chr ".") (Plus digit))].

(** The characters a word of [r] can be made of. *)
Fixpoint allowed (ic : bool) (r : regex) (c : ascii) : bool :=
  match r with
  | Eps => false
  | Chr cl => class_ok ic cl c
  | Seq r1 r2 | Alt r1 r2 => allowed ic r1 c || allowed ic r2 c
  | Star r1 | Group _ r1 => allowed ic r1 c
  end.

(** A digit, a point or a comma. *)
Definition plain_char (c : ascii) : bool :=
  is_digit c || Ascii.eqb c "." || Ascii.eqb c ",".

(* ===================================================================== *)
(** * Cascades, strategies and their outcomes *)
(* ===================================================================== *)

(** A computation that never raises. *)
Definition total (W A : Type) (m : M W A) : Prop :=
  forall w, exists w' a, m w = (w', Ok a).

(** The blocks of a cascade decline one after the other, from the world [w]
    to the world [w']: each block that runs returns nothing, or raises, and
    a raise ends the cascade. *)
Fixpoint all_decline (W A : Type) (blocks : list (M W (option A))) (w w' : W)
  : Prop :=
  match blocks with
  | [] => w = w'
  | b :: rest =>
      (exists e, b w = (w', Raise e))
      \/ (exists w1, b w = (w1, Ok None) /\ all_decline rest w1 w')
  end.

Inductive count_field : Type := Views | Upvotes | Comments | Shares.

(** The strategies of the count extractors that validate in Python what
    they accept; the others return what a script returned. *)
Inductive strategy : Type :=
| views_xpath | views_selectors | views_script
| upvotes_xpath | upvotes_buttons | upvotes_selectors
| comments_xpath | comments_spans | comments_buttons | comments_selectors
| shares_selectors | shares_buttons | shares_script.

(** The strategies that accept a run of digits as it is. *)
Definition digits_only (s : strategy) : bool :=
  match s with
  | upvotes_xpath | upvotes_buttons
  | comments_xpath | comments_spans | comments_buttons
  | shares_buttons => true
  | _ => false
  end.

(** The strategies with the guard "Avoid large ID numbers". *)
Definition length_guarded (s : strategy) : bool :=
  match s with
  | upvotes_xpath | upvotes_buttons => true
  | _ => false
  end.

Section Cascades.

Context {W E : Type}.
Variable drv : driver W E.

Definition count_extractor (f : count_field) : M W string :=
  match f with
  | Views => extract_view_count drv
  | Upvotes => extract_upvote_count drv
  | Comments => extract_comment_count drv
  | Shares => extract_share_count drv
  end.

(** The blocks of each count extractor, in the order of the source. *)
Definition count_strategies (f : count_field) : list (M W (option string)) :=
  match f with
  | Views =>
      [views_from_xpath drv; views_from_selectors drv; views_from_script drv]
  | Upvotes =>
      [upvotes_from_xpath drv; text_from_script drv upvote_specific_js;
       text_from_script drv upvote_finder_js; upvotes_from_buttons drv;
       upvotes_from_selectors drv]
  | Comments =>
      [comments_from_xpath drv; text_from_script drv comment_specific_js;
       comments_from_spans drv; comments_from_buttons drv;
       text_from_script drv comment_finder_js; comments_from_selectors drv]
  | Shares =>
      [shares_from_selectors drv; shares_from_buttons drv; shares_from_script drv]
  end.

Definition run_strategy (s : strategy) : M W (option string) :=
  match s with
  | views_xpath => views_from_xpath drv
  | views_selectors => views_from_selectors drv
  | views_script => views_from_script drv
  | upvotes_xpath => upvotes_from_xpath drv
  | upvotes_buttons => upvotes_from_buttons drv
  | upvotes_selectors => upvotes_from_selectors drv
  | comments_xpath => comments_from_xpath drv
  | comments_spans => comments_from_spans drv
  | comments_buttons => comments_from_buttons drv
  | comments_selectors => comments_from_selectors drv
  | shares_selectors => shares_from_selectors drv
  | shares_buttons => shares_from_buttons drv
  | shares_script => shares_from_script drv
  end.

End Cascades.

(** The text of [s] before the first [c]. *)
Fixpoint upto (c : ascii) (s : string) : string :=
  match s with
  | EmptyString => EmptyString
  | String a s' => if Ascii.eqb a c then EmptyString else String a (upto c s')
  end.

(** ** Pages of the runs *)

Definition answer_page_url : string := "https://x.com/T/answer/A-B".

(** Reading the URL fails. *)
Definition unreadable_url_page : page :=
  MkPage answer_page_url true false true "" [] None no_elements no_script today.

(** Navigation fails. *)
Definition unreachable_page : page :=
  MkPage answer_page_url false true true "" [] None no_elements no_script today.

(** The element of [comment_xpath] shows a long run of digits. *)
Definition long_digits : string := "12345678901".
Definition long_comment_page : page :=
  MkPage answer_page_url true true true "" [] None
         (fun x => if String.eqb x comment_xpath then [long_digits] else [])
         no_script today.

(** A deleted answer whose log shows two dates. *)
Definition deleted_page : page :=
  MkPage answer_page_url true true true ""
         ["March 3, 2021 at 9:05 PM"; "March 1, 2021 at 10:00 AM"] None
         (fun x => if String.eqb x "//div[contains(text(), 'Quora deleted this answer')]"
                   then ["Quora deleted this answer"] else [])
         no_script today.

(** Every one-character atom of [r] satisfies [Q]. *)
Fixpoint classes_ok (Q : cclass -> Prop) (r : regex) : Prop :=
  match r with
  | Eps => True
  | Chr cl => Q cl
  | Seq r1 r2 | Alt r1 r2 => classes_ok Q r1 /\ classes_ok Q r2
  | Star r1 | Group _ r1 => classes_ok Q r1
  end.

(** Group 1 holds a count token. *)
Definition token_group (ic : bool) (i : nat) (w : string) : Prop :=
  i = 1 -> lang ic count_token_re w.

(** The element of [upvote_xpath] shows "42". *)
Definition upvote_page : page :=
  MkPage answer_page_url true true true "" [] None
         (fun x => if String.eqb x upvote_xpath then ["42"] else [])
         no_script today.

(** A span says "1.2K views". *)
Definition views_page : page :=
  MkPage answer_page_url true true true "" [] None
         (fun x => if String.eqb x "//span[contains(text(), 'views')]"
                   then ["1.2K views"] else [])
         no_script today.

(** What a strategy may return: from a strategy that takes digits, a text
    that passes [isdigit], short when the strategy guards the length; from
    a strategy that searches a phrase, the normalised form of a count
    token. *)
Definition accepted (s : strategy) (v : string) : Prop :=
  if digits_only s
  then isdigit v = true /\ (length_guarded s = true -> String.length v < 10)
  else exists raw, lang false count_token_re raw /\ normalize_count raw = Ok v.

(** What the elements show, and the scripts return, to have the strategy
    [s] meet a count of eleven digits. *)
Definition long_text (s : strategy) : string :=
  match s with
  | views_xpath | views_selectors | views_script => "12345678901 views"
  | upvotes_selectors => "12345678901 upvotes"
  | comments_selectors => "12345678901 comments"
  | shares_selectors | shares_script => "12345678901 shares"
  | _ => long_digits
  end.

Definition long_page (s : strategy) : page :=
  MkPage answer_page_url true true true "" [] None
         (fun _ => [long_text s]) (fun _ => Some (long_text s)) today.

(** The scripted browser with a navigation, a URL and a page source that
    never fail. *)
Definition steady : driver page string :=
  MkDriver
    (fun url p => (with_url url p, Ok tt))
    (fun p => (p, Ok (shown_url p)))
    (fun p => (p, Ok (source p)))
    (title scripted) (find_element scripted) (find_elements scripted)
    (text scripted) (wait_for_body scripted) (execute_date_spans scripted)
    (execute_find_creation scripted) (execute_text_script scripted)
    (sleep scripted) (now scripted).

(* ===================================================================== *)
(** * The runs of the date resolver *)
(* ===================================================================== *)

Section ResolverRunsVocabulary.

Context {W E : Type}.
Variable drv : driver W E.

(** The block of the log page, skipped when the page is restricted. *)
Definition log_block (original_url page_source : string) : M W (option string) :=
  if negb (restricted_access page_source) then date_from_log_page drv original_url
  else ret None.

(** The four driver calls made before the first [try] succeed, from the
    world [w]: the original URL is read, the log page opened, its source
    [ps] read and the current URL read again, which leaves the world
    [w4]. *)
Definition reaches_blocks (answer_url : string) (w w4 : W)
           (original ps : string) : Prop :=
  exists w1 w2 w3 cu,
    current_url drv (fst (now drv w)) = (w1, Ok original)
    /\ get drv (log_url_of answer_url) w1 = (w2, Ok tt)
    /\ page_source drv (sleep drv 5 w2) = (w3, Ok ps)
    /\ current_url drv w3 = (w4, Ok cu).

(** One of these four calls raises [e], the ones before it succeed, and
    the world is then [w']. *)
Definition fails_before_blocks (answer_url : string) (w w' : W) (e : exn) : Prop :=
  current_url drv (fst (now drv w)) = (w', Raise e)
  \/ exists w1 original,
      current_url drv (fst (now drv w)) = (w1, Ok original)
      /\ (get drv (log_url_of answer_url) w1 = (w', Raise e)
          \/ exists w2,
              get drv (log_url_of answer_url) w1 = (w2, Ok tt)
              /\ (page_source drv (sleep drv 5 w2) = (w', Raise e)
                  \/ exists w3 ps,
                      page_source drv (sleep drv 5 w2) = (w3, Ok ps)
                      /\ current_url drv w3 = (w', Raise e))).

(** Both blocks found nothing, and the navigation back that follows them
    raises [e]. *)
Definition fails_after_blocks (answer_url : string) (w w' : W) (e : exn) : Prop :=
  exists w4 original ps w5 w6,
    reaches_blocks answer_url w w4 original ps
    /\ log_block original ps w4 = (w5, Ok None)
    /\ date_from_page_source drv original ps w5 = (w6, Ok None)
    /\ get drv original w6 = (w', Raise e).

End ResolverRunsVocabulary.

(** The scripted browser with a count of the navigations: the second one
    fails, the others go as scripted. *)
Definition on_page (A : Type) (m : M page A) : M (page * nat) A :=
  fun pn => let (p', r) := m (fst pn) in ((p', snd pn), r).

Definition second_get_fails : driver (page * nat) string :=
  MkDriver
    (fun url pn =>
       if Nat.eqb (snd pn) 1 then ((fst pn, S (snd pn)), Raise WebDriverException)
       else let (p', r) := get scripted url (fst pn) in ((p', S (snd pn)), r))
    (on_page (current_url scripted))
    (on_page (page_source scripted))
    (on_page (title scripted))
    (fun x => on_page (find_element scripted x))
    (fun x => on_page (find_elements scripted x))
    (fun e => on_page (text scripted e))
    (on_page (wait_for_body scripted))
    (on_page (execute_date_spans scripted))
    (on_page (execute_find_creation scripted))
    (fun js => on_page (execute_text_script scripted js))
    (fun n pn => (sleep scripted n (fst pn), snd pn))
    (fun pn => let (p', t) := now scripted (fst pn) in ((p', snd pn), t)).

(** The log shows the same day twice, written in two ways. *)
Definition tie_page : page :=
  MkPage answer_page_url true true true ""
         ["June 2, 2022"; "Jan 1, 2021"; "January 1, 2021"] None
         no_elements no_script today.

(* ===================================================================== *)
(** * Vocabulary of the further properties *)
(* ===================================================================== *)

(** A real calendar date and time of day. *)
Definition in_calendar (t : datetime) : bool :=
  between 1 (year t) 9999 && between 1 (month t) 12
  && between 1 (day t) (days_in_month (year t) (month t))
  && between 0 (hour t) 23 && between 0 (minute t) 59 && between 0 (second t) 59.

(** The AM/PM mark of a 12-hour time. *)
Definition is_am_pm (mark : string) : Prop := mark = "AM" \/ mark = "PM".

(** An exception raised by one of the calls of the driver that no [try] of
    the extractors covers. *)
Definition unguarded_raise (W E : Type) (drv : driver W E) (e : exn) : Prop :=
  exists w1 w2,
    (exists url, get drv url w1 = (w2, Raise e))
    \/ wait_for_body drv w1 = (w2, Raise e)
    \/ current_url drv w1 = (w2, Raise e)
    \/ title drv w1 = (w2, Raise e)
    \/ page_source drv w1 = (w2, Raise e).

(** The character [c] occurs in [s]. *)
Fixpoint has_char (c : ascii) (s : string) : bool :=
  match s with
  | EmptyString => false
  | String a s' => Ascii.eqb c a || has_char c s'
  end.

(** A digit or a point. *)
Definition numeral_char (c : ascii) : bool := is_digit c || Ascii.eqb c ".".

(** A numeral: not empty, digits and points only. *)
Definition numeral (v : string) : Prop :=
  v <> EmptyString /\ all_chars numeral_char v = true.

(** The float is not below zero. *)
Definition not_negative (x : float) : bool :=
  match x with
  | S754_finite s _ _ => negb s
  | _ => true
  end.

(** ** The groups of the date patterns *)

(** The pattern has no capturing group. *)
Fixpoint group_free (r : regex) : bool :=
  match r with
  | Eps | Chr _ => true
  | Seq r1 r2 | Alt r1 r2 => group_free r1 && group_free r2
  | Star r1 => group_free r1
  | Group _ _ => false
  end.

(** What the groups hold in the patterns that put the month first: a month
    name in group 1, anything in group 7, digits in the others. *)
Definition date_group (i : nat) (w : string) : Prop :=
  match i with
  | 1 => In w month_names
  | 7 => True
  | _ => isdigit w = true
  end.

(** What the groups of pattern 3 hold: a month name in group 2, digits in
    the others. *)
Definition alt_group (i : nat) (w : string) : Prop :=
  match i with
  | 2 => In w month_names
  | _ => isdigit w = true
  end.

(** The exception is one the construction of a datetime raises, for a
    month of the year. *)
Definition datetime_rejects (e : exn) : Prop :=
  exists y mo d h mi s,
    (1 <= mo <= 12)%Z /\ mk_datetime y mo d h mi s = Raise e.

(** ** The rows of the sheet *)

(** The rows that are not blank and not flagged, from row [i] on. *)
Fixpoint unprocessed (i : Z) (rows : list (list string * list string))
  : list row_task :=
  match rows with
  | [] => []
  | (url_row, flag_row) :: rest =>
      ((if blank_row url_row || is_processed flag_row then []
        else [MkTask i (clean_url url_row)])
       ++ unprocessed (i + 1) rest)%list
  end.

(** The rows of the tasks go up. *)
Definition rows_ascend (tasks : list row_task) : Prop :=
  StronglySorted (fun a b => (task_row a < task_row b)%Z) tasks.

(** A sheet whose two ranges are read as [urls_data] and [processed_flags]
    whatever the range asked for. *)
Definition fixed_sheet (urls_data processed_flags : list (list string))
  : worksheet unit :=
  MkSheet (fun w => (w, Ok urls_data))
          (fun range w =>
             (w, Ok (if startswith "P" range then processed_flags else urls_data)))
          (fun _ _ _ w => (w, Ok tt))
          (fun w => w).

Definition sample_urls : list (list string) :=
  [["https://www.quora.com/a"]; []; ["  "]; [" @https://www.quora.com/b "; "x"];
   ["http://c"]; ["d"]].

Definition sample_flags : list (list string) :=
  [["FALSE"]; ["TRUE"]; ["TRUE"]; [" true "]; []].

(** ** The updates of the sheet *)

(** The nine updates of a row, in the order of the source. *)
Definition row_block (row : Z) (r : answer_record) (stamp : string)
  : list cell_write :=
  [(row, 2, base_url r); (row, 7, author r); (row, 8, post_date r);
   (row, 9, views (record_stats r)); (row, 10, upvotes (record_stats r));
   (row, 11, comments (record_stats r)); (row, 12, shares (record_stats r));
   (row, 13, stamp); (row, 16, "TRUE")]%Z.

(** What a run over the tasks leaves, updates and results: nothing for a
    task whose record carries an error; for another task its result, and
    the first [k] updates of its row, all nine unless the sheet refused
    one. *)
Inductive run_of : list row_task -> list cell_write -> list row_result -> Prop :=
| run_of_nil : run_of [] [] []
| run_of_error t ts log res :
    run_of ts log res -> run_of (t :: ts) log res
| run_of_row t r stamp k ts log res :
    error r = None -> answer_url r = task_url t -> k <= 9 ->
    run_of ts log res ->
    run_of (t :: ts)
           (firstn k (row_block (task_row t) r stamp) ++ log)%list
           (MkResult (task_row t) r :: res).

(** A sheet that accepts every update. *)
Definition accepting_sheet : worksheet page :=
  MkSheet (fun w => (w, Ok [])) (fun _ w => (w, Ok []))
          (fun _ _ _ w => (w, Ok tt)) (fun w => w).

(** The run over one task, row 2 of the sheet, on the page that shows
    "1.2K views". *)
Definition sample_run : logged (W := page) * result (list row_result) :=
  process_quora_urls scripted urlparse_whole urlunsplit_path accepting_sheet
                     [MkTask 2 answer_page_url] (views_page, []).

Definition results_of (A : Type) (r : result (list A)) : list A :=
  match r with
  | Ok l => l
  | Raise _ => []
  end.

(** ** The sheet of the code *)

(** A client whose sheet "Code" shows [cell] in A1, and accepts updates
    when [writable]. *)
Definition code_sheet_with (cell : option string) (writable : bool)
  : code_client unit unit unit :=
  MkClient (fun _ w => (w, Ok tt)) (fun _ _ w => (w, Ok tt))
           (fun _ _ w => (w, Ok tt)) (fun _ _ w => (w, Ok cell))
           (fun _ _ _ _ w =>
              (w, if writable then Ok tt
                  else Raise (Exn "APIError" "The caller does not have permission")))
           (fun _ w => w) (fun w => (w, today)).

(* ===================================================================== *)
(** * Runs of the model on concrete inputs *)
(* ===================================================================== *)

Example strip_ex : strip "  158 views " = "158 views".
Proof. reflexivity. Qed.

Example lower_ex : lower "View 1.2K Upvotes" = "view 1.2k upvotes".
Proof. reflexivity. Qed.

Example split_ex :
split "/answer/" "https://x.com/T/answer/A-B/log" = ["https://x.com/T"; "A-B/log"].
Proof. reflexivity. Qed.

Example split_ex2 : split "/" "a//b/" = ["a"; ""; "b"; ""].
Proof. reflexivity. Qed.

Example endswith_ex : endswith "/log" "https://x.com/T/log" = true.
Proof. reflexivity. Qed.

Example time_date_ex :
option_map groups7 (search time_date_re "Answered January 5, 2023 at 3:15 PM by Bob")
= Some ["January"; "5"; "2023"; "3"; "15"; ""; "PM"].
Proof. vm_compute. reflexivity. Qed.

Example time_date_sec_ex :
option_map groups7 (search time_date_re "Jan 05, 2023 at 12:00:09 AM")
= Some ["Jan"; "05"; "2023"; "12"; "00"; "09"; "AM"].
Proof. vm_compute. reflexivity. Qed.

Example views_ex :
option_map (group 1) (search views_re "about 1,234.5k views today") = Some (Some "1,234.5k").
Proof. vm_compute. reflexivity. Qed.

Example upvotes_ex :
option_map (group 1) (search_i upvotes_re "view 12 upvotes") = Some (Some "12").
Proof. vm_compute. reflexivity. Qed.

Example findall_ex :
map (fun m => (m_start m, group_or_empty 1 m, group_or_empty 2 m))
    (findall date_re "May 1, 2020 and Dec 25, 2021.")
= [(0, "May", "1"); (16, "Dec", "25")].
Proof. vm_compute. reflexivity. Qed.

Example strftime_ex :
strftime_BdY (MkDate 2026 11 3 10 0 0) = "November 03, 2026".
Proof. reflexivity. Qed.

Example scan_span_ex :
scan_span "Answer added January 5, 2023 at 3:15 PM"
= [(MkDate 2023 1 5 15 15 0, "Answer added January 5, 2023 at 3:15 PM")].
Proof. vm_compute. reflexivity. Qed.

Example scan_span_ex2 :
scan_span "5 Feb 2021" = [(MkDate 2021 2 5 0 0 0, "Feb 5, 2021")].
Proof. vm_compute. reflexivity. Qed.

Example scan_source_ex :
scan_source "x January 05, 2023 at 3:15 PM y"
= [(MkDate 2023 1 5 15 15 0, "January 5, 2023 at 3:15 PM");
   (MkDate 2023 1 5 0 0 0, "January 5, 2023")].
Proof. vm_compute. reflexivity. Qed.

Example am_pm_conversion :
  adjust_hour 12 "AM" = 0%Z /\ adjust_hour 12 "PM" = 12%Z /\ adjust_hour 3 "PM" = 15%Z.
Proof. repeat split. Qed.

Example base_url_ex :
  extract_base_url urlparse_whole urlunsplit_path
                   "https://x.com/Thread-Title/answer/Author-Name"
  = "https://x.com/Thread-Title"
  /\ extract_base_url urlparse_whole urlunsplit_path "https://x.com/Thread-Title"
     = "https://x.com/Thread-Title".
Proof. split; reflexivity. Qed.

Example normalize_K : normalize_count "1.2K" = Ok "1200".
Proof. vm_compute. reflexivity. Qed.
Example normalize_M : normalize_count "3M" = Ok "3000000".
Proof. vm_compute. reflexivity. Qed.
Example normalize_plain : normalize_count "1,234" = Ok "1234".
Proof. vm_compute. reflexivity. Qed.
Example normalize_trunc : normalize_count "1.005k" = Ok "1004".
Proof. vm_compute. reflexivity. Qed.
Example normalize_trunc2 : normalize_count "8.2m" = Ok "8199999".
Proof. vm_compute. reflexivity. Qed.
Example normalize_big :
  normalize_count "999999999999999999999.9K" = Ok "999999999999999983222784".
Proof. vm_compute. reflexivity. Qed.
Example normalize_big2 :
  normalize_count "9007199254740993m" = Ok "9007199254740992000000".
Proof. vm_compute. reflexivity. Qed.
Example normalize_small : normalize_count "0.000001K" = Ok "0".
Proof. vm_compute. reflexivity. Qed.
Example normalize_comma_K :
  normalize_count "1,234K" = Raise (ValueError "could not convert string to float").
Proof. vm_compute. reflexivity. Qed.

(* ===================================================================== *)
(** * Facts about strings *)
(* ===================================================================== *)

Section StringFacts.

Local Open Scope string_scope.

Lemma sapp_nil_r (s : string) : s ++ "" = s.
Proof. induction s; simpl; congruence. Qed.

Lemma sapp_assoc (a b c : string) : (a ++ b) ++ c = a ++ (b ++ c).
Proof. induction a; simpl; congruence. Qed.

Lemma slen_app (a b : string) :
  String.length (a ++ b) = String.length a + String.length b.
Proof. induction a; simpl; congruence. Qed.

Lemma take_app_exact (u s : string) :
  take (String.length (u ++ s) - String.length s) (u ++ s) = u.
Proof.
  rewrite slen_app.
  replace (String.length u + String.length s - String.length s)
    with (String.length u) by lia.
  induction u; simpl.
  - destruct s; reflexivity.
  - congruence.
Qed.

Lemma all_chars_app (p : ascii -> bool) (a b : string) :
  all_chars p (a ++ b) = all_chars p a && all_chars p b.
Proof. induction a; simpl; [reflexivity|]. rewrite IHa, andb_assoc. reflexivity. Qed.

Lemma all_chars_weaken (p q : ascii -> bool) (s : string) :
  (forall c, p c = true -> q c = true) ->
  all_chars p s = true -> all_chars q s = true.
Proof.
  intros Hpq. induction s; simpl; [reflexivity|].
  intros H. apply andb_true_iff in H. destruct H as [H1 H2].
  rewrite (Hpq _ H1), (IHs H2). reflexivity.
Qed.

Lemma lower_app (a b : string) : lower (a ++ b) = lower a ++ lower b.
Proof. induction a; simpl; congruence. Qed.

Lemma replace_app (old : ascii) (new a b : string) :
  replace old new (a ++ b) = replace old new a ++ replace old new b.
Proof.
  induction a; simpl; [reflexivity|].
  destruct (Ascii.eqb a old); simpl; rewrite IHa; [|reflexivity].
  symmetry. apply sapp_assoc.
Qed.

Lemma but_last_snoc (a : string) (c : ascii) :
  but_last (a ++ String c "") = a.
Proof.
  exact (take_app_exact a (String c "")).
Qed.

Lemma contains_char_free (c : ascii) (s : string) :
  free_of (Ascii.eqb c) s = true -> contains (String c "") s = false.
Proof.
  unfold free_of. induction s as [|a s IH]; simpl; [reflexivity|].
  intros H. apply andb_true_iff in H. destruct H as [H1 H2].
  rewrite (IH H2), orb_false_r.
  destruct (Ascii.ascii_dec c a) as [->|Hne].
  - rewrite Ascii.eqb_refl in H1. discriminate.
  - reflexivity.
Qed.

Lemma contains_app_r (sub a b : string) :
  contains sub b = true -> contains sub (a ++ b) = true.
Proof.
  intros H. induction a; simpl; [exact H|].
  rewrite IHa. apply orb_true_r.
Qed.

Lemma replace_free (old : ascii) (new s : string) :
  free_of (fun c => Ascii.eqb c old) s = true -> replace old new s = s.
Proof.
  unfold free_of. induction s as [|a s IH]; simpl; [reflexivity|].
  intros H. apply andb_true_iff in H. destruct H as [H1 H2].
  apply negb_true_iff in H1. rewrite H1, (IH H2). reflexivity.
Qed.

Lemma lower_fixed (s : string) :
  free_of is_upper s = true -> lower s = s.
Proof.
  unfold free_of. induction s as [|a s IH]; simpl; [reflexivity|].
  intros H. apply andb_true_iff in H. destruct H as [H1 H2].
  apply negb_true_iff in H1. unfold lower_char. rewrite H1, (IH H2). reflexivity.
Qed.

End StringFacts.

(* ===================================================================== *)
(** * The matcher is sound *)
(* ===================================================================== *)

Section MatcherSound.

Local Open Scope string_scope.

Variable ic : bool.

Variable P : nat -> string -> Prop.

Lemma rmatch_sound (r : regex) :
  groups_ok ic P r ->
  forall (A : Type) (s : string) (cs : caps) (k : string -> caps -> option A) (x : A),
    caps_ok P cs ->
    rmatch ic r s cs k = Some x ->
    exists u s' cs',
      s = u ++ s' /\ lang ic r u /\ caps_ok P cs'
      /\ (forall i, mandatory i r = true \/ has i cs = true -> has i cs' = true)
      /\ k s' cs' = Some x.
Proof.
  induction r as [|cl|r1 IH1 r2 IH2|r1 IH1 r2 IH2|r1 IH1|j r1 IH1];
    intros Hg A s cs k x Hcs H; simpl in H.
  - exists "", s, cs. repeat split; auto using L_eps.
    intros i [Hm|Hh]; [discriminate|exact Hh].
  - destruct s as [|c s']; [discriminate|].
    destruct (class_ok ic cl c) eqn:Hc; [|discriminate].
    exists (String c ""), s', cs. repeat split; auto using L_chr.
    intros i [Hm|Hh]; [discriminate|exact Hh].
  - destruct Hg as [Hg1 Hg2].
    destruct (IH1 Hg1 _ _ _ _ _ Hcs H) as (u1 & s1 & cs1 & -> & L1 & Hcs1 & Hm1 & H1).
    destruct (IH2 Hg2 _ _ _ _ _ Hcs1 H1) as (u2 & s2 & cs2 & -> & L2 & Hcs2 & Hm2 & H2).
    exists (u1 ++ u2), s2, cs2. repeat split; auto using L_seq.
    + symmetry. apply sapp_assoc.
    + intros i Hi. apply Hm2. simpl in Hi.
      destruct Hi as [Hi|Hi].
      * apply orb_true_iff in Hi. destruct Hi as [Hi|Hi]; [right; apply Hm1|]; auto.
      * right. apply Hm1. auto.
  - destruct Hg as [Hg1 Hg2].
    destruct (rmatch ic r1 s cs k) as [y|] eqn:E1.
    + inversion H; subst y.
      destruct (IH1 Hg1 _ _ _ _ _ Hcs E1) as (u1 & s1 & cs1 & -> & L1 & Hcs1 & Hm1 & H1).
      exists u1, s1, cs1. repeat split; auto using L_alt_l.
      intros i Hi. apply Hm1. simpl in Hi.
      destruct Hi as [Hi|Hi]; [|auto].
      apply andb_true_iff in Hi. left. tauto.
    + destruct (IH2 Hg2 _ _ _ _ _ Hcs H) as (u2 & s2 & cs2 & -> & L2 & Hcs2 & Hm2 & H2).
      exists u2, s2, cs2. repeat split; auto using L_alt_r.
      intros i Hi. apply Hm2. simpl in Hi.
      destruct Hi as [Hi|Hi]; [|auto].
      apply andb_true_iff in Hi. left. tauto.
  - simpl in Hg.
    remember (String.length s) as fuel eqn:Hfuel. clear Hfuel.
    revert s cs Hcs H.
    induction fuel as [|fuel IHf]; intros s cs Hcs H.
    + exists "", s, cs. repeat split; auto using L_star_nil.
      intros i [Hm|Hh]; [discriminate|exact Hh].
    + match type of H with
      | match ?m with _ => _ end = _ => destruct m as [y|] eqn:E1
      end.
      * inversion H; subst y.
        destruct (IH1 Hg _ _ _ _ _ Hcs E1) as (u1 & s1 & cs1 & -> & L1 & Hcs1 & Hm1 & H1).
        destruct (Nat.ltb (String.length s1) (String.length (u1 ++ s1))); [|discriminate].
        destruct (IHf _ _ Hcs1 H1) as (u2 & s2 & cs2 & -> & L2 & Hcs2 & Hm2 & H2).
        exists (u1 ++ u2), s2, cs2. repeat split; auto using L_star_cons.
        -- symmetry. apply sapp_assoc.
        -- intros i [Hi|Hi]; [discriminate|]. apply Hm2. right. apply Hm1. auto.
      * exists "", s, cs. repeat split; auto using L_star_nil.
        intros i [Hm|Hh]; [discriminate|exact Hh].
  - destruct Hg as [Hj Hg1].
    destruct (IH1 Hg1 _ _ _ _ _ Hcs H) as (u1 & s1 & cs1 & -> & L1 & Hcs1 & Hm1 & H1).
    rewrite take_app_exact in H1.
    exists u1, s1, ((j, u1) :: cs1). repeat split; auto using L_group.
    + constructor; auto.
    + intros i Hi. unfold has. simpl.
      destruct (Nat.eqb i j) eqn:Eij; [reflexivity|].
      apply Hm1. simpl in Hi. rewrite Eij in Hi. exact Hi.
Qed.

Lemma search_from_sound (r : regex) (pos : nat) (s : string) (m : rematch) :
  groups_ok ic P r ->
  search_from ic r pos s = Some m ->
  caps_ok P (m_caps m)
  /\ (forall i, mandatory i r = true -> has i (m_caps m) = true).
Proof.
  intros Hg. revert pos. induction s as [|c s IH]; intros pos H; simpl in H.
  - destruct (match_here ic r pos "") as [m'|] eqn:E; [|discriminate].
    inversion H; subst m'. unfold match_here in E.
    destruct (rmatch_sound r Hg _ _ (Forall_nil _) E)
      as (u & s' & cs' & _ & _ & Hcs & Hm & Hk).
    inversion Hk; subst m; simpl. split; auto.
  - destruct (match_here ic r pos (String c s)) as [m'|] eqn:E.
    + inversion H; subst m'. unfold match_here in E.
      destruct (rmatch_sound r Hg _ _ (Forall_nil _) E)
        as (u & s' & cs' & _ & _ & Hcs & Hm & Hk).
      inversion Hk; subst m; simpl. split; auto.
    + eapply IH; eauto.
Qed.

(** A group that takes part in every match of [r] holds an acceptable
    text after a successful search. *)
Lemma search_group_ok (r : regex) (pos i : nat) (s : string) (m : rematch) :
  groups_ok ic P r ->
  mandatory i r = true ->
  search_from ic r pos s = Some m ->
  P i (group_or_empty i m).
Proof.
  intros Hg Hi H.
  destruct (search_from_sound r pos s Hg H) as [Hcs Hm].
  specialize (Hm i Hi). unfold has, group_or_empty, group in *.
  induction (m_caps m) as [|[j w] cs IH]; simpl in *; [discriminate|].
  inversion Hcs; subst.
  destruct (Nat.eqb i j) eqn:E.
  - apply Nat.eqb_eq in E. subst j. assumption.
  - auto.
Qed.

End MatcherSound.

Lemma fullmatch_sound (ic : bool) (r : regex) (s : string) :
  fullmatch ic r s = true -> lang ic r s.
Proof.
  unfold fullmatch. intros H.
  destruct (rmatch ic r s [] _) as [[]|] eqn:E; [|discriminate].
  assert (Hg : groups_ok ic (fun _ _ => True) r).
  { clear. induction r; simpl; auto. }
  eapply rmatch_sound in E; [|exact Hg|constructor].
  destruct E as (u & s' & cs' & -> & L & _ & _ & Hk).
  destruct s'; [|discriminate]. rewrite sapp_nil_r. exact L.
Qed.

(* ===================================================================== *)
(** * The order of dates and the earliest candidate *)
(* ===================================================================== *)

Section DateOrder.

Lemma lex_compare_opp (a b : list Z) :
  lex_compare b a = CompOpp (lex_compare a b).
Proof.
  revert b. induction a as [|x a IH]; intros [|y b]; simpl; try reflexivity.
  rewrite (Z.compare_antisym x y).
  destruct (Z.compare x y); simpl; auto.
Qed.

Lemma lex_compare_trans_le (a b c : list Z) :
  lex_compare a b <> Gt -> lex_compare b c <> Gt -> lex_compare a c <> Gt.
Proof.
  revert b c. induction a as [|x a IH]; intros [|y b] [|z c]; simpl;
    try congruence.
  destruct (Z.compare_spec x y), (Z.compare_spec y z), (Z.compare_spec x z);
    subst; try congruence; try lia; eauto.
Qed.

Lemma leb_false_ltb (a b : datetime) :
  Date.leb a b = false -> Date.ltb b a = true.
Proof.
  unfold Date.leb, Date.ltb, Date.compare.
  rewrite (lex_compare_opp (fields a) (fields b)).
  destruct (lex_compare (fields a) (fields b)); simpl; congruence.
Qed.

Lemma ltb_leb (a b : datetime) : Date.ltb a b = true -> Date.leb a b = true.
Proof.
  unfold Date.leb, Date.ltb. destruct (Date.compare a b); congruence.
Qed.

Lemma leb_trans (a b c : datetime) :
  Date.leb a b = true -> Date.leb b c = true -> Date.leb a c = true.
Proof.
  unfold Date.leb, Date.compare. intros H1 H2.
  assert (H : lex_compare (fields a) (fields c) <> Gt).
  { apply lex_compare_trans_le with (fields b).
    - destruct (lex_compare (fields a) (fields b)); congruence.
    - destruct (lex_compare (fields b) (fields c)); congruence. }
  destruct (lex_compare (fields a) (fields c)); congruence.
Qed.

Lemma leb_refl (a : datetime) : Date.leb a a = true.
Proof.
  unfold Date.leb, Date.compare.
  assert (H : lex_compare (fields a) (fields a) = Eq).
  { induction (fields a) as [|x l IH]; simpl; [reflexivity|].
    rewrite Z.compare_refl. exact IH. }
  rewrite H. reflexivity.
Qed.

(** The head of the sorted list, one insertion at a time. *)
Lemma insert_by_key_head (c : candidate) (l : list candidate) :
  hd_error (insert_by_key c l)
  = match hd_error l with
    | None => Some c
    | Some d => if Date.leb (timestamp c) (timestamp d) then Some c else Some d
    end.
Proof.
  destruct l as [|d l]; simpl; [reflexivity|].
  destruct (Date.leb (timestamp c) (timestamp d)); reflexivity.
Qed.

Lemma insert_by_key_perm (c : candidate) (l : list candidate) :
  Permutation (c :: l) (insert_by_key c l).
Proof.
  induction l as [|d l IH]; simpl; [reflexivity|].
  destruct (Date.leb (timestamp c) (timestamp d)); [reflexivity|].
  rewrite perm_swap. constructor. exact IH.
Qed.

(** The sort keeps the candidates. *)
Lemma sort_by_key_perm (l : list candidate) : Permutation l (sort_by_key l).
Proof.
  induction l as [|c l IH]; simpl; [constructor|].
  rewrite <- insert_by_key_perm. constructor. exact IH.
Qed.

Lemma insert_by_key_sorted (c : candidate) (l : list candidate) :
  LocallySorted key_le l -> LocallySorted key_le (insert_by_key c l).
Proof.
  induction 1 as [|d|d d' l Hl IH Hdd']; simpl.
  - constructor.
  - destruct (Date.leb (timestamp c) (timestamp d)) eqn:E.
    + constructor; [constructor|exact E].
    + constructor; [constructor|]. apply ltb_leb, leb_false_ltb, E.
  - destruct (Date.leb (timestamp c) (timestamp d)) eqn:E.
    + constructor; [constructor; assumption|exact E].
    + simpl in IH.
      destruct (Date.leb (timestamp c) (timestamp d')) eqn:E'.
      * constructor; [exact IH|]. apply ltb_leb, leb_false_ltb, E.
      * constructor; [exact IH|exact Hdd'].
Qed.

(** The sort puts the candidates in the order of their timestamps. *)
Lemma sort_by_key_sorted (l : list candidate) : LocallySorted key_le (sort_by_key l).
Proof.
  induction l as [|c l IH]; simpl; [constructor|].
  apply insert_by_key_sorted, IH.
Qed.

Lemma sort_by_key_first (l : list candidate) :
  l <> [] ->
  exists before c after,
    l = (before ++ c :: after)%list
    /\ hd_error (sort_by_key l) = Some c
    /\ (forall d, In d before -> Date.ltb (timestamp c) (timestamp d) = true)
    /\ (forall d, In d after -> Date.leb (timestamp c) (timestamp d) = true).
Proof.
  induction l as [|c l IH]; [congruence|]. intros _.
  destruct l as [|c' l'].
  - exists [], c, []. simpl. split; [reflexivity|]. split; [reflexivity|].
    split; intros d [].
  - destruct IH as (before & m & after & Hl & Hhd & Hb & Ha); [congruence|].
    change (sort_by_key (c :: c' :: l')) with (insert_by_key c (sort_by_key (c' :: l'))).
    rewrite insert_by_key_head, Hhd.
    destruct (Date.leb (timestamp c) (timestamp m)) eqn:E.
    + exists [], c, (c' :: l'). split; [reflexivity|]. split; [reflexivity|].
      split; [intros d []|].
      intros d Hd. rewrite Hl in Hd. apply in_app_or in Hd.
      destruct Hd as [Hd|[<-|Hd]].
      * eapply leb_trans; [exact E|]. apply ltb_leb, Hb, Hd.
      * exact E.
      * eapply leb_trans; [exact E|]. apply Ha, Hd.
    + exists (c :: before), m, after. rewrite Hl.
      split; [reflexivity|]. split; [reflexivity|]. split; [|exact Ha].
      intros d [<-|Hd]; [apply leb_false_ltb, E|apply Hb, Hd].
Qed.

End DateOrder.

(** The selection is the head of the sorted list. *)
Lemma earliest_head (dates : list candidate) :
  earliest dates = option_map displayText (hd_error (sort_by_key dates)).
Proof.
  unfold earliest. destruct dates as [|d0 dates]; [reflexivity|].
  destruct (sort_by_key (d0 :: dates)); reflexivity.
Qed.

Lemma earliest_some (dates : list candidate) :
  dates <> [] -> exists d, earliest dates = Some d.
Proof.
  intros Hne. rewrite earliest_head.
  destruct (sort_by_key_first Hne) as (_ & c & _ & _ & Hhd & _).
  rewrite Hhd. simpl. eauto.
Qed.

(** The selection itself: of a list that is not empty it gives the
    displayText of a candidate whose timestamp no candidate precedes; every
    candidate before it in the list is strictly later, so among candidates
    with the same earliest timestamp the first one wins. *)
Lemma earliest_is_first_minimum (dates : list candidate) :
  dates <> [] ->
  exists before c after,
    dates = (before ++ c :: after)%list
    /\ earliest dates = Some (displayText c)
    /\ (forall d, In d before -> Date.ltb (timestamp c) (timestamp d) = true)
    /\ (forall d, In d after -> Date.leb (timestamp c) (timestamp d) = true).
Proof.
  intros Hne.
  destruct (sort_by_key_first Hne) as (before & c & after & Hl & Hhd & Hb & Ha).
  exists before, c, after.
  split; [exact Hl|]. split; [|split; assumption].
  rewrite earliest_head, Hhd. reflexivity.
Qed.

(** The three candidates of the specification: the one of January 1, 8:00
    is selected. *)
Lemma earliest_of_three_candidates :
  exists before c after,
    [(MkDate 2023 1 5 0 0 0, "January 5, 2023");
     (MkDate 2023 1 1 8 0 0, "January 1, 2023 at 8:00 AM");
     (MkDate 2023 6 1 0 0 0, "June 1, 2023")] = (before ++ c :: after)%list
    /\ earliest
         [(MkDate 2023 1 5 0 0 0, "January 5, 2023");
          (MkDate 2023 1 1 8 0 0, "January 1, 2023 at 8:00 AM");
          (MkDate 2023 6 1 0 0 0, "June 1, 2023")] = Some (displayText c)
    /\ (forall d, In d before -> Date.ltb (timestamp c) (timestamp d) = true)
    /\ (forall d, In d after -> Date.leb (timestamp c) (timestamp d) = true).
Proof.
  apply earliest_is_first_minimum. discriminate.
Defined.

Example earliest_three :
  earliest
    [(MkDate 2023 1 5 0 0 0, "January 5, 2023");
     (MkDate 2023 1 1 8 0 0, "January 1, 2023 at 8:00 AM");
     (MkDate 2023 6 1 0 0 0, "June 1, 2023")]
  = Some "January 1, 2023 at 8:00 AM".
Proof. reflexivity. Qed.

Example earliest_tie :
  earliest
    [(MkDate 2023 1 5 0 0 0, "second");
     (MkDate 2023 1 1 0 0 0, "first of the earliest");
     (MkDate 2023 1 1 0 0 0, "second of the earliest")]
  = Some "first of the earliest".
Proof. reflexivity. Qed.

(* ===================================================================== *)
(** * The date parser: precedence of the patterns and display texts *)
(* ===================================================================== *)

(** On the log page a span that matches pattern 1 adds nothing through
    pattern 2 or pattern 3. *)
Lemma log_span_precedence (span_text : string) :
  search time_date_re span_text <> None ->
  span_via_pattern2 span_text = [] /\ span_via_pattern3 span_text = [].
Proof.
  intros H. unfold span_via_pattern2, span_via_pattern3.
  destruct (search time_date_re span_text); [|congruence]. simpl.
  destruct (search date_re span_text), (search alt_date_re span_text); auto.
Qed.

(** C2.  In the page source every pattern is searched over the whole text,
    whatever the others found: a text that matches pattern 1 is reported
    through pattern 2 as well, at midnight, and this second candidate is the
    one the resolver returns.  On the log page the same text is reported
    through pattern 1 only. *)
Theorem page_source_reports_timed_text_twice :
  search time_date_re timed_source <> None
  /\ source_via_pattern (time_date_re, 7) timed_source
     = [(MkDate 2023 1 5 15 15 0, "January 5, 2023 at 3:15 PM")]
  /\ source_via_pattern (date_re, 3) timed_source
     = [(MkDate 2023 1 5 0 0 0, "January 5, 2023")]
  /\ snd (extract_post_date scripted "https://x.com/T/answer/A" timed_source_page)
     = Ok "January 5, 2023"
  /\ scan_span timed_source = [(MkDate 2023 1 5 15 15 0, timed_source)].
Proof.
  repeat split; try (vm_compute; reflexivity). vm_compute. discriminate.
Qed.

Lemma source_candidate_timed (m : rematch) (c : candidate) :
  source_candidate (match_tuple 7 m) = Ok c ->
  isdigit (group_or_empty 2 m) = true
  /\ isdigit (group_or_empty 3 m) = true
  /\ displayText c = rebuilt_display m.
Proof.
  unfold source_candidate, rebuilt_display, match_tuple, item. simpl.
  unfold py_int.
  destruct (isdigit (group_or_empty 2 m)); simpl; [|discriminate].
  destruct (isdigit (group_or_empty 3 m)); simpl; [|discriminate].
  destruct (isdigit (group_or_empty 4 m)); simpl; [|discriminate].
  destruct (isdigit (group_or_empty 5 m)); simpl; [|discriminate].
  destruct (seconds_of (group_or_empty 6 m)); simpl; [|discriminate].
  destruct (mk_datetime _ _ _ _ _ _); simpl; [|discriminate].
  intros H. inversion H. auto.
Qed.

(** C7, as the code has it.  In the page source the display text of a
    candidate of pattern 1 is rebuilt from the groups of its match: month,
    day and year as integers, then hour, minute, the seconds when present,
    and the AM/PM mark.  On the log page the display text of a candidate of
    pattern 1 is the text of the span, as it is. *)
Theorem timed_display_by_path :
  (forall page_source c,
      In c (source_via_pattern (time_date_re, 7) page_source) ->
      exists m, In m (findall time_date_re page_source)
                /\ displayText c = rebuilt_display m)
  /\ (forall span_text c,
         In c (span_via_pattern1 span_text) -> displayText c = span_text).
Proof.
  split.
  - intros ps c H. unfold source_via_pattern in H. simpl in H.
    apply in_flat_map in H. destruct H as (m & Hm & Hc).
    exists m. split; [exact Hm|].
    destruct (source_candidate (match_tuple 7 m)) as [c'|] eqn:E; simpl in Hc.
    + destruct Hc as [<-|[]]. apply (source_candidate_timed m E).
    + destruct Hc.
  - intros t c H. unfold span_via_pattern1 in H.
    destruct (search time_date_re t) as [m|]; [|destruct H].
    unfold span_timed_candidate in H.
    repeat match type of H with
    | In _ (appended (bind_res ?r _)) => destruct r; simpl in H; [|destruct H]
    end.
    destruct H as [<-|[]]. reflexivity.
Qed.

Lemma timed_display_by_path_witness :
  (exists m, In m (findall time_date_re "on Jan 05, 2023 at 12:00:09 AM")
             /\ "Jan 5, 2023 at 12:00:09 AM" = rebuilt_display m)
  /\ displayText (MkDate 2023 1 5 15 15 0, timed_source) = timed_source.
Proof.
  destruct timed_display_by_path as [Hsrc Hlog]. split.
  - apply (Hsrc "on Jan 05, 2023 at 12:00:09 AM"
                (MkDate 2023 1 5 0 0 9, "Jan 5, 2023 at 12:00:09 AM")).
    vm_compute. left. reflexivity.
  - apply (Hlog timed_source (MkDate 2023 1 5 15 15 0, timed_source)).
    vm_compute. left. reflexivity.
Defined.

(** The claim C7 fails on the log page: the candidate of a span that
    matches pattern 1 shows the whole span, not the text rebuilt from the
    groups. *)
Lemma timed_span_shows_raw_text :
  exists m c,
    search time_date_re timed_source = Some m
    /\ In c (span_via_pattern1 timed_source)
    /\ rebuilt_display m = "January 5, 2023 at 3:15 PM"
    /\ displayText c = timed_source
    /\ displayText c <> rebuilt_display m.
Proof.
  destruct (search time_date_re timed_source) as [m|] eqn:E;
    [|vm_compute in E; discriminate].
  exists m, (MkDate 2023 1 5 15 15 0, timed_source).
  vm_compute in E. inversion E; subst m.
  repeat split; try (vm_compute; auto; fail).
  vm_compute. discriminate.
Qed.

(* ===================================================================== *)
(** * The count normaliser *)
(* ===================================================================== *)

Lemma lang_chars (ic : bool) (r : regex) (s : string) :
  lang ic r s -> all_chars (allowed ic r) s = true.
Proof.
  induction 1; simpl; auto.
  - rewrite H. reflexivity.
  - rewrite all_chars_app. apply andb_true_iff. split.
    + eapply all_chars_weaken; [|exact IHlang1]. intros c Hc. simpl. rewrite Hc. reflexivity.
    + eapply all_chars_weaken; [|exact IHlang2]. intros c Hc. simpl. rewrite Hc.
      apply orb_true_r.
  - eapply all_chars_weaken; [|exact IHlang]. intros c Hc. simpl. rewrite Hc. reflexivity.
  - eapply all_chars_weaken; [|exact IHlang]. intros c Hc. simpl. rewrite Hc.
    apply orb_true_r.
  - rewrite all_chars_app. apply andb_true_iff. split; [exact IHlang1|exact IHlang2].
Qed.

Lemma plain_char_facts (c : ascii) :
  plain_char c = true ->
  is_upper c = false
  /\ Ascii.eqb "k" c = false /\ Ascii.eqb c "k" = false
  /\ Ascii.eqb "m" c = false /\ Ascii.eqb c "m" = false.
Proof.
  destruct c as [[] [] [] [] [] [] [] []]; vm_compute; intros H;
    try discriminate H; repeat split.
Qed.

Lemma plain_chars_facts (t : string) :
  all_chars plain_char t = true ->
  lower t = t
  /\ contains "k" t = false /\ replace "k" "" t = t
  /\ contains "m" t = false /\ replace "m" "" t = t.
Proof.
  intros H.
  assert (F : forall q : ascii -> bool,
             (forall c, plain_char c = true -> q c = false) ->
             free_of q t = true).
  { intros q Hq. unfold free_of. eapply all_chars_weaken; [|exact H].
    intros c Hc. rewrite (Hq c Hc). reflexivity. }
  repeat split.
  - apply lower_fixed, F. intros c Hc. apply (plain_char_facts c Hc).
  - apply contains_char_free, F. intros c Hc. apply (plain_char_facts c Hc).
  - apply replace_free, F. intros c Hc. apply (plain_char_facts c Hc).
  - apply contains_char_free, F. intros c Hc. apply (plain_char_facts c Hc).
  - apply replace_free, F. intros c Hc. apply (plain_char_facts c Hc).
Qed.

(** A word of [\d+(\.\d+)?[Xx]] is digits and points followed by the
    suffix letter. *)
Lemma suffixed_shape (set : string) (s : string) :
  lang false (seqs [Plus digit; Opt (Seq (chr ".") (Plus digit)); Chr (CSet set)]) s ->
  exists t c, s = (t ++ String c "")%string
              /\ all_chars plain_char t = true
              /\ in_set c set = true.
Proof.
  simpl. intros H.
  inversion H as [| |r1 r2 u v Hu Hv| | | | |]; subst.
  inversion Hv as [| |r1 r2 v1 v2 Hv1 Hv2| | | | |]; subst.
  inversion Hv2 as [|cl c Hc| | | | | |]; subst.
  exists (u ++ v1)%string, c. split; [symmetry; apply sapp_assoc|]. split; [|exact Hc].
  rewrite all_chars_app. apply andb_true_iff. split.
  - apply lang_chars in Hu. eapply all_chars_weaken; [|exact Hu].
    intros a. unfold plain_char. simpl. destruct (is_digit a); simpl; congruence.
  - apply lang_chars in Hv1. eapply all_chars_weaken; [|exact Hv1].
    intros a. unfold plain_char. simpl.
    destruct (is_digit a), (Ascii.eqb a "."); simpl; congruence.
Qed.

Lemma plain_shape (s : string) :
  lang false plain_count_re s -> all_chars plain_char s = true.
Proof.
  intros H. apply lang_chars in H. eapply all_chars_weaken; [|exact H].
  intros a. unfold plain_char. simpl.
  destruct (is_digit a), (Ascii.eqb a "."), (Ascii.eqb a ","); simpl; congruence.
Qed.

(** C5.  A count ending in K or k is scaled by 1000 and one ending in M or
    m by 1,000,000, as [str(int(float(s[:-1]) * n))]; a count without a
    suffix loses its commas and is otherwise unchanged. *)
Theorem normalize_count_spec :
  (forall s, lang false count_K_re s ->
             normalize_count s = scaled (but_last s) 1000)
  /\ (forall s, lang false count_M_re s ->
                normalize_count s = scaled (but_last s) 1000000)
  /\ (forall s, lang false plain_count_re s ->
                normalize_count s = Ok (replace "," "" s))
  /\ normalize_count "1.2K" = Ok "1200"
  /\ normalize_count "3M" = Ok "3000000"
  /\ normalize_count "1,234" = Ok "1234".
Proof.
  repeat split; try (vm_compute; reflexivity).
  - intros s H. apply suffixed_shape in H.
    destruct H as (t & c & -> & Ht & Hc).
    destruct (plain_chars_facts t Ht) as (Hl & _ & Hr & _).
    rewrite but_last_snoc. unfold normalize_count.
    assert (Hlc : lower (String c "") = "k").
    { simpl in Hc. rewrite orb_false_r in Hc. apply orb_true_iff in Hc.
      destruct Hc as [Hc|Hc]; apply Ascii.eqb_eq in Hc; subst c; reflexivity. }
    rewrite lower_app, Hl, Hlc, replace_app, Hr.
    rewrite (contains_app_r "k" t "k" eq_refl).
    change (replace "k" "" "k") with "". rewrite sapp_nil_r. reflexivity.
  - intros s H. apply suffixed_shape in H.
    destruct H as (t & c & -> & Ht & Hc).
    destruct (plain_chars_facts t Ht) as (Hl & Hk & _ & _ & Hr).
    rewrite but_last_snoc. unfold normalize_count.
    assert (Hlc : lower (String c "") = "m").
    { simpl in Hc. rewrite orb_false_r in Hc. apply orb_true_iff in Hc.
      destruct Hc as [Hc|Hc]; apply Ascii.eqb_eq in Hc; subst c; reflexivity. }
    rewrite lower_app, Hl, Hlc.
    assert (Hkm : contains "k" (t ++ "m") = false).
    { apply contains_char_free. unfold free_of. rewrite all_chars_app.
      apply andb_true_iff. split; [|reflexivity].
      eapply all_chars_weaken; [|exact Ht].
      intros a Ha. destruct (plain_char_facts a Ha) as (_ & E & _).
      rewrite E. reflexivity. }
    rewrite Hkm, (contains_app_r "m" t "m" eq_refl), replace_app, Hr.
    change (replace "m" "" "m") with "". rewrite sapp_nil_r. reflexivity.
  - intros s H. apply plain_shape in H.
    destruct (plain_chars_facts s H) as (Hl & Hk & _ & Hm & _).
    unfold normalize_count. rewrite Hl, Hk, Hm. reflexivity.
Qed.

Lemma normalize_count_spec_witness :
  normalize_count "12.5k" = scaled (but_last "12.5k") 1000
  /\ normalize_count "7M" = scaled (but_last "7M") 1000000
  /\ normalize_count "3,402" = Ok (replace "," "" "3,402").
Proof.
  destruct normalize_count_spec as (HK & HM & HP & _).
  split; [|split].
  - apply (HK "12.5k"). apply fullmatch_sound. vm_compute. reflexivity.
  - apply (HM "7M"). apply fullmatch_sound. vm_compute. reflexivity.
  - apply (HP "3,402"). apply fullmatch_sound. vm_compute. reflexivity.
Defined.

(* ===================================================================== *)
(** * Running the monad *)
(* ===================================================================== *)

Section MonadFacts.

Context {W : Type}.

Lemma bind_ok (A B : Type) (m : M W A) (f : A -> M W B) (w w1 : W) (a : A) :
  m w = (w1, Ok a) -> bind m f w = f a w1.
Proof. unfold bind. intros ->. reflexivity. Qed.

Lemma bind_raise (A B : Type) (m : M W A) (f : A -> M W B) (w w1 : W) (e : exn) :
  m w = (w1, Raise e) -> bind m f w = (w1, Raise e).
Proof. unfold bind. intros ->. reflexivity. Qed.

Lemma bind_inv_ok (A B : Type) (m : M W A) (f : A -> M W B) (w w' : W) (b : B) :
  bind m f w = (w', Ok b) ->
  exists w1 a, m w = (w1, Ok a) /\ f a w1 = (w', Ok b).
Proof.
  unfold bind. destruct (m w) as [w1 [a|e]]; [|discriminate].
  intros H. exists w1, a. auto.
Qed.

Lemma bind_inv_raise (A B : Type) (m : M W A) (f : A -> M W B) (w w' : W) (e : exn) :
  bind m f w = (w', Raise e) ->
  m w = (w', Raise e)
  \/ exists w1 a, m w = (w1, Ok a) /\ f a w1 = (w', Raise e).
Proof.
  unfold bind. destruct (m w) as [w1 [a|e1]]; intros H.
  - right. exists w1, a. auto.
  - left. inversion H. reflexivity.
Qed.

Lemma try_ok (A : Type) (m : M W A) (h : exn -> M W A) (w w1 : W) (a : A) :
  m w = (w1, Ok a) -> try_except m h w = (w1, Ok a).
Proof. unfold try_except. intros ->. reflexivity. Qed.

Lemma try_raise (A : Type) (m : M W A) (h : exn -> M W A) (w w1 : W) (e : exn) :
  m w = (w1, Raise e) -> try_except m h w = h e w1.
Proof. unfold try_except. intros ->. reflexivity. Qed.

Lemma total_ret (A : Type) (a : A) : total (ret (W := W) a).
Proof. intros w. exists w, a. reflexivity. Qed.

Lemma total_bind (A B : Type) (m : M W A) (f : A -> M W B) :
  total m -> (forall a, total (f a)) -> total (bind m f).
Proof.
  intros Hm Hf w. destruct (Hm w) as (w1 & a & E).
  erewrite bind_ok; [|exact E]. apply Hf.
Qed.

Lemma total_try (A : Type) (m : M W A) (h : exn -> M W A) :
  (forall e, total (h e)) -> total (try_except m h).
Proof.
  intros Hh w. unfold try_except.
  destruct (m w) as [w1 [a|e]]; [exists w1, a; reflexivity|apply Hh].
Qed.

Lemma total_for_first (A B : Type) (l : list A) (body : A -> M W (option B)) :
  (forall a, total (body a)) -> total (for_first l body).
Proof.
  intros Hb. induction l as [|a l IH]; simpl; [apply total_ret|].
  apply total_bind; [apply Hb|]. intros [v|]; [apply total_ret|exact IH].
Qed.

Lemma total_or_else (A : Type) (block : M W (option A)) (rest : M W A) :
  total block -> total rest -> total (or_else block rest).
Proof.
  intros Hb Hr. unfold or_else. apply total_bind; [exact Hb|].
  intros [v|]; [apply total_ret|exact Hr].
Qed.

(** A cascade whose blocks all decline gives the default. *)
Lemma cascade_default (blocks : list (M W (option string))) (d : string) (w w' : W) :
  all_decline blocks w w' ->
  try_except (fold_right or_else (ret d) blocks) (fun _ => ret d) w = (w', Ok d).
Proof.
  revert w. induction blocks as [|b rest IH]; intros w H; simpl in H.
  - subst w'. reflexivity.
  - simpl. unfold try_except, or_else, bind in *.
    destruct H as [(e & Hb)|(w1 & Hb & Hrest)]; rewrite Hb.
    + reflexivity.
    + apply (IH w1 Hrest).
Qed.

End MonadFacts.

(* ===================================================================== *)
(** * The field extractors never raise *)
(* ===================================================================== *)

Section ExtractorFacts.

Context {W E : Type}.
Variable drv : driver W E.

Lemma count_extractor_cascade (f : count_field) :
  count_extractor drv f
  = try_except (fold_right or_else (ret "0") (count_strategies drv f))
               (fun _ => ret "0").
Proof. destruct f; reflexivity. Qed.

Lemma count_extractor_total (f : count_field) : total (count_extractor drv f).
Proof.
  rewrite count_extractor_cascade. apply total_try. intros _. apply total_ret.
Qed.

Lemma extract_author_name_total : total (extract_author_name drv).
Proof. apply total_try. intros _. apply total_ret. Qed.

Lemma author_from_selectors_total : total (author_from_selectors drv).
Proof.
  apply total_for_first. intros selector. apply total_try. intros _. apply total_ret.
Qed.

End ExtractorFacts.

(** C3, as the code has it.  Every field extractor returns a string and
    never raises.  A count extractor returns "0" when the strategies of its
    cascade decline one after the other.  The author extractor returns
    "Name not found" when no selector gives a plausible name and the current
    URL, read without a failure, has no "/answer/" in it; when reading the
    current URL raises, it returns "Error extracting name". *)
Theorem extractors_return_and_default :
  forall (W E : Type) (drv : driver W E) (w : W),
    (exists w' s, extract_author_name drv w = (w', Ok s))
    /\ (forall f, exists w' s, count_extractor drv f w = (w', Ok s))
    /\ (forall f w', all_decline (count_strategies drv f) w w' ->
                     count_extractor drv f w = (w', Ok "0"))
    /\ (forall w1 w2 url,
           author_from_selectors drv w = (w1, Ok None) ->
           current_url drv w1 = (w2, Ok url) ->
           contains "/answer/" url = false ->
           extract_author_name drv w = (w2, Ok "Name not found"))
    /\ (forall w1 w2 e,
           author_from_selectors drv w = (w1, Ok None) ->
           current_url drv w1 = (w2, Raise e) ->
           extract_author_name drv w = (w2, Ok "Error extracting name")).
Proof.
  intros W E drv w. split; [apply extract_author_name_total|].
  split; [intros f; apply count_extractor_total|].
  split; [|split].
  - intros f w' H. rewrite count_extractor_cascade. apply cascade_default, H.
  - intros w1 w2 url Hs Hu Hc.
    unfold extract_author_name, or_else, author_from_url, try_except, bind.
    rewrite Hs, Hu, Hc. reflexivity.
  - intros w1 w2 e Hs Hu.
    unfold extract_author_name, or_else, author_from_url, try_except, bind.
    rewrite Hs, Hu. reflexivity.
Qed.

Lemma extractors_return_and_default_witness :
  count_extractor scripted Views (bare_page "https://x.com/T") = (bare_page "https://x.com/T", Ok "0")
  /\ extract_author_name scripted (bare_page "https://x.com/T")
     = (bare_page "https://x.com/T", Ok "Name not found")
  /\ extract_author_name scripted unreadable_url_page
     = (unreadable_url_page, Ok "Error extracting name").
Proof.
  split; [|split].
  - apply (extractors_return_and_default scripted (bare_page "https://x.com/T")).
    simpl. right. exists (bare_page "https://x.com/T"). split; [reflexivity|].
    right. exists (bare_page "https://x.com/T"). split; [reflexivity|].
    right. exists (bare_page "https://x.com/T"). split; reflexivity.
  - apply (extractors_return_and_default scripted (bare_page "https://x.com/T"))
      with (w1 := bare_page "https://x.com/T") (url := "https://x.com/T");
      reflexivity.
  - apply (extractors_return_and_default scripted unreadable_url_page)
      with (w1 := unreadable_url_page) (e := WebDriverException); reflexivity.
Defined.

(** The claim C3 fails for the author: with no element to find and a
    current URL that cannot be read, every strategy fails and the result is
    not "Name not found". *)
Lemma author_default_fails :
  author_from_selectors scripted unreadable_url_page = (unreadable_url_page, Ok None)
  /\ author_from_url scripted unreadable_url_page
     = (unreadable_url_page, Raise WebDriverException)
  /\ extract_author_name scripted unreadable_url_page
     = (unreadable_url_page, Ok "Error extracting name")
  /\ snd (extract_author_name scripted unreadable_url_page) <> Ok "Name not found".
Proof.
  repeat split; try reflexivity. vm_compute. discriminate.
Qed.

(* ===================================================================== *)
(** * The date resolver and the record builder *)
(* ===================================================================== *)

Ltac inv_bind H :=
  let w1 := fresh "w" in
  let a := fresh "a" in
  let E := fresh "E" in
  apply bind_inv_ok in H; destruct H as (w1 & a & E & H).

Tactic Notation "open_bind" hyp(H) "as" ident(a) :=
  let w1 := fresh "w" in
  let E := fresh "E" in
  apply bind_inv_ok in H; destruct H as (w1 & a & E & H).

Section ResolverFacts.

Context {W E : Type}.
Variable drv : driver W E.

Lemma get_now_run (w : W) :
  get_now drv w = (fst (now drv w), Ok (snd (now drv w))).
Proof. unfold get_now. destruct (now drv w). reflexivity. Qed.

Lemma get_now_total : total (get_now drv).
Proof. intros w. rewrite get_now_run. eauto. Qed.

Lemma do_sleep_total (n : nat) : total (do_sleep drv n).
Proof. intros w. unfold do_sleep. eauto. Qed.

Lemma date_from_log_page_total (original_url : string) :
  total (date_from_log_page drv original_url).
Proof. apply total_try. intros _. apply total_ret. Qed.

Lemma date_from_page_source_total (original_url page_source : string) :
  total (date_from_page_source drv original_url page_source).
Proof. apply total_try. intros _. apply total_ret. Qed.

Lemma log_block_total (original_url page_source : string) :
  total (if negb (restricted_access page_source)
         then date_from_log_page drv original_url else ret None).
Proof.
  destruct (negb (restricted_access page_source));
    [apply date_from_log_page_total|apply total_ret].
Qed.

Lemma approximate_date_total (original_url : string) (t : datetime) :
  (forall u, total (get drv u)) -> total (approximate_date drv original_url t).
Proof.
  intros Hg. unfold approximate_date.
  apply total_bind; [apply Hg|]. intros _.
  apply total_bind; [apply do_sleep_total|]. intros _. apply total_ret.
Qed.

Lemma extract_post_date_total (answer_url : string) :
  total (current_url drv) -> (forall u, total (get drv u)) ->
  total (page_source drv) ->
  total (extract_post_date drv answer_url).
Proof.
  intros Hu Hg Hs. unfold extract_post_date.
  apply total_bind; [apply get_now_total|]. intros t.
  apply total_bind; [exact Hu|]. intros original.
  apply total_bind; [apply Hg|]. intros _.
  apply total_bind; [apply do_sleep_total|]. intros _.
  apply total_bind; [exact Hs|]. intros ps.
  apply total_bind; [exact Hu|]. intros _.
  apply total_or_else; [apply log_block_total|].
  apply total_or_else; [apply date_from_page_source_total|].
  apply approximate_date_total, Hg.
Qed.

(** What a raise of a total computation would be. *)
Lemma total_no_raise (A : Type) (m : M W A) (w w' : W) (e : exn) :
  total m -> m w = (w', Raise e) -> False.
Proof. intros Hm H. destruct (Hm w) as (w1 & a & E1). congruence. Qed.

Lemma or_else_inv_raise (A : Type) (block : M W (option A)) (rest : M W A)
      (w w' : W) (e : exn) :
  total block ->
  or_else block rest w = (w', Raise e) ->
  exists w1, rest w1 = (w', Raise e).
Proof.
  intros Hb H. unfold or_else in H. apply bind_inv_raise in H.
  destruct H as [H|(w1 & [v|] & Hv & H)].
  - exfalso. eapply total_no_raise; [exact Hb|exact H].
  - discriminate.
  - exists w1. exact H.
Qed.

Lemma extract_post_date_raise (answer_url : string) (w w' : W) (e : exn) :
  extract_post_date drv answer_url w = (w', Raise e) ->
  exists w1,
    current_url drv w1 = (w', Raise e)
    \/ page_source drv w1 = (w', Raise e)
    \/ exists url, get drv url w1 = (w', Raise e).
Proof.
  unfold extract_post_date. intros H.
  apply bind_inv_raise in H. destruct H as [H|(w1 & t & _ & H)].
  { exfalso. eapply total_no_raise; [apply get_now_total|exact H]. }
  apply bind_inv_raise in H. destruct H as [H|(w2 & original & _ & H)].
  { exists w1. left. exact H. }
  apply bind_inv_raise in H. destruct H as [H|(w3 & [] & _ & H)].
  { exists w2. right. right. eauto. }
  apply bind_inv_raise in H. destruct H as [H|(w4 & [] & _ & H)].
  { exfalso. eapply total_no_raise; [apply (do_sleep_total 5)|exact H]. }
  apply bind_inv_raise in H. destruct H as [H|(w5 & ps & _ & H)].
  { exists w4. right. left. exact H. }
  apply bind_inv_raise in H. destruct H as [H|(w6 & cu & _ & H)].
  { exists w5. left. exact H. }
  apply or_else_inv_raise in H; [|apply log_block_total].
  destruct H as (w7 & H).
  apply or_else_inv_raise in H; [|apply date_from_page_source_total].
  destruct H as (w8 & H).
  unfold approximate_date in H.
  apply bind_inv_raise in H. destruct H as [H|(w9 & [] & _ & H)].
  { exists w8. right. right. eauto. }
  apply bind_inv_raise in H. destruct H as [H|(w10 & [] & _ & H)].
  { exfalso. eapply total_no_raise; [apply (do_sleep_total 3)|exact H]. }
  discriminate.
Qed.

Lemma extract_post_date_sentinel (answer_url : string)
      (w w1 w2 w3 w4 w5 w6 w7 w8 : W) (t : datetime) (original ps cu : string) :
  now drv w = (w1, t) ->
  current_url drv w1 = (w2, Ok original) ->
  get drv (log_url_of answer_url) w2 = (w3, Ok tt) ->
  page_source drv (sleep drv 5 w3) = (w4, Ok ps) ->
  current_url drv w4 = (w5, Ok cu) ->
  (if negb (restricted_access ps) then date_from_log_page drv original else ret None) w5
  = (w6, Ok None) ->
  date_from_page_source drv original ps w6 = (w7, Ok None) ->
  get drv original w7 = (w8, Ok tt) ->
  extract_post_date drv answer_url w
  = (sleep drv 3 w8, Ok ("Approx. " ++ strftime_BdY t)%string).
Proof.
  intros H0 H1 H2 H3 H4 H5 H6 H7.
  unfold extract_post_date, approximate_date, or_else, bind, get_now, do_sleep.
  rewrite H0, H1, H2, H3, H4, H5, H6, H7. reflexivity.
Qed.

(** A failure of one of the four calls before the blocks propagates. *)
Lemma extract_post_date_before_blocks (answer_url : string) (w w' : W) (e : exn) :
  fails_before_blocks drv answer_url w w' e ->
  extract_post_date drv answer_url w = (w', Raise e).
Proof.
  intros H. unfold extract_post_date, bind, do_sleep. rewrite get_now_run.
  destruct H as [H|(w1 & original & H1 & [H|(w2 & H2 & [H|(w3 & ps & H3 & H)])])].
  - rewrite H. reflexivity.
  - rewrite H1, H. reflexivity.
  - rewrite H1, H2, H. reflexivity.
  - rewrite H1, H2, H3, H. reflexivity.
Qed.

(** Once the four calls succeeded, what is left is the cascade of the two
    blocks and the sentinel. *)
Lemma extract_post_date_through_blocks (answer_url : string) (w w4 : W)
      (original ps : string) :
  reaches_blocks drv answer_url w w4 original ps ->
  extract_post_date drv answer_url w
  = or_else (log_block drv original ps)
            (or_else (date_from_page_source drv original ps)
                     (approximate_date drv original (snd (now drv w)))) w4.
Proof.
  intros (w1 & w2 & w3 & cu & H1 & H2 & H3 & H4).
  unfold extract_post_date, bind at 1 2 3 4 5 6, do_sleep. rewrite get_now_run.
  rewrite H1, H2, H3, H4. reflexivity.
Qed.

Lemma approximate_date_run (original : string) (t : datetime) (w : W) :
  (forall w', get drv original w = (w', Ok tt) ->
     approximate_date drv original t w
     = (sleep drv 3 w', Ok ("Approx. " ++ strftime_BdY t)%string))
  /\ (forall w' e, get drv original w = (w', Raise e) ->
        approximate_date drv original t w = (w', Raise e)).
Proof.
  unfold approximate_date, bind, do_sleep, ret.
  split; [intros w' H|intros w' e H]; rewrite H; reflexivity.
Qed.

(** The navigation back fails inside the block of the log page: the date
    found is dropped and the block gives nothing. *)
Lemma log_page_drops (original : string) (w w1 w2 : W) (spans : list string)
      (e : exn) :
  execute_date_spans drv w = (w1, Ok spans) ->
  scan_spans spans <> [] ->
  get drv original w1 = (w2, Raise e) ->
  date_from_log_page drv original w = (w2, Ok None).
Proof.
  intros Hs Hne Hg.
  destruct (earliest_some Hne) as (d & He).
  unfold date_from_log_page, try_except, bind. rewrite Hs.
  destruct spans as [|s0 spans]; [simpl in Hne; congruence|].
  rewrite He. unfold return_after_going_back, bind.
  rewrite Hg. reflexivity.
Qed.

(** Likewise inside the block of the page source. *)
Lemma page_source_drops (original ps : string) (w w1 : W) (e : exn) :
  scan_source ps <> [] ->
  get drv original w = (w1, Raise e) ->
  date_from_page_source drv original ps w = (w1, Ok None).
Proof.
  intros Hne Hg.
  destruct (earliest_some Hne) as (d & He).
  unfold date_from_page_source, try_except. rewrite He.
  unfold return_after_going_back, bind.
  rewrite Hg. reflexivity.
Qed.

(** When the resolver raises, one of the calls outside the blocks raised. *)
Lemma extract_post_date_raise_origin (answer_url : string) (w w' : W) (e : exn) :
  extract_post_date drv answer_url w = (w', Raise e) ->
  fails_before_blocks drv answer_url w w' e
  \/ fails_after_blocks drv answer_url w w' e.
Proof.
  intros H.
  destruct (current_url drv (fst (now drv w))) as [w1 [original|e1]] eqn:H1.
  2:{ left. left.
      rewrite (@extract_post_date_before_blocks answer_url w w1 e1) in H
        by (left; exact H1).
      inversion H; subst. exact H1. }
  destruct (get drv (log_url_of answer_url) w1) as [w2 [[]|e2]] eqn:H2.
  2:{ left. right. exists w1, original. split; [exact H1|]. left.
      rewrite (@extract_post_date_before_blocks answer_url w w2 e2) in H
        by (right; exists w1, original; split; [exact H1|left; exact H2]).
      inversion H; subst. exact H2. }
  destruct (page_source drv (sleep drv 5 w2)) as [w3 [ps|e3]] eqn:H3.
  2:{ left. right. exists w1, original. split; [exact H1|]. right.
      exists w2. split; [exact H2|]. left.
      rewrite (@extract_post_date_before_blocks answer_url w w3 e3) in H
        by (right; exists w1, original; split; [exact H1|]; right;
            exists w2; split; [exact H2|left; exact H3]).
      inversion H; subst. exact H3. }
  destruct (current_url drv w3) as [w4 [cu|e4]] eqn:H4.
  2:{ left. right. exists w1, original. split; [exact H1|]. right.
      exists w2. split; [exact H2|]. right. exists w3, ps. split; [exact H3|].
      rewrite (@extract_post_date_before_blocks answer_url w w4 e4) in H
        by (right; exists w1, original; split; [exact H1|]; right;
            exists w2; split; [exact H2|]; right; exists w3, ps; split;
            [exact H3|exact H4]).
      inversion H; subst. exact H4. }
  assert (R : reaches_blocks drv answer_url w w4 original ps).
  { exists w1, w2, w3, cu. auto. }
  right. rewrite (extract_post_date_through_blocks R) in H.
  unfold or_else at 1, bind at 1 in H.
  destruct (log_block_total original ps w4) as (w5 & r1 & L).
  fold (log_block drv original ps) in L. rewrite L in H.
  destruct r1 as [d|]; [discriminate|].
  unfold or_else at 1, bind at 1 in H.
  destruct (date_from_page_source_total original ps w5) as (w6 & r2 & S).
  rewrite S in H. destruct r2 as [d|]; [discriminate|].
  exists w4, original, ps, w5, w6. split; [exact R|]. split; [exact L|].
  split; [exact S|].
  unfold approximate_date, bind, do_sleep in H.
  destruct (get drv original w6) as [w7 [[]|e7]]; [discriminate|].
  inversion H; subst. reflexivity.
Qed.

End ResolverFacts.

(** C4, as the code has it.  The date resolver makes four driver calls
    before its first [try]: it reads the current URL, opens the log page,
    reads the page source and reads the current URL again.  A failure of
    one of them propagates to the caller.  Once they succeeded, whatever
    fails inside the block of the log page or the block of the page source
    is caught, the navigation back to the original URL included: each
    block ends with a date or with nothing, and a date found is dropped
    when going back fails.  The first date a block gives is returned; when
    both give nothing the resolver goes back to the original URL, outside
    every [try], and returns "Approx. " followed by the date of the day as
    [%B %d, %Y], or raises what this last navigation raised.  It raises in
    no other case. *)
Theorem extract_post_date_outcomes :
  forall (W E : Type) (drv : driver W E) (answer_url : string) (w : W),
    (forall w' e,
        fails_before_blocks drv answer_url w w' e ->
        extract_post_date drv answer_url w = (w', Raise e))
    /\ (forall w4 original ps,
          reaches_blocks drv answer_url w w4 original ps ->
          exists w5 r1 w6 r2,
            log_block drv original ps w4 = (w5, Ok r1)
            /\ date_from_page_source drv original ps w5 = (w6, Ok r2)
            /\ (forall d, r1 = Some d ->
                  extract_post_date drv answer_url w = (w5, Ok d))
            /\ (forall d, r1 = None -> r2 = Some d ->
                  extract_post_date drv answer_url w = (w6, Ok d))
            /\ (r1 = None -> r2 = None ->
                (forall w7, get drv original w6 = (w7, Ok tt) ->
                   extract_post_date drv answer_url w
                   = (sleep drv 3 w7,
                      Ok ("Approx. " ++ strftime_BdY (snd (now drv w)))%string))
                /\ (forall w7 e, get drv original w6 = (w7, Raise e) ->
                      extract_post_date drv answer_url w = (w7, Raise e))))
    /\ (forall original w1 w2 w3 spans e,
          execute_date_spans drv w1 = (w2, Ok spans) ->
          scan_spans spans <> [] ->
          get drv original w2 = (w3, Raise e) ->
          date_from_log_page drv original w1 = (w3, Ok None))
    /\ (forall original ps w1 w2 e,
          scan_source ps <> [] ->
          get drv original w1 = (w2, Raise e) ->
          date_from_page_source drv original ps w1 = (w2, Ok None))
    /\ (forall w' e,
          extract_post_date drv answer_url w = (w', Raise e) ->
          fails_before_blocks drv answer_url w w' e
          \/ fails_after_blocks drv answer_url w w' e).
Proof.
  intros W E drv answer_url w.
  split; [|split; [|split; [|split]]].
  - intros w' e. apply extract_post_date_before_blocks.
  - intros w4 original ps R.
    destruct (log_block_total drv original ps w4) as (w5 & r1 & L).
    fold (log_block drv original ps) in L.
    destruct (date_from_page_source_total drv original ps w5) as (w6 & r2 & S).
    exists w5, r1, w6, r2. split; [exact L|]. split; [exact S|].
    rewrite (extract_post_date_through_blocks R).
    unfold or_else, bind. rewrite L.
    split; [intros d ->; reflexivity|].
    split; [intros d -> ->; rewrite S; reflexivity|].
    intros -> ->. rewrite S.
    destruct (approximate_date_run drv original (snd (now drv w)) w6) as [A1 A2].
    split; [exact A1|exact A2].
  - intros original w1 w2 w3 spans e. apply log_page_drops.
  - intros original ps w1 w2 e. apply page_source_drops.
  - intros w' e. apply extract_post_date_raise_origin.
Qed.

Lemma extract_post_date_outcomes_witness :
  extract_post_date scripted answer_page_url unreachable_page
  = (unreachable_page, Raise WebDriverException)
  /\ (exists w5 r1 w6 r2,
         log_block second_get_fails answer_page_url ""
                   (with_url (log_url_of answer_page_url) deleted_page, 1)
         = (w5, Ok r1)
         /\ date_from_page_source second_get_fails answer_page_url "" w5 = (w6, Ok r2)
         /\ (forall d, r1 = Some d ->
               extract_post_date second_get_fails answer_page_url (deleted_page, 0)
               = (w5, Ok d))
         /\ (forall d, r1 = None -> r2 = Some d ->
               extract_post_date second_get_fails answer_page_url (deleted_page, 0)
               = (w6, Ok d))
         /\ (r1 = None -> r2 = None ->
             (forall w7, get second_get_fails answer_page_url w6 = (w7, Ok tt) ->
                extract_post_date second_get_fails answer_page_url (deleted_page, 0)
                = (sleep second_get_fails 3 w7,
                   Ok ("Approx. "
                       ++ strftime_BdY (snd (now second_get_fails (deleted_page, 0))))%string))
             /\ (forall w7 e, get second_get_fails answer_page_url w6 = (w7, Raise e) ->
                   extract_post_date second_get_fails answer_page_url (deleted_page, 0)
                   = (w7, Raise e))))
  /\ date_from_log_page second_get_fails answer_page_url (deleted_page, 1)
     = ((deleted_page, 2), Ok None)
  /\ date_from_page_source second_get_fails "https://x.com/T/answer/A" timed_source
                           (timed_source_page, 1)
     = ((timed_source_page, 2), Ok None)
  /\ (fails_before_blocks scripted answer_page_url unreachable_page unreachable_page
                          WebDriverException
      \/ fails_after_blocks scripted answer_page_url unreachable_page unreachable_page
                            WebDriverException).
Proof.
  split; [|split; [|split; [|split]]].
  - destruct (extract_post_date_outcomes scripted answer_page_url unreachable_page)
      as (Hbefore & _).
    apply Hbefore. right. exists unreachable_page, answer_page_url.
    split; [reflexivity|]. left. reflexivity.
  - destruct (extract_post_date_outcomes second_get_fails answer_page_url
                                         (deleted_page, 0))
      as (_ & Hblocks & _).
    apply Hblocks.
    exists (deleted_page, 0),
           (with_url (log_url_of answer_page_url) deleted_page, 1),
           (with_url (log_url_of answer_page_url) deleted_page, 1),
           (log_url_of answer_page_url).
    repeat split; reflexivity.
  - destruct (extract_post_date_outcomes second_get_fails answer_page_url
                                         (deleted_page, 0))
      as (_ & _ & Hlog & _).
    apply (Hlog answer_page_url (deleted_page, 1) (deleted_page, 1) (deleted_page, 2)
                (date_spans deleted_page) WebDriverException).
    + reflexivity.
    + vm_compute. discriminate.
    + reflexivity.
  - destruct (extract_post_date_outcomes second_get_fails answer_page_url
                                         (deleted_page, 0))
      as (_ & _ & _ & Hsrc & _).
    apply (Hsrc "https://x.com/T/answer/A" timed_source (timed_source_page, 1)
                (timed_source_page, 2) WebDriverException).
    + vm_compute. discriminate.
    + reflexivity.
  - destruct (extract_post_date_outcomes scripted answer_page_url unreachable_page)
      as (_ & _ & _ & _ & Hraise).
    apply Hraise. reflexivity.
Defined.

(** The claim C4 fails: when the navigation to the log page fails, the
    resolver raises. *)
Lemma extract_post_date_raises :
  extract_post_date scripted answer_page_url unreachable_page
  = (unreachable_page, Raise WebDriverException)
  /\ ~ exists w' s,
        extract_post_date scripted answer_page_url unreachable_page = (w', Ok s).
Proof.
  split; [reflexivity|]. intros (w' & s & H). vm_compute in H. discriminate.
Qed.

Section BuilderFacts.

Context {W E : Type}.
Variable drv : driver W E.
Variable urlparse : string -> result parsed_url.
Variable urlunsplit : string -> string -> string -> string -> string -> string.

Lemma error_record_run (url : string) (e : exn) (w : W) :
  error_record drv urlparse urlunsplit url e w
  = (fst (now drv w),
     Ok (MkRecord url (extract_base_url urlparse urlunsplit url) "Error" "Error"
                  zero_stats (isoformat (snd (now drv w))) None
                  (Some (exn_text e)))).
Proof.
  unfold error_record, bind. rewrite get_now_run. reflexivity.
Qed.

(** A record of the body of the [try]: no error, and the deletion flag. *)
Lemma scrape_body_record (url : string) (w w' : W) (r : answer_record) :
  scrape_body drv urlparse urlunsplit url w = (w', Ok r) ->
  exists w1 w2 b,
    check_deleted drv w1 = (w2, Ok b)
    /\ is_deleted r = Some b
    /\ error r = None
    /\ answer_url r = url
    /\ base_url r = extract_base_url urlparse urlunsplit url
    /\ exists w3,
        if b then
          extract_post_date drv url w2 = (w3, Ok (post_date r))
          /\ author r = "POST DELETED" /\ record_stats r = zero_stats
        else
          exists w4 w5 w6 w7 w8,
            extract_author_name drv w2 = (w3, Ok (author r))
            /\ extract_post_date drv url w3 = (w4, Ok (post_date r))
            /\ extract_view_count drv w4 = (w5, Ok (views (record_stats r)))
            /\ extract_upvote_count drv w5 = (w6, Ok (upvotes (record_stats r)))
            /\ extract_comment_count drv w6 = (w7, Ok (comments (record_stats r)))
            /\ extract_share_count drv w7 = (w8, Ok (shares (record_stats r))).
Proof.
  unfold scrape_body. intros H.
  inv_bind H. inv_bind H. inv_bind H. inv_bind H. inv_bind H. inv_bind H.
  match goal with Hc : check_deleted drv ?x = (?y, Ok ?b) |- _ =>
    exists x, y, b; split; [exact Hc|]; destruct b
  end.
  - inv_bind H. inv_bind H. inversion H; subst; simpl.
    repeat split; auto. eexists. repeat split; eauto.
  - inv_bind H. inv_bind H. inv_bind H. inv_bind H. inv_bind H. inv_bind H.
    inv_bind H. inversion H; subst; simpl.
    repeat split; auto. do 6 eexists. repeat split; eauto.
Qed.

Lemma scrape_quora_answer_run (url : string) (w : W) :
  exists w' r,
    scrape_quora_answer drv urlparse urlunsplit url w = (w', Ok r)
    /\ (forall w1 e,
           scrape_body drv urlparse urlunsplit url w = (w1, Raise e) ->
           r = MkRecord url (extract_base_url urlparse urlunsplit url) "Error" "Error"
                        zero_stats (isoformat (snd (now drv w1))) None
                        (Some (exn_text e)))
    /\ (forall w1 r1,
           scrape_body drv urlparse urlunsplit url w = (w1, Ok r1) ->
           r = r1 /\ error r = None /\ exists b, is_deleted r = Some b).
Proof.
  unfold scrape_quora_answer, try_except.
  destruct (scrape_body drv urlparse urlunsplit url w) as [w1 [r1|e]] eqn:Hb.
  - exists w1, r1. split; [reflexivity|]. split; [discriminate|].
    intros w2 r2 H. inversion H; subst.
    apply scrape_body_record in Hb.
    destruct Hb as (wa & wb & b & _ & Hd & He & _).
    eauto.
  - rewrite error_record_run. eexists. eexists. split; [reflexivity|].
    split; [|discriminate].
    intros w2 e2 H. inversion H; subst. reflexivity.
Qed.

End BuilderFacts.

(** C6.  A record with [is_deleted] true has the author "POST DELETED" and
    the four counts "0", and its post date is what the date resolver
    returned, run after the deletion check found the notice. *)
Theorem deleted_record_fields :
  forall (W E : Type) (drv : driver W E)
         (urlparse : string -> result parsed_url)
         (urlunsplit : string -> string -> string -> string -> string -> string)
         (url : string) (w w' : W) (r : answer_record),
    scrape_quora_answer drv urlparse urlunsplit url w = (w', Ok r) ->
    is_deleted r = Some true ->
    author r = "POST DELETED"
    /\ views (record_stats r) = "0" /\ upvotes (record_stats r) = "0"
    /\ comments (record_stats r) = "0" /\ shares (record_stats r) = "0"
    /\ exists w1 w2 w3,
        check_deleted drv w1 = (w2, Ok true)
        /\ extract_post_date drv url w2 = (w3, Ok (post_date r)).
Proof.
  intros W E drv urlparse urlunsplit url w w' r H Hd.
  unfold scrape_quora_answer, try_except in H.
  destruct (scrape_body drv urlparse urlunsplit url w) as [w1 [r1|e]] eqn:Hb.
  - inversion H; subst.
    apply scrape_body_record in Hb.
    destruct Hb as (wa & wb & b & Hc & Hb' & _ & _ & _ & wc & Hrest).
    rewrite Hd in Hb'. inversion Hb'; subst b.
    destruct Hrest as (Hp & Ha & Hs). rewrite Hs. simpl.
    repeat split; auto. eauto.
  - rewrite error_record_run in H. inversion H; subst. discriminate.
Qed.

Lemma deleted_record_fields_witness :
  exists r,
    snd (scrape_quora_answer scripted urlparse_whole urlunsplit_path
                             answer_page_url deleted_page) = Ok r
    /\ is_deleted r = Some true
    /\ post_date r = "March 1, 2021 at 10:00 AM"
    /\ author r = "POST DELETED"
    /\ views (record_stats r) = "0" /\ upvotes (record_stats r) = "0"
    /\ comments (record_stats r) = "0" /\ shares (record_stats r) = "0"
    /\ exists w1 w2 w3,
        check_deleted scripted w1 = (w2, Ok true)
        /\ extract_post_date scripted answer_page_url w2 = (w3, Ok (post_date r)).
Proof.
  destruct (scrape_quora_answer scripted urlparse_whole urlunsplit_path
                                answer_page_url deleted_page) as [w' [r|e]] eqn:H;
    [|vm_compute in H; discriminate].
  exists r. split; [reflexivity|].
  assert (Hd : is_deleted r = Some true)
    by (vm_compute in H; inversion H; reflexivity).
  assert (Hp : post_date r = "March 1, 2021 at 10:00 AM")
    by (vm_compute in H; inversion H; reflexivity).
  split; [exact Hd|]. split; [exact Hp|].
  exact (deleted_record_fields scripted urlparse_whole urlunsplit_path
                               answer_page_url deleted_page H Hd).
Defined.

(** C9, as the code has it.  The record builder returns one record and
    never raises.  When the body of its [try] raises, the record has the
    text of the exception as [error] (not empty when the exception has a
    text), "Error" as author and as post date,
    the four counts "0", the URL, the base URL and the time of the scrape,
    and no key [is_deleted].  Otherwise the record is the one the body
    built, without [error] and with [is_deleted]. *)
Theorem scrape_returns_one_record :
  forall (W E : Type) (drv : driver W E)
         (urlparse : string -> result parsed_url)
         (urlunsplit : string -> string -> string -> string -> string -> string)
         (url : string) (w : W),
  exists w' r,
    scrape_quora_answer drv urlparse urlunsplit url w = (w', Ok r)
    /\ (forall w1 e,
           scrape_body drv urlparse urlunsplit url w = (w1, Raise e) ->
           error r = Some (exn_text e)
           /\ (exn_text e <> EmptyString ->
               exists s, error r = Some s /\ s <> EmptyString)
           /\ author r = "Error" /\ post_date r = "Error"
           /\ record_stats r = MkStats "0" "0" "0" "0"
           /\ answer_url r = url
           /\ base_url r = extract_base_url urlparse urlunsplit url
           /\ scraped_at r = isoformat (snd (now drv w1))
           /\ is_deleted r = None)
    /\ (forall w1 r1,
           scrape_body drv urlparse urlunsplit url w = (w1, Ok r1) ->
           r = r1 /\ error r = None /\ exists b, is_deleted r = Some b).
Proof.
  intros W E drv urlparse urlunsplit url w.
  destruct (scrape_quora_answer_run drv urlparse urlunsplit url w)
    as (w' & r & Hr & Herr & Hok).
  exists w', r. split; [exact Hr|]. split; [|exact Hok].
  intros w1 e H. rewrite (Herr w1 e H). simpl.
  split; [reflexivity|]. split; [|repeat split].
  intros Hne. exists (exn_text e). auto.
Qed.

Lemma scrape_returns_one_record_witness :
  exists w' r,
    scrape_quora_answer scripted urlparse_whole urlunsplit_path
                        answer_page_url unreachable_page = (w', Ok r)
    /\ error r = Some "Message: unknown error: net::ERR_CONNECTION_RESET"
    /\ author r = "Error" /\ post_date r = "Error"
    /\ record_stats r = MkStats "0" "0" "0" "0"
    /\ is_deleted r = None.
Proof.
  destruct (scrape_returns_one_record scripted urlparse_whole urlunsplit_path
                                      answer_page_url unreachable_page)
    as (w' & r & Hr & Herr & _).
  exists w', r. split; [exact Hr|].
  destruct (Herr unreachable_page WebDriverException eq_refl)
    as (He & _ & Ha & Hp & Hs & _ & _ & _ & Hd).
  repeat split; assumption.
Defined.

(** The claim C9 fails: the record of a failed scrape has no deletion
    flag. *)
Lemma error_record_lacks_is_deleted :
  exists r,
    scrape_quora_answer scripted urlparse_whole urlunsplit_path
                        answer_page_url unreachable_page = (unreachable_page, Ok r)
    /\ error r = Some "Message: unknown error: net::ERR_CONNECTION_RESET"
    /\ ~ exists b, is_deleted r = Some b.
Proof.
  eexists. split; [vm_compute; reflexivity|]. split; [reflexivity|].
  intros (b & H). discriminate.
Qed.

(* ===================================================================== *)
(** * The author from the URL *)
(* ===================================================================== *)

Section CutFacts.

Local Open Scope string_scope.

Lemma prefix_split (p s : string) :
  prefix p s = true -> s = p ++ drop (String.length p) s.
Proof.
  revert s. induction p as [|a p IH]; intros s H; simpl.
  - destruct s; reflexivity.
  - destruct s as [|b s]; simpl in H; [discriminate|].
    destruct (ascii_dec a b) as [->|]; [|discriminate].
    f_equal. apply IH, H.
Qed.

Lemma prefix_mono (p x y : string) :
  prefix p x = true -> prefix p (x ++ y) = true.
Proof.
  revert x. induction p as [|a p IH]; intros x H; simpl.
  - destruct (x ++ y); reflexivity.
  - destruct x as [|b x]; simpl in *; [discriminate|].
    destruct (ascii_dec a b); [apply IH, H|discriminate].
Qed.

Lemma prefix_short (p s : string) :
  String.length s < String.length p -> prefix p s = false.
Proof.
  revert s. induction p as [|a p IH]; intros s H; simpl in *; [lia|].
  destruct s as [|b s]; [reflexivity|]. simpl in H. simpl.
  destruct (ascii_dec a b); [apply IH; lia|reflexivity].
Qed.

Lemma contains_short (p s : string) :
  String.length s < String.length p -> contains p s = false.
Proof.
  induction s as [|b s IH]; intros H; cbn [contains].
  - rewrite (prefix_short p "" H). reflexivity.
  - rewrite (prefix_short p (String b s) H). simpl in H. apply IH. lia.
Qed.

Lemma cut_contains (sep s : string) :
  contains sep s = true -> exists a b, cut sep s = Some (a, b).
Proof.
  induction s as [|c s IH]; cbn [contains cut]; intros H.
  - rewrite orb_false_r in H. rewrite H. eauto.
  - destruct (prefix sep (String c s)); [eauto|]. simpl in H.
    destruct (IH H) as (a & b & ->). eauto.
Qed.

Lemma cut_some (sep s a b : string) :
  cut sep s = Some (a, b) -> s = a ++ sep ++ b.
Proof.
  revert a. induction s as [|c s IH]; intros a H; cbn [cut] in H.
  - destruct (prefix sep "") eqn:P; [|discriminate].
    inversion H; subst. simpl. apply (prefix_split sep "" P).
  - destruct (prefix sep (String c s)) eqn:P.
    + inversion H; subst. simpl. apply (prefix_split sep (String c s) P).
    + destruct (cut sep s) as [[a' b']|]; [|discriminate].
      inversion H; subst. simpl. f_equal. apply IH. reflexivity.
Qed.

(** The cut is at the first occurrence of "/answer/". *)
Lemma cut_answer_first (s a b : string) :
  cut "/answer/" s = Some (a, b) -> contains "/answer/" (a ++ "/answer") = false.
Proof.
  revert a. induction s as [|c s IH]; intros a H.
  - discriminate.
  - cbn [cut] in H. destruct (prefix "/answer/" (String c s)) eqn:P.
    + inversion H; subst. reflexivity.
    + destruct (cut "/answer/" s) as [[a' b']|] eqn:C; [|discriminate].
      inversion H; subst.
      change (contains "/answer/" (String c a' ++ "/answer"))
        with (prefix "/answer/" (String c (a' ++ "/answer"))
              || contains "/answer/" (a' ++ "/answer"))%bool.
      rewrite (IH a' eq_refl), orb_false_r.
      destruct (prefix "/answer/" (String c (a' ++ "/answer"))) eqn:Q;
        [|reflexivity].
      apply (prefix_mono _ _ ("/" ++ b)) in Q.
      rewrite (cut_some _ _ C) in P.
      replace (String c (a' ++ "/answer") ++ "/" ++ b)
        with (String c (a' ++ "/answer/" ++ b)) in Q; [congruence|].
      simpl. f_equal. rewrite sapp_assoc. reflexivity.
Qed.

Lemma upto_spec (c : ascii) (s : string) :
  exists rest,
    s = upto c s ++ rest
    /\ contains (String c "") (upto c s) = false
    /\ (rest = "" \/ startswith (String c "") rest = true).
Proof.
  induction s as [|a s (rest & Hs & Hc & Hr)]; simpl.
  - exists "". auto.
  - destruct (Ascii.eqb a c) eqn:Eq.
    + apply Ascii.eqb_eq in Eq. subst a. exists (String c s).
      split; [reflexivity|]. split; [reflexivity|]. right.
      unfold startswith. simpl. destruct (ascii_dec c c); [|congruence].
      destruct s; reflexivity.
    + exists rest. split; [simpl; congruence|]. split; [|exact Hr].
      simpl. rewrite Hc, orb_false_r.
      destruct (ascii_dec c a) as [->|]; [|reflexivity].
      rewrite Ascii.eqb_refl in Eq. discriminate.
Qed.

(** The first piece of a split at one character. *)
Lemma first_piece_upto (c : ascii) (s : string) :
  match cut (String c "") s with Some (x, _) => x | None => s end = upto c s.
Proof.
  induction s as [|a s IH]; [reflexivity|].
  cbn [cut upto prefix].
  destruct (ascii_dec c a) as [->|Hne].
  - rewrite Ascii.eqb_refl. destruct s; reflexivity.
  - destruct (Ascii.eqb a c) eqn:Eq.
    + apply Ascii.eqb_eq in Eq. congruence.
    + destruct (cut (String c "") s) as [[x y]|]; congruence.
Qed.

Lemma upto_app_sep (c : ascii) (a y : string) :
  upto c (a ++ String c y) = upto c a.
Proof.
  induction a as [|b a IH]; simpl.
  - rewrite Ascii.eqb_refl. reflexivity.
  - destruct (Ascii.eqb b c); congruence.
Qed.

Lemma split_first_piece (c : ascii) (s : string) :
  nth_error (split (String c "") s) 0 = Some (upto c s).
Proof.
  unfold split. rewrite <- first_piece_upto.
  destruct s as [|a s]; [reflexivity|].
  cbn [String.length split_fuel].
  destruct (cut (String c "") (String a s)) as [[x y]|]; reflexivity.
Qed.

(** The name the URL gives: the text after the first "/answer/", up to
    the next "/". *)
Lemma username_of_url_spec (url pre tail : string) :
  cut "/answer/" url = Some (pre, tail) ->
  username_of_url url = Ok (replace "-" " " (upto "/" tail)).
Proof.
  intros C. pose proof (cut_some _ _ C) as Hurl.
  unfold username_of_url. unfold split at 1.
  assert (Hlen : String.length url = S (S (String.length pre + 6 + String.length tail))).
  { rewrite Hurl, !slen_app. simpl. lia. }
  rewrite Hlen. cbn [split_fuel]. rewrite C. cbn [nth_error split_fuel].
  destruct (cut "/answer/" tail) as [[a b]|] eqn:C2; cbn [nth_error].
  - pose proof (split_first_piece "/" a) as Hp. cbn [nth_error] in Hp.
    rewrite Hp. rewrite (cut_some _ _ C2).
    change ("/answer/" ++ b) with (String "/" ("answer/" ++ b)).
    rewrite upto_app_sep. reflexivity.
  - pose proof (split_first_piece "/" tail) as Hp. cbn [nth_error] in Hp.
    rewrite Hp. reflexivity.
Qed.

End CutFacts.

(** C10.  When no selector gives a plausible name and the current URL
    contains "/answer/", the author extractor returns the text that follows
    the first "/answer/", up to the next "/", every "-" replaced by a space.
    No validation is applied: the text may be empty, one character long, or
    contain "answer". *)
Theorem author_from_url_segment :
  forall (W E : Type) (drv : driver W E) (w w1 w2 : W) (url : string),
    author_from_selectors drv w = (w1, Ok None) ->
    current_url drv w1 = (w2, Ok url) ->
    contains "/answer/" url = true ->
    exists pre seg rest,
      url = (pre ++ "/answer/" ++ seg ++ rest)%string
      /\ contains "/answer/" (pre ++ "/answer") = false
      /\ contains "/" seg = false
      /\ (rest = EmptyString \/ startswith "/" rest = true)
      /\ extract_author_name drv w = (w2, Ok (replace "-" " " seg)).
Proof.
  intros W E drv w w1 w2 url Hs Hu Hc.
  destruct (cut_contains _ _ Hc) as (pre & tail & C).
  destruct (upto_spec "/" tail) as (rest & Ht & Hseg & Hrest).
  exists pre, (upto "/" tail), rest.
  split; [rewrite <- Ht; apply (cut_some _ _ C)|].
  split; [apply (cut_answer_first _ C)|].
  split; [exact Hseg|]. split; [exact Hrest|].
  unfold extract_author_name, or_else, author_from_url, try_except, bind, lift.
  rewrite Hs, Hu, Hc, (username_of_url_spec _ C). reflexivity.
Qed.

Lemma author_from_url_segment_witness :
  exists pre seg rest,
    "https://x.com/T/answer/A-B"
    = (pre ++ "/answer/" ++ seg ++ rest)%string
    /\ contains "/answer/" (pre ++ "/answer") = false
    /\ contains "/" seg = false
    /\ (rest = EmptyString \/ startswith "/" rest = true)
    /\ extract_author_name scripted (bare_page "https://x.com/T/answer/A-B")
       = (bare_page "https://x.com/T/answer/A-B", Ok (replace "-" " " seg)).
Proof.
  apply (author_from_url_segment scripted (bare_page "https://x.com/T/answer/A-B"))
    with (w1 := bare_page "https://x.com/T/answer/A-B"); reflexivity.
Defined.

Example author_from_url_run :
  snd (extract_author_name scripted (bare_page "https://x.com/T/answer/A-B/log"))
  = Ok "A B".
Proof. reflexivity. Qed.

(** The fallback is not validated: an empty name, a name of one character
    and a name with "answer" in it are returned, though none is plausible. *)
Example author_from_url_unvalidated :
  snd (extract_author_name scripted (bare_page "https://x.com/T/answer/")) = Ok ""
  /\ snd (extract_author_name scripted (bare_page "https://x.com/T/answer/X")) = Ok "X"
  /\ snd (extract_author_name scripted (bare_page "https://x.com/T/answer/My-answer"))
     = Ok "My answer"
  /\ plausible_author "" = false /\ plausible_author "X" = false
  /\ plausible_author "My answer" = false.
Proof. repeat split; reflexivity. Qed.

(* ===================================================================== *)
(** * What the count strategies accept *)
(* ===================================================================== *)

Section TokenFacts.

Local Open Scope string_scope.

Lemma lang_classes (ic ic' : bool) (r : regex) (s : string) :
  classes_ok (fun cl => forall c, class_ok ic cl c = true -> class_ok ic' cl c = true) r ->
  lang ic r s -> lang ic' r s.
Proof.
  intros Hc H. induction H; simpl in Hc.
  - constructor.
  - constructor. auto.
  - destruct Hc. constructor; auto.
  - destruct Hc. apply L_alt_l. auto.
  - destruct Hc. apply L_alt_r. auto.
  - constructor.
  - apply L_star_cons; auto.
  - constructor. auto.
Qed.

(** With or without [re.IGNORECASE] a count token is the same. *)
Lemma token_case (s : string) :
  lang true count_token_re s -> lang false count_token_re s.
Proof.
  apply lang_classes. simpl.
  repeat split; intros c;
    destruct c as [[] [] [] [] [] [] [] []]; vm_compute; auto.
Qed.

Lemma star_digits (ic : bool) (s : string) :
  all_chars is_digit s = true -> lang ic (Star digit) s.
Proof.
  induction s as [|c s IH]; simpl; intros H; [constructor|].
  apply andb_true_iff in H. destruct H as [Hc Hs].
  apply (L_star_cons (ic := ic) (r := digit) (u := String c "") (v := s)).
  - constructor. exact Hc.
  - apply IH, Hs.
Qed.

(** A run of digits is a count token. *)
Lemma digits_token (s : string) :
  isdigit s = true -> lang false count_token_re s.
Proof.
  unfold isdigit. intros H. apply andb_true_iff in H. destruct H as [Ht Hd].
  destruct s as [|c s]; [discriminate|]. simpl in Hd.
  apply andb_true_iff in Hd. destruct Hd as [Hc Hs].
  assert (L : lang false (Plus digit) (String c s)).
  { apply (L_seq (ic := false) (r1 := digit) (r2 := Star digit)
                 (u := String c "") (v := s)).
    - constructor. exact Hc.
    - apply star_digits, Hs. }
  replace (String c s) with (String c s ++ ("" ++ ("" ++ "")))
    by apply sapp_nil_r.
  unfold count_token_re. cbn [seqs].
  apply L_seq; [exact L|].
  apply L_seq; [apply L_star_nil|].
  apply L_seq; apply L_alt_r; constructor.
Qed.

Lemma digits_of_digits (s : string) : all_chars is_digit (digits_of s) = true.
Proof.
  induction s as [|c s IH]; simpl; [reflexivity|].
  destruct (is_digit c) eqn:E; simpl; [rewrite E|]; exact IH.
Qed.

(** The five phrase patterns capture a count token in group 1. *)
Lemma phrase_group (ic : bool) (r : regex) (text : string) (m : rematch) :
  In r [views_re; upvotes_re; comments_re; view_shares_re; shares_re] ->
  search_from ic r 0 text = Some m ->
  lang false count_token_re (group_or_empty 1 m).
Proof.
  intros Hr H.
  assert (Hg : groups_ok ic (token_group ic) r /\ mandatory 1 r = true).
  { simpl in Hr.
    destruct Hr as [<-|[<-|[<-|[<-|[<-|[]]]]]];
      (split; [|reflexivity]); simpl; unfold token_group; tauto. }
  destruct Hg as [Hg Hm].
  pose proof (@search_group_ok ic (token_group ic) r 0 1 text m Hg Hm H) as L.
  specialize (L eq_refl).
  destruct ic; [apply token_case|]; exact L.
Qed.

End TokenFacts.

Section StrategyFacts.

Context {W E : Type}.
Variable drv : driver W E.

Lemma try_none_inv (A : Type) (m : M W (option A)) (w w' : W) (v : A) :
  try_except m (fun _ => ret None) w = (w', Ok (Some v)) ->
  m w = (w', Ok (Some v)).
Proof.
  unfold try_except. destruct (m w) as [w1 [a|e]]; [auto|].
  unfold ret. discriminate.
Qed.

Lemma for_first_inv (A B : Type) (l : list A) (body : A -> M W (option B))
      (w w' : W) (v : B) :
  for_first l body w = (w', Ok (Some v)) ->
  exists a w1, In a l /\ body a w1 = (w', Ok (Some v)).
Proof.
  revert w. induction l as [|a l IH]; intros w H; simpl in H.
  - discriminate.
  - apply bind_inv_ok in H. destruct H as (w1 & [b|] & Hb & H).
    + inversion H; subst. exists a, w. split; [left; reflexivity|exact Hb].
    + destruct (IH _ H) as (a' & w2 & Hin & Hb'). exists a', w2.
      split; [right; exact Hin|exact Hb'].
Qed.

Lemma count_in_inv (searcher : regex -> string -> option rematch) (r : regex)
      (text : string) (w w' : W) (v : string) :
  count_in searcher r text w = (w', Ok (Some v)) ->
  exists m, searcher r text = Some m
            /\ normalize_count (group_or_empty 1 m) = Ok v.
Proof.
  unfold count_in, return_count. destruct (searcher r text) as [m|]; [|discriminate].
  intros H. exists m. split; [reflexivity|].
  unfold bind, lift, ret in H.
  destruct (normalize_count (group_or_empty 1 m)); inversion H. reflexivity.
Qed.

Lemma count_from_selectors_inv (selectors : list string) (word : string)
      (searcher : regex -> string -> option rematch) (r : regex)
      (w w' : W) (v : string) :
  count_from_selectors drv selectors word searcher r w = (w', Ok (Some v)) ->
  exists text m, searcher r text = Some m
                 /\ normalize_count (group_or_empty 1 m) = Ok v.
Proof.
  unfold count_from_selectors. intros H.
  apply for_first_inv in H. destruct H as (selector & w1 & _ & H).
  apply try_none_inv in H.
  apply bind_inv_ok in H. destruct H as (w2 & elements & _ & H).
  apply for_first_inv in H. destruct H as (element & w3 & _ & H).
  apply bind_inv_ok in H. destruct H as (w4 & t & _ & H).
  destruct (contains word (lower (strip t))); [|discriminate].
  apply count_in_inv in H. destruct H as (m & Hm & Hn). eauto.
Qed.

(** What a strategy that searches a phrase returns is the normalised form
    of a count token. *)
Lemma phrase_accepts (ic : bool) (searcher : regex -> string -> option rematch)
      (r : regex) (text : string) (m : rematch) (v : string) :
  (forall r s, searcher r s = search_from ic r 0 s) ->
  In r [views_re; upvotes_re; comments_re; view_shares_re; shares_re] ->
  searcher r text = Some m ->
  normalize_count (group_or_empty 1 m) = Ok v ->
  exists raw, lang false count_token_re raw /\ normalize_count raw = Ok v.
Proof.
  intros Hs Hr Hm Hn. rewrite Hs in Hm.
  exists (group_or_empty 1 m). split; [|exact Hn].
  eapply phrase_group; [exact Hr|exact Hm].
Qed.

End StrategyFacts.

Section AcceptedValues.

Lemma accepted_phrase (s : strategy) (v : string) :
  digits_only s = false ->
  (exists raw, lang false count_token_re raw /\ normalize_count raw = Ok v) ->
  accepted s v.
Proof. unfold accepted. intros ->. auto. Qed.

Lemma accepted_digits (s : strategy) (v : string) :
  digits_only s = true ->
  isdigit v = true ->
  (length_guarded s = true -> String.length v < 10) ->
  accepted s v.
Proof. unfold accepted. intros ->. auto. Qed.

Lemma plausible_upvote_spec (v : string) :
  plausible_upvote v = true -> isdigit v = true /\ String.length v < 10.
Proof.
  unfold plausible_upvote. intros H.
  apply andb_true_iff in H. destruct H as [H Hl].
  apply andb_true_iff in H. destruct H as [_ Hd].
  split; [exact Hd|]. apply Nat.ltb_lt, Hl.
Qed.

Lemma plausible_upvote_digits_spec (t : string) :
  plausible_upvote_digits (digits_of t) = true ->
  isdigit (digits_of t) = true /\ String.length (digits_of t) < 10.
Proof.
  unfold plausible_upvote_digits, isdigit. intros H.
  apply andb_true_iff in H. destruct H as [Ht Hl].
  rewrite Ht, digits_of_digits. split; [reflexivity|]. apply Nat.ltb_lt, Hl.
Qed.

Lemma plausible_digits_spec (v : string) :
  plausible_digits v = true -> isdigit v = true.
Proof.
  unfold plausible_digits. intros H. apply andb_true_iff in H. tauto.
Qed.

End AcceptedValues.

(** C8, as the code has it.  What a strategy that validates in Python
    returns is of one of two kinds.  A strategy that searches a phrase
    returns the normalised form of a token captured by
    [\d+(?:,\d+)*(?:\.\d+)?[KkMm]?].  A strategy that takes digits returns,
    as it is, a text that passed [isdigit] (or that was put together from
    the characters that pass it); the pattern plays no part there.  The
    bound of fewer than 10 characters holds for the two upvote strategies
    that carry the guard, the specific XPath and the digits of the button
    text; each of the eleven other strategies returns a count of eleven
    digits when the page shows one. *)
Theorem accepted_count_values :
  (forall (W E : Type) (drv : driver W E) (s : strategy) (w w' : W) (v : string),
      run_strategy drv s w = (w', Ok (Some v)) ->
      if digits_only s
      then isdigit v = true /\ (length_guarded s = true -> String.length v < 10)
      else exists raw, lang false count_token_re raw /\ normalize_count raw = Ok v)
  /\ (forall s : strategy,
        length_guarded s = false ->
        run_strategy scripted s (long_page s) = (long_page s, Ok (Some long_digits))
        /\ String.length long_digits = 11).
Proof.
  split; [|intros s Hs; destruct s; try discriminate Hs; split; reflexivity].
  intros W E drv s w w' v H. change (accepted s v).
  destruct s; simpl in H.
  - (* views_xpath *)
    apply accepted_phrase; try reflexivity.
    unfold views_from_xpath in H. apply try_none_inv in H.
    open_bind H as el. open_bind H as t.
    destruct (contains "views" (lower (strip t))); [|discriminate].
    apply count_in_inv in H. destruct H as (m & Hm & Hn).
    eapply (@phrase_accepts false search);
      [intros; reflexivity| |exact Hm|exact Hn]; simpl; tauto.
  - (* views_selectors *)
    apply accepted_phrase; try reflexivity.
    apply count_from_selectors_inv in H. destruct H as (text & m & Hm & Hn).
    eapply (@phrase_accepts false search);
      [intros; reflexivity| |exact Hm|exact Hn]; simpl; tauto.
  - (* views_script *)
    apply accepted_phrase; try reflexivity.
    unfold views_from_script in H. open_bind H as r.
    destruct r as [views_text|]; [|discriminate].
    destruct (truthy views_text); [|discriminate].
    apply count_in_inv in H. destruct H as (m & Hm & Hn).
    eapply (@phrase_accepts false search);
      [intros; reflexivity| |exact Hm|exact Hn]; simpl; tauto.
  - (* upvotes_xpath *)
    unfold upvotes_from_xpath in H. apply try_none_inv in H.
    open_bind H as el. open_bind H as t.
    destruct (plausible_upvote (strip t)) eqn:V; [|discriminate].
    inversion H; subst. apply plausible_upvote_spec in V.
    apply accepted_digits; tauto.
  - (* upvotes_buttons *)
    unfold upvotes_from_buttons in H. apply try_none_inv in H.
    open_bind H as buttons.
    apply for_first_inv in H. destruct H as (button & w2 & _ & H).
    open_bind H as t.
    destruct (plausible_upvote_digits (digits_of (strip t))) eqn:V; [|discriminate].
    inversion H; subst. apply plausible_upvote_digits_spec in V.
    apply accepted_digits; tauto.
  - (* upvotes_selectors *)
    apply accepted_phrase; try reflexivity.
    apply count_from_selectors_inv in H. destruct H as (text & m & Hm & Hn).
    eapply (@phrase_accepts true search_i);
      [intros; reflexivity| |exact Hm|exact Hn]; simpl; tauto.
  - (* comments_xpath *)
    unfold comments_from_xpath in H. apply try_none_inv in H.
    open_bind H as el. open_bind H as t.
    destruct (plausible_digits (strip t)) eqn:V; [|discriminate].
    inversion H; subst. apply plausible_digits_spec in V.
    apply accepted_digits; [reflexivity|exact V|discriminate].
  - (* comments_spans *)
    unfold comments_from_spans in H. apply try_none_inv in H.
    open_bind H as spans.
    apply for_first_inv in H. destruct H as (span & w2 & _ & H).
    open_bind H as t.
    destruct (plausible_digits (strip t)) eqn:V; [|discriminate].
    inversion H; subst. apply plausible_digits_spec in V.
    apply accepted_digits; [reflexivity|exact V|discriminate].
  - (* comments_buttons *)
    unfold comments_from_buttons in H. apply try_none_inv in H.
    open_bind H as buttons.
    apply for_first_inv in H. destruct H as (button & w2 & _ & H).
    open_bind H as t.
    destruct (plausible_digits (strip t)) eqn:V.
    + inversion H; subst. apply plausible_digits_spec in V.
      apply accepted_digits; [reflexivity|exact V|discriminate].
    + destruct (truthy (digits_of (strip t))) eqn:T; [|discriminate].
      inversion H; subst.
      apply accepted_digits; [reflexivity| |discriminate].
      unfold isdigit. rewrite T, digits_of_digits. reflexivity.
  - (* comments_selectors *)
    apply accepted_phrase; try reflexivity.
    apply count_from_selectors_inv in H. destruct H as (text & m & Hm & Hn).
    eapply (@phrase_accepts true search_i);
      [intros; reflexivity| |exact Hm|exact Hn]; simpl; tauto.
  - (* shares_selectors *)
    apply accepted_phrase; try reflexivity.
    apply count_from_selectors_inv in H. destruct H as (text & m & Hm & Hn).
    eapply (@phrase_accepts true search_i);
      [intros; reflexivity| |exact Hm|exact Hn]; simpl; tauto.
  - (* shares_buttons *)
    unfold shares_from_buttons in H. apply try_none_inv in H.
    open_bind H as buttons.
    apply for_first_inv in H. destruct H as (button & w2 & _ & H).
    open_bind H as t.
    destruct (plausible_digits (strip t)) eqn:V; [|discriminate].
    inversion H; subst. apply plausible_digits_spec in V.
    apply accepted_digits; [reflexivity|exact V|discriminate].
  - (* shares_script *)
    apply accepted_phrase; try reflexivity.
    unfold shares_from_script in H. open_bind H as r.
    destruct r as [shares_text|]; [|discriminate].
    destruct (truthy shares_text); [|discriminate].
    apply count_in_inv in H. destruct H as (m & Hm & Hn).
    eapply (@phrase_accepts true search_i);
      [intros; reflexivity| |exact Hm|exact Hn]; simpl; tauto.
Qed.

(** The claim C8 fails: the comment extractor accepts and returns a run of
    eleven digits. *)
Lemma long_digits_accepted :
  run_strategy scripted comments_xpath long_comment_page
  = (long_comment_page, Ok (Some long_digits))
  /\ extract_comment_count scripted long_comment_page
     = (long_comment_page, Ok long_digits)
  /\ isdigit long_digits = true
  /\ ~ String.length long_digits < 10.
Proof.
  repeat split; try reflexivity. vm_compute. lia.
Qed.

Lemma accepted_count_values_witness :
  (isdigit "42" = true /\ (true = true -> String.length "42" < 10))
  /\ (exists raw, lang false count_token_re raw /\ normalize_count raw = Ok "1200")
  /\ run_strategy scripted shares_buttons (long_page shares_buttons)
     = (long_page shares_buttons, Ok (Some long_digits)).
Proof.
  destruct accepted_count_values as [Hvalue Hlong].
  split; [|split].
  - apply (Hvalue _ _ scripted upvotes_xpath upvote_page upvote_page "42").
    reflexivity.
  - apply (Hvalue _ _ scripted views_selectors views_page views_page "1200").
    vm_compute. reflexivity.
  - apply (Hlong shares_buttons). reflexivity.
Defined.

Example views_page_run :
  snd (extract_view_count scripted views_page) = Ok "1200".
Proof. vm_compute. reflexivity. Qed.

(* ===================================================================== *)
(** * The two selection blocks return the earliest date *)
(* ===================================================================== *)

Section SelectionBlocks.

Context {W E : Type}.
Variable drv : driver W E.

(** The log page: when the spans give at least one candidate and going
    back succeeds, the block returns the earliest display text. *)
Lemma log_page_returns_earliest (original_url : string) (w w1 w2 : W)
      (spans : list string) :
  execute_date_spans drv w = (w1, Ok spans) ->
  scan_spans spans <> [] ->
  get drv original_url w1 = (w2, Ok tt) ->
  date_from_log_page drv original_url w
  = (sleep drv 3 w2, Ok (earliest (scan_spans spans))).
Proof.
  intros Hs Hne Hg.
  destruct (earliest_some Hne) as (d & He).
  unfold date_from_log_page, try_except, bind. rewrite Hs.
  destruct spans as [|s0 spans]; [simpl in Hne; congruence|].
  rewrite He. unfold return_after_going_back, bind, do_sleep, ret.
  rewrite Hg. reflexivity.
Qed.

(** The page source: likewise. *)
Lemma page_source_returns_earliest (original_url page_source : string) (w w2 : W) :
  scan_source page_source <> [] ->
  get drv original_url w = (w2, Ok tt) ->
  date_from_page_source drv original_url page_source w
  = (sleep drv 3 w2, Ok (earliest (scan_source page_source))).
Proof.
  intros Hne Hg.
  destruct (earliest_some Hne) as (d & He).
  unfold date_from_page_source, try_except. rewrite He.
  unfold return_after_going_back, bind, do_sleep, ret.
  rewrite Hg. reflexivity.
Qed.

End SelectionBlocks.

(* ===================================================================== *)
(** * The resolver returns the first of the earliest candidates *)
(* ===================================================================== *)

(** C1, as the code has it.  Once the four driver calls before the blocks
    succeeded, take the candidates of the block that decides: those of the
    spans of the log page when the page is not restricted, or those of the
    page source when the block of the log page gave nothing.  When there is
    at least one and the navigation back to the original URL, which the
    block makes before it returns, succeeds, the resolver returns the
    displayText of a candidate whose timestamp no candidate precedes: every
    candidate gathered before it is strictly later, so among candidates
    with the same earliest timestamp the first in scan order is
    returned. *)
Theorem extract_post_date_first_minimum :
  forall (W E : Type) (drv : driver W E) (answer_url : string)
         (w w4 w5 w6 : W) (original ps : string) (dates : list candidate),
    reaches_blocks drv answer_url w w4 original ps ->
    ((exists spans,
         restricted_access ps = false
         /\ execute_date_spans drv w4 = (w5, Ok spans)
         /\ dates = scan_spans spans)
     \/ (log_block drv original ps w4 = (w5, Ok None)
         /\ dates = scan_source ps)) ->
    dates <> [] ->
    get drv original w5 = (w6, Ok tt) ->
    exists before c after,
      dates = (before ++ c :: after)%list
      /\ (forall d, In d before -> Date.ltb (timestamp c) (timestamp d) = true)
      /\ (forall d, In d after -> Date.leb (timestamp c) (timestamp d) = true)
      /\ extract_post_date drv answer_url w = (sleep drv 3 w6, Ok (displayText c)).
Proof.
  intros W E drv answer_url w w4 w5 w6 original ps dates R Hpath Hne Hb.
  destruct (sort_by_key_first Hne) as (before & c & after & Hl & Hhd & Hbf & Haf).
  exists before, c, after.
  split; [exact Hl|]. split; [exact Hbf|]. split; [exact Haf|].
  rewrite (@extract_post_date_through_blocks _ _ drv answer_url w w4 original ps R).
  unfold or_else, bind.
  destruct Hpath as [(spans & Hr & Hsp & ->)|(Hlog & ->)].
  - pose proof (@log_page_returns_earliest _ _ drv original w4 w5 w6 spans Hsp Hne Hb)
      as Hblock.
    rewrite earliest_head, Hhd in Hblock. simpl in Hblock.
    unfold log_block. rewrite Hr. simpl. rewrite Hblock. reflexivity.
  - pose proof (@page_source_returns_earliest _ _ drv original ps w5 w6 Hne Hb)
      as Hblock.
    rewrite earliest_head, Hhd in Hblock. simpl in Hblock.
    rewrite Hlog, Hblock. reflexivity.
Qed.

(** Two spans of the log spell the earliest day: the text of the first one
    is returned. *)
Lemma extract_post_date_first_minimum_witness :
  exists before c after,
    scan_spans (date_spans tie_page) = (before ++ c :: after)%list
    /\ (forall d, In d before -> Date.ltb (timestamp c) (timestamp d) = true)
    /\ (forall d, In d after -> Date.leb (timestamp c) (timestamp d) = true)
    /\ extract_post_date scripted answer_page_url tie_page
       = (sleep scripted 3 tie_page, Ok (displayText c)).
Proof.
  apply (@extract_post_date_first_minimum _ _ scripted answer_page_url tie_page
           (with_url (log_url_of answer_page_url) tie_page)
           (with_url (log_url_of answer_page_url) tie_page)
           tie_page answer_page_url "" (scan_spans (date_spans tie_page))).
  - exists tie_page, (with_url (log_url_of answer_page_url) tie_page),
           (with_url (log_url_of answer_page_url) tie_page),
           (log_url_of answer_page_url).
    repeat split; reflexivity.
  - left. exists (date_spans tie_page). repeat split; reflexivity.
  - vm_compute. discriminate.
  - reflexivity.
Defined.

Example first_of_the_earliest_returned :
  snd (extract_post_date scripted answer_page_url tie_page) = Ok "Jan 1, 2021".
Proof. vm_compute. reflexivity. Qed.

(** The claim C1 fails without the proviso: the spans of the log give two
    candidates, the navigation back fails inside the block, the candidates
    are dropped and the resolver returns the sentinel. *)
Lemma gathered_minimum_dropped :
  reaches_blocks second_get_fails answer_page_url (deleted_page, 0)
                 (with_url (log_url_of answer_page_url) deleted_page, 1)
                 answer_page_url ""
  /\ execute_date_spans second_get_fails
                        (with_url (log_url_of answer_page_url) deleted_page, 1)
     = ((with_url (log_url_of answer_page_url) deleted_page, 1),
        Ok (date_spans deleted_page))
  /\ scan_spans (date_spans deleted_page) <> []
  /\ earliest (scan_spans (date_spans deleted_page))
     = Some "March 1, 2021 at 10:00 AM"
  /\ snd (extract_post_date second_get_fails answer_page_url (deleted_page, 0))
     = Ok "Approx. November 03, 2026".
Proof.
  split; [|split; [|split; [|split]]].
  - exists (deleted_page, 0),
           (with_url (log_url_of answer_page_url) deleted_page, 1),
           (with_url (log_url_of answer_page_url) deleted_page, 1),
           (log_url_of answer_page_url).
    repeat split; reflexivity.
  - reflexivity.
  - vm_compute. discriminate.
  - vm_compute. reflexivity.
  - vm_compute. reflexivity.
Qed.

(* ===================================================================== *)
(** * Further properties of the date resolver *)
(* ===================================================================== *)

Section LogUrl.

Local Open Scope string_scope.

Lemma drop_app_exact (u p : string) : drop (String.length u) (u ++ p) = p.
Proof. induction u; simpl; [destruct p; reflexivity|exact IHu]. Qed.

Lemma endswith_app (u p : string) : endswith p (u ++ p) = true.
Proof.
  unfold endswith. rewrite slen_app.
  replace (String.length u + String.length p - String.length p)
    with (String.length u) by lia.
  rewrite drop_app_exact, String.eqb_refl, andb_true_r.
  apply Nat.leb_le. lia.
Qed.

End LogUrl.

(** X1.  The URL of the log page ends with "/log" or has "/log/" in it, and
    deriving it again changes nothing: "/log" is never appended twice. *)
Theorem log_url_of_idempotent (answer_url : string) :
  (endswith "/log" (log_url_of answer_url) = true
   \/ contains "/log/" (log_url_of answer_url) = true)
  /\ log_url_of (log_url_of answer_url) = log_url_of answer_url.
Proof.
  assert (H : endswith "/log" (log_url_of answer_url) = true
              \/ contains "/log/" (log_url_of answer_url) = true).
  { unfold log_url_of.
    destruct (endswith "/log" answer_url) eqn:He; simpl; [left; exact He|].
    destruct (contains "/log/" answer_url) eqn:Hc; simpl; [right; exact Hc|].
    left. apply endswith_app. }
  split; [exact H|].
  unfold log_url_of at 1.
  destruct H as [H|H]; rewrite H; simpl; [reflexivity|].
  rewrite andb_false_r. reflexivity.
Qed.

(** X2.  For the hours 1 to 12 with the mark AM or PM, the adjusted hour is
    an hour of the day, before noon for AM and from noon on for PM, and two
    different clock times never give the same hour. *)
Theorem adjust_hour_12h (h1 h2 : Z) (m1 m2 : string) :
  (1 <= h1 <= 12)%Z -> (1 <= h2 <= 12)%Z -> is_am_pm m1 -> is_am_pm m2 ->
  (0 <= adjust_hour h1 m1 <= 23)%Z
  /\ (m1 = "AM" -> adjust_hour h1 m1 < 12)%Z
  /\ (m1 = "PM" -> 12 <= adjust_hour h1 m1)%Z
  /\ (adjust_hour h1 m1 = adjust_hour h2 m2 -> h1 = h2 /\ m1 = m2).
Proof.
  intros H1 H2 [->| ->] [->| ->]; unfold adjust_hour; simpl;
    destruct (Z.ltb_spec h1 12); destruct (Z.eqb_spec h1 12);
    destruct (Z.ltb_spec h2 12); destruct (Z.eqb_spec h2 12);
    repeat split; intros; try discriminate; try reflexivity; try lia;
    try (exfalso; lia).
Qed.

Lemma adjust_hour_12h_witness :
  (0 <= adjust_hour 12 "AM" <= 23)%Z
  /\ ("AM" = "AM" -> adjust_hour 12 "AM" < 12)%Z
  /\ ("AM" = "PM" -> 12 <= adjust_hour 12 "AM")%Z
  /\ (adjust_hour 12 "AM" = adjust_hour 3 "PM" -> 12%Z = 3%Z /\ "AM" = "PM").
Proof.
  apply adjust_hour_12h; [lia|lia|left; reflexivity|right; reflexivity].
Defined.

Section CandidateFacts.

Lemma appended_length (r : result candidate) : List.length (appended r) <= 1.
Proof. destruct r; simpl; lia. Qed.

Lemma mk_datetime_in_calendar (y mo d h mi s : Z) (t : datetime) :
  mk_datetime y mo d h mi s = Ok t ->
  in_calendar t = true /\ t = MkDate y mo d h mi s.
Proof.
  unfold mk_datetime, in_calendar.
  destruct (between 1 y 9999) eqn:B1; simpl; [|discriminate].
  destruct (between 1 mo 12) eqn:B2; simpl; [|discriminate].
  destruct (between 1 d (days_in_month y mo)) eqn:B3; simpl; [|discriminate].
  destruct (between 0 h 23) eqn:B4; simpl; [|discriminate].
  destruct (between 0 mi 59) eqn:B5; simpl; [|discriminate].
  destruct (between 0 s 59) eqn:B6; simpl; [|discriminate].
  intros H. inversion H; subst. simpl.
  rewrite B1, B2, B3, B4, B5, B6. auto.
Qed.

(** A candidate that went through a chain of conversions. *)
Lemma appended_bind (A : Type) (r : result A) (k : A -> result candidate)
      (c : candidate) :
  In c (appended (bind_res r k)) -> exists a, r = Ok a /\ In c (appended (k a)).
Proof. destruct r as [a|e]; simpl; [eauto|tauto]. Qed.

Ltac open_chain H :=
  repeat (apply appended_bind in H;
          let a := fresh "a" in
          let E := fresh "E" in
          destruct H as (a & E & H)).

Ltac use_datetime :=
  match goal with
  | Hd : mk_datetime _ _ _ _ _ _ = Ok _ |- _ =>
      apply mk_datetime_in_calendar in Hd; destruct Hd as [? ->]; simpl; auto
  end.

Lemma span_timed_calendar (t : string) (m : rematch) (c : candidate) :
  In c (appended (span_timed_candidate t m)) -> in_calendar (timestamp c) = true.
Proof.
  unfold span_timed_candidate. intros H.
  open_chain H. destruct H as [<-|[]]. use_datetime.
Qed.

Lemma span_simple_calendar (m : rematch) (c : candidate) :
  In c (appended (span_simple_candidate m)) ->
  in_calendar (timestamp c) = true
  /\ hour (timestamp c) = 0%Z /\ minute (timestamp c) = 0%Z
  /\ second (timestamp c) = 0%Z.
Proof.
  unfold span_simple_candidate. intros H.
  open_chain H. destruct H as [<-|[]]. use_datetime.
Qed.

Lemma span_alt_calendar (m : rematch) (c : candidate) :
  In c (appended (span_alt_candidate m)) ->
  in_calendar (timestamp c) = true
  /\ hour (timestamp c) = 0%Z /\ minute (timestamp c) = 0%Z
  /\ second (timestamp c) = 0%Z.
Proof.
  unfold span_alt_candidate. intros H.
  open_chain H. destruct H as [<-|[]]. use_datetime.
Qed.

Lemma source_candidate_calendar (mt : list string) (c : candidate) :
  source_candidate mt = Ok c -> in_calendar (timestamp c) = true.
Proof.
  unfold source_candidate. intros H.
  assert (G : forall r : result candidate,
             r = Ok c -> In c (appended r)) by (intros r ->; left; reflexivity).
  apply G in H. clear G.
  destruct (7 <=? List.length mt).
  - open_chain H. destruct H as [<-|[]]. use_datetime.
  - destruct (3 <=? List.length mt); [|destruct H].
    destruct (is_some (match_ digits_re (item 0 mt)));
      open_chain H; destruct H as [<-|[]]; use_datetime.
Qed.

End CandidateFacts.

(** X3.  A span of the log page gives at most one candidate, whatever it
    says: the three patterns exclude one another there. *)
Theorem scan_span_at_most_one (span_text : string) :
  List.length (scan_span span_text) <= 1.
Proof.
  unfold scan_span, span_via_pattern1, span_via_pattern2, span_via_pattern3.
  destruct (search time_date_re span_text) as [m1|];
    destruct (search date_re span_text) as [m2|];
    destruct (search alt_date_re span_text) as [m3|];
    simpl; rewrite ?length_app; simpl;
    repeat match goal with
           | |- context [appended ?r] =>
               let L := fresh "L" in
               pose proof (appended_length r) as L;
               generalize dependent (appended r); intros
           end; lia.
Qed.

(** X4.  Every candidate gathered, from the spans of the log page or from
    the page source, carries a real date and time: year 1 to 9999, month 1
    to 12, a day the month has, hour below 24, minute and second below 60.
    A text that spells anything else (February 30, hour 24) gives no
    candidate. *)
Theorem candidates_in_calendar (text : string) (c : candidate) :
  In c (scan_span text) \/ In c (scan_source text) ->
  in_calendar (timestamp c) = true.
Proof.
  intros [H|H].
  - unfold scan_span in H. apply in_app_or in H. destruct H as [H|H].
    + unfold span_via_pattern1 in H.
      destruct (search time_date_re text) as [m|]; [|destruct H].
      apply (span_timed_calendar _ _ _ H).
    + apply in_app_or in H. destruct H as [H|H].
      * unfold span_via_pattern2 in H.
        destruct (search date_re text) as [m|]; [|destruct H].
        destruct (negb (is_some (search time_date_re text))); [|destruct H].
        apply (span_simple_calendar _ _ H).
      * unfold span_via_pattern3 in H.
        destruct (search alt_date_re text) as [m|]; [|destruct H].
        destruct (negb (is_some (search time_date_re text))
                  && negb (is_some (search date_re text))); [|destruct H].
        apply (span_alt_calendar _ _ H).
  - unfold scan_source in H. apply in_flat_map in H.
    destruct H as (p & _ & H). unfold source_via_pattern in H.
    apply in_flat_map in H. destruct H as (m & _ & H).
    destruct (source_candidate (match_tuple (snd p) m)) as [c'|] eqn:E;
      [|destruct H].
    destruct H as [<-|[]]. apply (source_candidate_calendar _ E).
Qed.

Lemma candidates_in_calendar_witness :
  in_calendar (timestamp (MkDate 2024 2 29 23 59 59, "Feb 29, 2024 at 11:59:59 PM"))
  = true.
Proof.
  apply (candidates_in_calendar "Feb 29, 2024 at 11:59:59 PM").
  left. vm_compute. left. reflexivity.
Defined.

Example invalid_dates_dropped :
  scan_span "February 30, 2023" = []
  /\ scan_span "Feb 29, 2023 at 1:00 PM" = []
  /\ scan_span "March 7, 2022 at 24:05 AM" = []
  /\ scan_source "31 Sep 2020" = [].
Proof. repeat split; vm_compute; reflexivity. Qed.

(* ===================================================================== *)
(** * The base URL and the author *)
(* ===================================================================== *)

Section BaseUrl.

Local Open Scope string_scope.

Lemma split_head (sep s a b : string) :
  cut sep s = Some (a, b) -> sep <> "" ->
  exists rest, split sep s = a :: rest.
Proof.
  intros C Hsep. unfold split.
  destruct (String.length s) as [|n] eqn:Hn.
  - destruct s; [|discriminate]. cbn [cut] in C.
    destruct sep as [|x sep]; [congruence|]. discriminate.
  - cbn [split_fuel]. rewrite C. eauto.
Qed.

End BaseUrl.

(** X5.  When the path of the URL contains "/answer/", the base URL is put
    together from the same scheme, host, query and fragment and from the
    path cut before its first "/answer/"; a URL whose path has no
    "/answer/", or that cannot be parsed, is returned as it is. *)
Theorem extract_base_url_cuts_path
        (urlparse : string -> result parsed_url)
        (urlunsplit : string -> string -> string -> string -> string -> string)
        (answer_url : string) :
  (forall p, urlparse answer_url = Ok p -> contains "/answer/" (path p) = true ->
     exists base rest,
       path p = (base ++ "/answer/" ++ rest)%string
       /\ contains "/answer/" (base ++ "/answer") = false
       /\ extract_base_url urlparse urlunsplit answer_url
          = urlunsplit (scheme p) (netloc p) base (query p) (fragment p))
  /\ (forall p, urlparse answer_url = Ok p -> contains "/answer/" (path p) = false ->
        extract_base_url urlparse urlunsplit answer_url = answer_url)
  /\ (forall e, urlparse answer_url = Raise e ->
        extract_base_url urlparse urlunsplit answer_url = answer_url).
Proof.
  split; [|split].
  - intros p Hp Hc. destruct (cut_contains _ _ Hc) as (base & rest & C).
    exists base, rest.
    split; [apply (cut_some _ _ C)|]. split; [apply (cut_answer_first _ C)|].
    unfold extract_base_url. rewrite Hp, Hc.
    destruct (split_head _ C) as (l & ->); [discriminate|]. reflexivity.
  - intros p Hp Hc. unfold extract_base_url. rewrite Hp, Hc. reflexivity.
  - intros e He. unfold extract_base_url. rewrite He. reflexivity.
Qed.

Lemma extract_base_url_cuts_path_witness :
  exists base rest,
    "https://www.quora.com/Is-it-so/answer/A-B/answer/C"
    = (base ++ "/answer/" ++ rest)%string
    /\ contains "/answer/" (base ++ "/answer") = false
    /\ extract_base_url urlparse_whole urlunsplit_path
                        "https://www.quora.com/Is-it-so/answer/A-B/answer/C"
       = urlunsplit_path "" "" base "" "".
Proof.
  destruct (extract_base_url_cuts_path urlparse_whole urlunsplit_path
              "https://www.quora.com/Is-it-so/answer/A-B/answer/C") as (H & _ & _).
  apply (H (MkParsed "" "" "https://www.quora.com/Is-it-so/answer/A-B/answer/C" "" ""));
    reflexivity.
Defined.

(** X6.  A name the author extractor takes from an element of the page is
    the text of the element without the white space around it, has at least
    two characters and does not contain "answer" in any case. *)
Theorem author_from_selectors_plausible :
  forall (W E : Type) (drv : driver W E) (w w' : W) (name : string),
    author_from_selectors drv w = (w', Ok (Some name)) ->
    (exists selector element w1 w2 t,
        In selector author_selectors
        /\ text drv element w1 = (w2, Ok t) /\ name = strip t)
    /\ 2 <= String.length name
    /\ contains "answer" (lower name) = false
    /\ extract_author_name drv w = (w', Ok name).
Proof.
  intros W E drv w w' name H.
  assert (Hx : extract_author_name drv w = (w', Ok name)).
  { unfold extract_author_name, or_else, try_except, bind. rewrite H. reflexivity. }
  unfold author_from_selectors in H.
  apply for_first_inv in H. destruct H as (selector & w1 & Hin & H).
  apply try_none_inv in H. open_bind H as elements.
  apply for_first_inv in H. destruct H as (element & w2 & _ & H).
  apply bind_inv_ok in H. destruct H as (w3 & t & Ht & H).
  destruct (plausible_author (strip t)) eqn:V; [|discriminate].
  inversion H; subst.
  unfold plausible_author in V.
  apply andb_true_iff in V. destruct V as [V Hc].
  apply andb_true_iff in V. destruct V as [_ Hl].
  split; [exists selector, element, w2, w'; eauto|].
  split; [apply Nat.ltb_lt in Hl; lia|].
  split; [apply negb_true_iff, Hc|exact Hx].
Qed.

Lemma author_from_selectors_plausible_witness :
  2 <= String.length "Rifat Sheih"
  /\ contains "answer" (lower "Rifat Sheih") = false.
Proof.
  destruct (author_from_selectors_plausible scripted
    (MkPage answer_page_url true true true "" [] None
            (fun x => if String.eqb x "//span[contains(@class, 'qu-bold--done')]"
                      then ["Write an answer"; " Rifat Sheih "] else [])
            no_script today)
    (name := "Rifat Sheih") eq_refl) as (_ & Hl & Hc & _).
  split; assumption.
Defined.

(* ===================================================================== *)
(** * The resolver, end to end *)
(* ===================================================================== *)

Section ResolverRuns.

Context {W E : Type}.
Variable drv : driver W E.

Lemma return_after_going_back_inv (original_url date : string) (w w' : W)
      (r : option string) :
  return_after_going_back drv original_url date w = (w', Ok r) ->
  r = Some date
  /\ exists w2, get drv original_url w = (w2, Ok tt) /\ w' = sleep drv 3 w2.
Proof.
  unfold return_after_going_back. intros H.
  apply bind_inv_ok in H. destruct H as (w2 & [] & Hg & H).
  unfold bind, do_sleep, ret in H. inversion H; subst. eauto.
Qed.

Lemma date_from_creation_marker_inv (original_url d : string) (w w' : W) :
  date_from_creation_marker drv original_url w = (w', Ok (Some d)) ->
  exists w1 w2, get drv original_url w1 = (w2, Ok tt) /\ w' = sleep drv 3 w2.
Proof.
  unfold date_from_creation_marker. intros H. apply try_none_inv in H.
  open_bind H as info. destruct info as [[element dateText]|]; [|discriminate].
  destruct (search creation_date_re dateText); [|discriminate].
  apply return_after_going_back_inv in H. destruct H as (_ & w2 & Hg & ->). eauto.
Qed.

Lemma date_from_log_page_inv (original_url d : string) (w w' : W) :
  date_from_log_page drv original_url w = (w', Ok (Some d)) ->
  exists w1 w2, get drv original_url w1 = (w2, Ok tt) /\ w' = sleep drv 3 w2.
Proof.
  unfold date_from_log_page. intros H. apply try_none_inv in H.
  open_bind H as spans. destruct spans as [|s0 spans]; [discriminate|].
  destruct (earliest (scan_spans (s0 :: spans))).
  - apply return_after_going_back_inv in H. destruct H as (_ & w2 & Hg & ->). eauto.
  - apply (date_from_creation_marker_inv _ _ H).
Qed.

Lemma date_from_page_source_inv (original_url ps d : string) (w w' : W) :
  date_from_page_source drv original_url ps w = (w', Ok (Some d)) ->
  exists w1 w2, get drv original_url w1 = (w2, Ok tt) /\ w' = sleep drv 3 w2.
Proof.
  unfold date_from_page_source. intros H. apply try_none_inv in H.
  destruct (earliest (scan_source ps)); [|discriminate].
  apply return_after_going_back_inv in H. destruct H as (_ & w2 & Hg & ->). eauto.
Qed.

End ResolverRuns.

(** X7.  Whenever the date resolver returns, the last thing it did with the
    browser was to go back to the URL it read when it started, and to let
    three seconds pass: whichever path gave the date, the caller finds the
    browser on the page it left. *)
Theorem extract_post_date_goes_back :
  forall (W E : Type) (drv : driver W E) (answer_url : string) (w w' : W) (d : string),
    extract_post_date drv answer_url w = (w', Ok d) ->
    exists original_url w1 w2,
      current_url drv (fst (now drv w)) = (w1, Ok original_url)
      /\ get drv (log_url_of answer_url) w1 = (w2, Ok tt)
      /\ exists w3 w4,
          get drv original_url w3 = (w4, Ok tt) /\ w' = sleep drv 3 w4.
Proof.
  intros W E drv answer_url w w' d H.
  unfold extract_post_date in H.
  apply bind_inv_ok in H. destruct H as (w0 & t & Hn & H).
  rewrite get_now_run in Hn. inversion Hn; subst w0 t. clear Hn.
  apply bind_inv_ok in H. destruct H as (w1 & original & Hu & H).
  apply bind_inv_ok in H. destruct H as (w2 & [] & Hg & H).
  exists original, w1, w2. split; [exact Hu|]. split; [exact Hg|].
  open_bind H as u1. open_bind H as ps. open_bind H as cu.
  unfold or_else in H.
  apply bind_inv_ok in H. destruct H as (w6 & r1 & H1 & H).
  destruct r1 as [d1|].
  - inversion H; subst.
    destruct (negb (restricted_access ps)); [|discriminate].
    apply (date_from_log_page_inv _ _ _ H1).
  - apply bind_inv_ok in H. destruct H as (w7 & r2 & H2 & H).
    destruct r2 as [d2|].
    + inversion H; subst. apply (date_from_page_source_inv _ _ _ _ H2).
    + unfold approximate_date in H.
      apply bind_inv_ok in H. destruct H as (w8 & [] & Hb & H).
      unfold bind, do_sleep, ret in H. inversion H; subst. eauto.
Qed.

Lemma extract_post_date_goes_back_witness :
  exists original_url w1 w2,
    current_url scripted (fst (now scripted deleted_page)) = (w1, Ok original_url)
    /\ get scripted (log_url_of answer_page_url) w1 = (w2, Ok tt)
    /\ exists w3 w4,
        get scripted original_url w3 = (w4, Ok tt)
        /\ deleted_page = sleep scripted 3 w4.
Proof.
  apply (extract_post_date_goes_back scripted answer_page_url deleted_page
                                     (d := "March 1, 2021 at 10:00 AM")).
  reflexivity.
Defined.

(** X8.  The log page, end to end: when the page is not restricted and its
    spans give at least one candidate, the resolver returns the display text
    of a candidate of these spans that none precedes, provided the
    navigations succeed. *)
Theorem extract_post_date_from_log :
  forall (W E : Type) (drv : driver W E) (answer_url : string)
         (w w1 w2 w3 w4 w5 w6 : W) (original ps cu : string) (spans : list string),
    current_url drv (fst (now drv w)) = (w1, Ok original) ->
    get drv (log_url_of answer_url) w1 = (w2, Ok tt) ->
    page_source drv (sleep drv 5 w2) = (w3, Ok ps) ->
    current_url drv w3 = (w4, Ok cu) ->
    restricted_access ps = false ->
    execute_date_spans drv w4 = (w5, Ok spans) ->
    scan_spans spans <> [] ->
    get drv original w5 = (w6, Ok tt) ->
    exists c,
      In c (scan_spans spans)
      /\ (forall c', In c' (scan_spans spans) ->
                     Date.leb (timestamp c) (timestamp c') = true)
      /\ extract_post_date drv answer_url w = (sleep drv 3 w6, Ok (displayText c)).
Proof.
  intros W E drv answer_url w w1 w2 w3 w4 w5 w6 original ps cu spans
         Hu Hg Hs Hc Hr Hsp Hne Hb.
  destruct (sort_by_key_first Hne) as (before & c & after & Hl & Hhd & Hbf & Haf).
  exists c. split; [rewrite Hl; apply in_or_app; right; left; reflexivity|].
  split.
  - intros c' Hin. rewrite Hl in Hin. apply in_app_or in Hin.
    destruct Hin as [Hin|[<-|Hin]];
      [apply ltb_leb, Hbf, Hin|apply leb_refl|apply Haf, Hin].
  - pose proof (@log_page_returns_earliest _ _ drv original w4 w5 w6 spans Hsp Hne Hb) as Hlog.
    rewrite earliest_head, Hhd in Hlog. simpl in Hlog.
    unfold extract_post_date, or_else, bind. rewrite get_now_run.
    unfold do_sleep. rewrite Hu, Hg, Hs, Hc, Hr. simpl. rewrite Hlog. reflexivity.
Qed.

Lemma extract_post_date_from_log_witness :
  exists c,
    In c (scan_spans ["March 3, 2021 at 9:05 PM"; "March 1, 2021 at 10:00 AM"])
    /\ (forall c',
           In c' (scan_spans ["March 3, 2021 at 9:05 PM"; "March 1, 2021 at 10:00 AM"]) ->
           Date.leb (timestamp c) (timestamp c') = true)
    /\ extract_post_date scripted answer_page_url deleted_page
       = (sleep scripted 3 deleted_page, Ok (displayText c)).
Proof.
  apply (extract_post_date_from_log scripted answer_page_url deleted_page
           (w1 := deleted_page)
           (w2 := with_url "https://x.com/T/answer/A-B/log" deleted_page)
           (w3 := with_url "https://x.com/T/answer/A-B/log" deleted_page)
           (w4 := with_url "https://x.com/T/answer/A-B/log" deleted_page)
           (w5 := with_url "https://x.com/T/answer/A-B/log" deleted_page)
           (original := answer_page_url) (ps := "")
           (cu := "https://x.com/T/answer/A-B/log"));
    try reflexivity.
  vm_compute. discriminate.
Defined.

(** X9.  The page source, end to end: when the log page gave nothing and
    the source read on the log page holds at least one date, the resolver
    returns the display text of a candidate of that source that none
    precedes, provided the navigations succeed.  The source searched is the
    one of the log page, not of the answer page. *)
Theorem extract_post_date_from_source :
  forall (W E : Type) (drv : driver W E) (answer_url : string)
         (w w1 w2 w3 w4 w5 w6 : W) (original ps cu : string),
    current_url drv (fst (now drv w)) = (w1, Ok original) ->
    get drv (log_url_of answer_url) w1 = (w2, Ok tt) ->
    page_source drv (sleep drv 5 w2) = (w3, Ok ps) ->
    current_url drv w3 = (w4, Ok cu) ->
    (if negb (restricted_access ps) then date_from_log_page drv original
     else ret None) w4 = (w5, Ok None) ->
    scan_source ps <> [] ->
    get drv original w5 = (w6, Ok tt) ->
    exists c,
      In c (scan_source ps)
      /\ (forall c', In c' (scan_source ps) ->
                     Date.leb (timestamp c) (timestamp c') = true)
      /\ extract_post_date drv answer_url w = (sleep drv 3 w6, Ok (displayText c)).
Proof.
  intros W E drv answer_url w w1 w2 w3 w4 w5 w6 original ps cu
         Hu Hg Hs Hc Hlog Hne Hb.
  destruct (sort_by_key_first Hne) as (before & c & after & Hl & Hhd & Hbf & Haf).
  exists c. split; [rewrite Hl; apply in_or_app; right; left; reflexivity|].
  split.
  - intros c' Hin. rewrite Hl in Hin. apply in_app_or in Hin.
    destruct Hin as [Hin|[<-|Hin]];
      [apply ltb_leb, Hbf, Hin|apply leb_refl|apply Haf, Hin].
  - pose proof (@page_source_returns_earliest _ _ drv original ps w5 w6 Hne Hb) as Hsrc.
    rewrite earliest_head, Hhd in Hsrc. simpl in Hsrc.
    unfold extract_post_date, or_else, bind. rewrite get_now_run.
    unfold do_sleep. rewrite Hu, Hg, Hs, Hc, Hlog, Hsrc. reflexivity.
Qed.

Lemma extract_post_date_from_source_witness :
  exists c,
    In c (scan_source timed_source)
    /\ (forall c', In c' (scan_source timed_source) ->
                   Date.leb (timestamp c) (timestamp c') = true)
    /\ extract_post_date scripted "https://x.com/T/answer/A" timed_source_page
       = (sleep scripted 3 timed_source_page, Ok (displayText c)).
Proof.
  apply (extract_post_date_from_source scripted "https://x.com/T/answer/A"
           timed_source_page (w1 := timed_source_page)
           (w2 := with_url "https://x.com/T/answer/A/log" timed_source_page)
           (w3 := with_url "https://x.com/T/answer/A/log" timed_source_page)
           (w4 := with_url "https://x.com/T/answer/A/log" timed_source_page)
           (w5 := with_url "https://x.com/T/answer/A/log" timed_source_page)
           (original := "https://x.com/T/answer/A") (ps := timed_source)
           (cu := "https://x.com/T/answer/A/log"));
    try reflexivity.
  vm_compute. discriminate.
Defined.

(* ===================================================================== *)
(** * Where the error record comes from *)
(* ===================================================================== *)

Section ErrorOrigin.

Context {W E : Type}.
Variable drv : driver W E.
Variable urlparse : string -> result parsed_url.
Variable urlunsplit : string -> string -> string -> string -> string -> string.

Lemma check_deleted_total : total (check_deleted drv).
Proof. apply total_try. intros _. apply total_ret. Qed.

Lemma extract_post_date_unguarded (url : string) (w w' : W) (e : exn) :
  extract_post_date drv url w = (w', Raise e) -> unguarded_raise drv e.
Proof.
  intros H. apply extract_post_date_raise in H.
  destruct H as (w1 & [H|[H|(u & H)]]); exists w1, w'; eauto 6.
Qed.

Ltac step_raise H :=
  apply bind_inv_raise in H;
  let w1 := fresh "w" in
  let a := fresh "a" in
  let E1 := fresh "E" in
  destruct H as [H|(w1 & a & E1 & H)].

Lemma scrape_body_raise (url : string) (w w' : W) (e : exn) :
  scrape_body drv urlparse urlunsplit url w = (w', Raise e) -> unguarded_raise drv e.
Proof.
  unfold scrape_body. intros H.
  step_raise H; [exists w, w'; eauto|].
  step_raise H; [eexists; exists w'; eauto|].
  step_raise H; [exfalso; eapply total_no_raise; [apply (do_sleep_total drv 3)|exact H]|].
  step_raise H; [eexists; exists w'; eauto 6|].
  step_raise H; [eexists; exists w'; eauto 6|].
  step_raise H; [exfalso; eapply total_no_raise; [apply check_deleted_total|exact H]|].
  destruct a4.
  - step_raise H; [apply (extract_post_date_unguarded _ _ H)|].
    step_raise H; [exfalso; eapply total_no_raise; [apply (get_now_total drv)|exact H]|].
    discriminate.
  - step_raise H;
      [exfalso; eapply total_no_raise; [apply (extract_author_name_total drv)|exact H]|].
    step_raise H; [apply (extract_post_date_unguarded _ _ H)|].
    step_raise H;
      [exfalso; eapply total_no_raise; [apply (count_extractor_total drv Views)|exact H]|].
    step_raise H;
      [exfalso; eapply total_no_raise; [apply (count_extractor_total drv Upvotes)|exact H]|].
    step_raise H;
      [exfalso; eapply total_no_raise; [apply (count_extractor_total drv Comments)|exact H]|].
    step_raise H;
      [exfalso; eapply total_no_raise; [apply (count_extractor_total drv Shares)|exact H]|].
    step_raise H; [exfalso; eapply total_no_raise; [apply (get_now_total drv)|exact H]|].
    discriminate.
Qed.

End ErrorOrigin.

(** X10.  A record with an [error] is never due to a field extractor: its
    error is the text of an exception raised by a navigation, by the wait
    for the page, or by reading the current URL, the title or the page
    source, the calls no [try] of the extractors covers. *)
Theorem error_record_origin :
  forall (W E : Type) (drv : driver W E)
         (urlparse : string -> result parsed_url)
         (urlunsplit : string -> string -> string -> string -> string -> string)
         (url : string) (w w' : W) (r : answer_record) (msg : string),
    scrape_quora_answer drv urlparse urlunsplit url w = (w', Ok r) ->
    error r = Some msg ->
    exists e w1 w2,
      exn_text e = msg
      /\ ((exists u, get drv u w1 = (w2, Raise e))
          \/ wait_for_body drv w1 = (w2, Raise e)
          \/ current_url drv w1 = (w2, Raise e)
          \/ title drv w1 = (w2, Raise e)
          \/ page_source drv w1 = (w2, Raise e)).
Proof.
  intros W E drv urlparse urlunsplit url w w' r msg H He.
  unfold scrape_quora_answer, try_except in H.
  destruct (scrape_body drv urlparse urlunsplit url w) as [w1 [r1|e]] eqn:Hb.
  - inversion H; subst. apply scrape_body_record in Hb.
    destruct Hb as (_ & _ & _ & _ & _ & Hn & _). congruence.
  - rewrite error_record_run in H. inversion H; subst. simpl in He.
    inversion He; subst.
    apply scrape_body_raise in Hb. destruct Hb as (wa & wb & Hb).
    exists e, wa, wb. split; [reflexivity|exact Hb].
Qed.

Lemma error_record_origin_witness :
  exists e w1 w2,
    exn_text e = "Message: unknown error: net::ERR_CONNECTION_RESET"
    /\ ((exists u, get scripted u w1 = (w2, Raise e))
        \/ wait_for_body scripted w1 = (w2, Raise e)
        \/ current_url scripted w1 = (w2, Raise e)
        \/ title scripted w1 = (w2, Raise e)
        \/ page_source scripted w1 = (w2, Raise e)).
Proof.
  apply (error_record_origin scripted urlparse_whole urlunsplit_path
           answer_page_url unreachable_page
           (w' := unreachable_page)
           (r := MkRecord answer_page_url "https://x.com/T" "Error" "Error"
                          zero_stats (isoformat today) None
                          (Some "Message: unknown error: net::ERR_CONNECTION_RESET")));
    reflexivity.
Defined.

(* ===================================================================== *)
(** * Further properties of the counts *)
(* ===================================================================== *)

Section CharFacts.

Local Open Scope string_scope.

Lemma contains_char_has (c : ascii) (s : string) :
  contains (String c "") s = has_char c s.
Proof.
  induction s as [|a s IH]; [reflexivity|].
  cbn [contains has_char prefix]. rewrite IH.
  destruct (ascii_dec c a) as [->|Hne].
  - rewrite Ascii.eqb_refl. destruct s; reflexivity.
  - apply Ascii.eqb_neq in Hne. rewrite Hne. reflexivity.
Qed.

Lemma has_char_app (c : ascii) (a b : string) :
  has_char c (a ++ b) = has_char c a || has_char c b.
Proof. induction a; simpl; [reflexivity|]. rewrite IHa, orb_assoc. reflexivity. Qed.

Lemma has_char_lower_comma (s : string) : has_char "," (lower s) = has_char "," s.
Proof.
  induction s as [|a s IH]; [reflexivity|]. simpl. rewrite IH. f_equal.
  destruct a as [[] [] [] [] [] [] [] []]; reflexivity.
Qed.

Lemma has_char_replace_other (c old : ascii) (s : string) :
  Ascii.eqb c old = false ->
  has_char c (replace old "" s) = has_char c s.
Proof.
  intros Hne. induction s as [|a s IH]; [reflexivity|]. simpl.
  destruct (Ascii.eqb a old) eqn:Ea; simpl; rewrite IH; [|reflexivity].
  apply Ascii.eqb_eq in Ea. subst a. rewrite Hne. reflexivity.
Qed.

Lemma has_comma_not_digits (s : string) :
  has_char "," s = true -> isdigit s = false.
Proof.
  unfold isdigit. intros H. apply andb_false_iff. right.
  induction s as [|a s IH]; [discriminate|].
  cbn [has_char] in H. cbn [all_chars].
  apply orb_true_iff in H. destruct H as [H|H].
  - apply Ascii.eqb_eq in H. subst a. reflexivity.
  - rewrite (IH H). apply andb_false_r.
Qed.

Lemma py_float_comma (s : string) :
  has_char "," s = true ->
  py_float s = Raise (ValueError "could not convert string to float").
Proof.
  intros H. unfold py_float, decimal_parts.
  destruct (cut "." s) as [[a b]|] eqn:C.
  - rewrite (cut_some _ _ C), !has_char_app in H. simpl in H.
    apply orb_true_iff in H. destruct H as [H|H].
    + rewrite (has_comma_not_digits a H). reflexivity.
    + rewrite (has_comma_not_digits b H), andb_false_r. reflexivity.
  - rewrite (has_comma_not_digits s H). reflexivity.
Qed.

End CharFacts.

(** X11.  A count written with a comma and with a K or M suffix, such as
    "1,234K", is not converted: the conversion raises a ValueError (the
    [try] of the strategy then lets the cascade go on). *)
Theorem normalize_count_comma_suffix (view_count : string) :
  contains "," view_count = true ->
  contains "k" (lower view_count) = true \/ contains "m" (lower view_count) = true ->
  normalize_count view_count = Raise (ValueError "could not convert string to float").
Proof.
  intros Hc Hs. rewrite contains_char_has in Hc.
  assert (Hk : forall old, Ascii.eqb "," old = false ->
                 scaled (replace old "" (lower view_count)) 1000
                 = Raise (ValueError "could not convert string to float")
                 /\ scaled (replace old "" (lower view_count)) 1000000
                    = Raise (ValueError "could not convert string to float")).
  { intros old Ho. unfold scaled.
    rewrite py_float_comma; [split; reflexivity|].
    rewrite (@has_char_replace_other _ old _ Ho), has_char_lower_comma. exact Hc. }
  unfold normalize_count.
  destruct (contains "k" (lower view_count)) eqn:K.
  - apply (Hk "k"%char). reflexivity.
  - destruct Hs as [Hs|Hs]; [discriminate|]. rewrite Hs.
    apply (Hk "m"%char). reflexivity.
Qed.

Lemma normalize_count_comma_suffix_witness :
  normalize_count "1,234K" = Raise (ValueError "could not convert string to float").
Proof.
  apply normalize_count_comma_suffix; [reflexivity|left; reflexivity].
Defined.

Example comma_suffix_declined :
  snd (extract_view_count scripted
         (MkPage answer_page_url true true true "" [] None
                 (fun x => if String.eqb x "//span[contains(text(), 'views')]"
                           then ["1,234K views"] else [])
                 no_script today))
  = Ok "0".
Proof. vm_compute. reflexivity. Qed.

Section NumeralFacts.

Local Open Scope string_scope.

Lemma uint_digits (d : Decimal.uint) :
  all_chars is_digit (DecimalString.NilEmpty.string_of_uint d) = true.
Proof. induction d; simpl; auto. Qed.

Lemma str_of_Z_digits (n : Z) : (0 <= n)%Z -> isdigit (str_of_Z n) = true.
Proof.
  intros Hn. unfold str_of_Z, isdigit. destruct n as [|p|p]; [reflexivity| |lia].
  cbn [Z.to_int DecimalString.NilZero.string_of_int].
  unfold DecimalString.NilZero.string_of_uint.
  pose proof (uint_digits (Pos.to_uint p)) as D.
  destruct (Pos.to_uint p); try reflexivity;
    cbn [DecimalString.NilEmpty.string_of_uint truthy andb] in *; exact D.
Qed.

Lemma round_not_negative (mx ex : Z) (lx : location) :
  not_negative (binary_round_aux prec emax false mx ex lx) = true.
Proof.
  unfold binary_round_aux.
  destruct (shr_fexp prec emax mx ex lx) as [mrs' e'].
  destruct (shr_fexp prec emax _ e' loc_Exact) as [mrs'' e''].
  destruct (shr_m mrs''); [reflexivity| |reflexivity].
  destruct (Z.leb e'' (emax - prec)); reflexivity.
Qed.

Lemma of_ratio_not_negative (num den : Z) : not_negative (of_ratio num den) = true.
Proof.
  unfold of_ratio. destruct num; try reflexivity. destruct den; try reflexivity.
  unfold SFdiv.
  destruct (SFdiv_core_binary prec emax (Z.pos p) 0 (Z.pos p0) 0) as [[mz ez] lz].
  apply round_not_negative.
Qed.

Lemma to_int_finite (m : positive) (e i : Z) :
  to_int (S754_finite false m e) = Ok i -> (0 <= i)%Z.
Proof.
  assert (A : (0 <= e -> 0 <= Z.pos m * 2 ^ e)%Z).
  { intros He. apply Z.mul_nonneg_nonneg; [lia|]. apply Z.pow_nonneg. lia. }
  assert (B : (e < 0 -> 0 <= Z.pos m / 2 ^ (- e))%Z).
  { intros He. apply Z.div_pos; [lia|]. apply Z.pow_pos_nonneg; lia. }
  unfold to_int. cbv zeta.
  destruct (Z.leb_spec 0 e) as [He|He]; intros H;
    assert (G := f_equal (fun r => match r with Ok z => z | Raise _ => 0%Z end) H);
    cbv beta iota in G; subst i; auto.
Qed.

Lemma to_int_scaled (x : float) (n : Z) (i : Z) :
  n = 1000%Z \/ n = 1000000%Z ->
  not_negative x = true -> to_int (mul_int x n) = Ok i -> (0 <= i)%Z.
Proof.
  intros Hn Hx H. unfold mul_int in H.
  assert (Hy : exists my ey, of_Z n = S754_finite false my ey).
  { destruct Hn as [->| ->]; vm_compute; eauto. }
  destruct Hy as (my & ey & Hy). rewrite Hy in H.
  destruct x as [s|s| |s mx ex]; cbn [SFmul xorb] in H; try discriminate.
  - inversion H. lia.
  - simpl in Hx. destruct s; [discriminate|]. cbn [xorb] in H.
    pose proof (round_not_negative (Z.pos (mx * my)) (ex + ey) loc_Exact) as R.
    destruct (binary_round_aux prec emax false (Z.pos (mx * my)) (ex + ey) loc_Exact)
      as [s'|s'| |s' m e]; try discriminate.
    + inversion H. lia.
    + simpl in R. destruct s'; [discriminate|].
      exact (to_int_finite H).
Qed.

Lemma scaled_digits (t : string) (n : Z) (v : string) :
  n = 1000%Z \/ n = 1000000%Z -> scaled t n = Ok v -> isdigit v = true.
Proof.
  intros Hn H. unfold scaled, bind_res in H.
  unfold py_float in H. destruct (decimal_parts t) as [[a b]|]; [|discriminate].
  destruct (to_int _) as [i|e] eqn:I; [|discriminate].
  inversion H. apply str_of_Z_digits.
  eapply to_int_scaled; [exact Hn| |exact I]. apply of_ratio_not_negative.
Qed.

Lemma isdigit_numeral (v : string) : isdigit v = true -> numeral v.
Proof.
  unfold isdigit. intros H. apply andb_true_iff in H. destruct H as [Ht Hd].
  split; [destruct v; [discriminate|discriminate]|].
  eapply all_chars_weaken; [|exact Hd].
  intros c Hc. unfold numeral_char. rewrite Hc. reflexivity.
Qed.

Lemma token_head (raw : string) :
  lang false count_token_re raw ->
  exists c rest, raw = String c rest /\ is_digit c = true.
Proof.
  unfold count_token_re. cbn [seqs]. intros H.
  inversion H as [| |r1 r2 u v Hu Hv| | | | |]; subst.
  inversion Hu as [| |r1 r2 u1 u2 Hu1 Hu2| | | | |]; subst.
  inversion Hu1 as [|cl c Hc| | | | | |]; subst.
  exists c, (u2 ++ v). split; [reflexivity|exact Hc].
Qed.

Lemma has_char_false_free (c : ascii) (s : string) :
  has_char c s = false -> all_chars (fun a => negb (Ascii.eqb c a)) s = true.
Proof.
  induction s as [|a s IH]; [reflexivity|]. cbn [has_char all_chars].
  intros H. apply orb_false_iff in H. destruct H as [H1 H2].
  rewrite H1, (IH H2). reflexivity.
Qed.

Lemma all_chars_lower (p : ascii -> bool) (s : string) :
  all_chars p (lower s) = all_chars (fun c => p (lower_char c)) s.
Proof. induction s; simpl; [reflexivity|]. rewrite IHs. reflexivity. Qed.

Lemma all_chars_and (p q : ascii -> bool) (s : string) :
  all_chars p s = true -> all_chars q s = true ->
  all_chars (fun c => p c && q c) s = true.
Proof.
  induction s; simpl; [reflexivity|]. intros H1 H2.
  apply andb_true_iff in H1. apply andb_true_iff in H2.
  destruct H1 as [-> H1], H2 as [-> H2]. simpl. auto.
Qed.

Lemma replace_comma_numeral (s : string) :
  all_chars (fun c => is_digit c || Ascii.eqb c "." || Ascii.eqb c ",") s = true ->
  all_chars numeral_char (replace "," "" s) = true.
Proof.
  induction s as [|a s IH]; [reflexivity|]. cbn [all_chars replace].
  intros H. apply andb_true_iff in H. destruct H as [Ha Hs].
  destruct (Ascii.eqb a ",") eqn:E.
  - simpl. apply IH, Hs.
  - cbn [all_chars append]. rewrite (IH Hs), andb_true_r.
    unfold numeral_char. rewrite orb_false_r in Ha. exact Ha.
Qed.

(** The normalised form of a count token is a numeral. *)
Lemma normalized_numeral (raw v : string) :
  lang false count_token_re raw -> normalize_count raw = Ok v -> numeral v.
Proof.
  intros L N. unfold normalize_count in N.
  destruct (contains "k" (lower raw)) eqn:K.
  { apply isdigit_numeral. eapply scaled_digits; [left; reflexivity|exact N]. }
  destruct (contains "m" (lower raw)) eqn:Mm.
  { apply isdigit_numeral. eapply scaled_digits; [right; reflexivity|exact N]. }
  inversion N; subst v. clear N.
  destruct (token_head L) as (c & rest & -> & Hc).
  split.
  - cbn [replace]. destruct (Ascii.eqb c ",") eqn:E.
    + apply Ascii.eqb_eq in E. subst c. discriminate.
    + discriminate.
  - apply replace_comma_numeral.
    rewrite contains_char_has in K, Mm.
    apply has_char_false_free in K, Mm. rewrite all_chars_lower in K, Mm.
    pose proof (lang_chars L) as A.
    pose proof (@all_chars_and _ _ _ (@all_chars_and _ _ _ A K) Mm) as B.
    eapply all_chars_weaken; [|exact B].
    intros a. destruct a as [[] [] [] [] [] [] [] []]; vm_compute; auto.
Qed.

End NumeralFacts.

Section CascadeRuns.

Context {W E : Type}.
Variable drv : driver W E.

Lemma cascade_inv (blocks : list (M W (option string))) (d : string)
      (w w' : W) (s : string) :
  try_except (fold_right or_else (ret d) blocks) (fun _ => ret d) w = (w', Ok s) ->
  s = d \/ exists b w1, In b blocks /\ b w1 = (w', Ok (Some s)).
Proof.
  unfold try_except. revert w. induction blocks as [|b rest IH]; intros w H.
  - simpl in H. unfold ret in H. inversion H. left. reflexivity.
  - cbn [fold_right] in H. unfold or_else at 1, bind in H.
    destruct (b w) as [w1 [[v|]|e]] eqn:B.
    + unfold ret in H. inversion H; subst. right. exists b, w.
      split; [left; reflexivity|exact B].
    + destruct (IH w1 H) as [->|(b' & w2 & Hin & Hb)]; [left; reflexivity|].
      right. exists b', w2. split; [right; exact Hin|exact Hb].
    + unfold ret in H. inversion H. left. reflexivity.
Qed.

Lemma text_from_script_truthy (js : text_script) (w w' : W) (v : string) :
  text_from_script drv js w = (w', Ok (Some v)) -> v <> EmptyString.
Proof.
  unfold text_from_script. intros H. apply try_none_inv in H.
  open_bind H as r. destruct r as [t|]; [|discriminate].
  destruct (truthy t) eqn:T; [|discriminate].
  inversion H; subst. destruct v; [discriminate|discriminate].
Qed.

Ltac phrase_case H ic searcher :=
  let text := fresh "text" in
  let m := fresh "m" in
  let Hm := fresh "Hm" in
  let Hn := fresh "Hn" in
  first [apply count_from_selectors_inv in H; destruct H as (text & m & Hm & Hn)
        |apply count_in_inv in H; destruct H as (m & Hm & Hn)];
  let P := fresh "P" in
  pose proof (fun Hs Hr => @phrase_accepts ic searcher _ _ _ _ Hs Hr Hm Hn) as P;
  destruct P as (raw & L & N);
  [intros; reflexivity|simpl; tauto|exact (normalized_numeral L N)].

(** What each strategy that validates in Python returns is a numeral. *)
Lemma strategy_numeral (s : strategy) (w w' : W) (v : string) :
  run_strategy drv s w = (w', Ok (Some v)) -> numeral v.
Proof.
  intros H. destruct s; simpl in H.
  - unfold views_from_xpath in H. apply try_none_inv in H.
    open_bind H as el. open_bind H as t.
    destruct (contains "views" (lower (strip t))); [|discriminate].
    phrase_case H false search.
  - phrase_case H false search.
  - unfold views_from_script in H. open_bind H as r.
    destruct r as [views_text|]; [|discriminate].
    destruct (truthy views_text); [|discriminate].
    phrase_case H false search.
  - unfold upvotes_from_xpath in H. apply try_none_inv in H.
    open_bind H as el. open_bind H as t.
    destruct (plausible_upvote (strip t)) eqn:V; [|discriminate].
    inversion H; subst. apply plausible_upvote_spec in V.
    apply isdigit_numeral. tauto.
  - unfold upvotes_from_buttons in H. apply try_none_inv in H.
    open_bind H as buttons.
    apply for_first_inv in H. destruct H as (button & w2 & _ & H).
    open_bind H as t.
    destruct (plausible_upvote_digits (digits_of (strip t))) eqn:V; [|discriminate].
    inversion H; subst. apply plausible_upvote_digits_spec in V.
    apply isdigit_numeral. tauto.
  - phrase_case H true search_i.
  - unfold comments_from_xpath in H. apply try_none_inv in H.
    open_bind H as el. open_bind H as t.
    destruct (plausible_digits (strip t)) eqn:V; [|discriminate].
    inversion H; subst. apply isdigit_numeral, plausible_digits_spec, V.
  - unfold comments_from_spans in H. apply try_none_inv in H.
    open_bind H as spans.
    apply for_first_inv in H. destruct H as (span & w2 & _ & H).
    open_bind H as t.
    destruct (plausible_digits (strip t)) eqn:V; [|discriminate].
    inversion H; subst. apply isdigit_numeral, plausible_digits_spec, V.
  - unfold comments_from_buttons in H. apply try_none_inv in H.
    open_bind H as buttons.
    apply for_first_inv in H. destruct H as (button & w2 & _ & H).
    open_bind H as t.
    destruct (plausible_digits (strip t)) eqn:V.
    + inversion H; subst. apply isdigit_numeral, plausible_digits_spec, V.
    + destruct (truthy (digits_of (strip t))) eqn:T; [|discriminate].
      inversion H; subst. apply isdigit_numeral.
      unfold isdigit. rewrite T, digits_of_digits. reflexivity.
  - phrase_case H true search_i.
  - phrase_case H true search_i.
  - unfold shares_from_buttons in H. apply try_none_inv in H.
    open_bind H as buttons.
    apply for_first_inv in H. destruct H as (button & w2 & _ & H).
    open_bind H as t.
    destruct (plausible_digits (strip t)) eqn:V; [|discriminate].
    inversion H; subst. apply isdigit_numeral, plausible_digits_spec, V.
  - unfold shares_from_script in H. open_bind H as r.
    destruct r as [shares_text|]; [|discriminate].
    destruct (truthy shares_text); [|discriminate].
    phrase_case H true search_i.
Qed.

End CascadeRuns.

(** X12.  A count extractor never returns the empty string, and the views
    and the shares it returns are numerals, digits with at most points
    between them: every strategy of these two validates in Python what it
    takes from the page.  (The upvotes and the comments may also be the
    text a script returned, which is not checked.) *)
Theorem count_is_numeral :
  forall (W E : Type) (drv : driver W E) (f : count_field) (w w' : W) (s : string),
    count_extractor drv f w = (w', Ok s) ->
    s <> EmptyString
    /\ (f = Views \/ f = Shares -> all_chars numeral_char s = true).
Proof.
  intros W E drv f w w' s H.
  rewrite count_extractor_cascade in H. apply cascade_inv in H.
  destruct H as [->|(b & w1 & Hin & Hb)].
  { split; [discriminate|reflexivity]. }
  assert (S : forall st, b = run_strategy drv st -> numeral s).
  { intros st ->. exact (strategy_numeral _ _ _ Hb). }
  assert (T : forall js, b = text_from_script drv js -> s <> EmptyString).
  { intros js ->. exact (text_from_script_truthy _ _ _ Hb). }
  assert (N : numeral s ->
              s <> EmptyString
              /\ (f = Views \/ f = Shares -> all_chars numeral_char s = true)).
  { intros [N1 N2]. auto. }
  destruct f; simpl in Hin.
  - apply N. destruct Hin as [<-|[<-|[<-|[]]]];
      first [apply (S views_xpath eq_refl)
            |apply (S views_selectors eq_refl)
            |apply (S views_script eq_refl)].
  - split; [|intros [F|F]; discriminate].
    destruct Hin as [<-|[<-|[<-|[<-|[<-|[]]]]]];
      first [eapply T; reflexivity
            |apply (S upvotes_xpath eq_refl)
            |apply (S upvotes_buttons eq_refl)
            |apply (S upvotes_selectors eq_refl)].
  - split; [|intros [F|F]; discriminate].
    destruct Hin as [<-|[<-|[<-|[<-|[<-|[<-|[]]]]]]];
      first [eapply T; reflexivity
            |apply (S comments_xpath eq_refl)
            |apply (S comments_spans eq_refl)
            |apply (S comments_buttons eq_refl)
            |apply (S comments_selectors eq_refl)].
  - apply N. destruct Hin as [<-|[<-|[<-|[]]]];
      first [apply (S shares_selectors eq_refl)
            |apply (S shares_buttons eq_refl)
            |apply (S shares_script eq_refl)].
Qed.

Lemma count_is_numeral_witness :
  "1200" <> EmptyString
  /\ (Views = Views \/ Views = Shares -> all_chars numeral_char "1200" = true).
Proof.
  apply (@count_is_numeral _ _ scripted Views views_page views_page "1200").
  vm_compute. reflexivity.
Defined.

(** The point of a count without a suffix is kept. *)
Example point_kept :
  snd (extract_view_count scripted
         (MkPage answer_page_url true true true "" [] None
                 (fun x => if String.eqb x "//span[contains(text(), 'views')]"
                           then ["1.5 views"] else [])
                 no_script today))
  = Ok "1.5".
Proof. vm_compute. reflexivity. Qed.

(* ===================================================================== *)
(** * The groups of the date patterns *)
(* ===================================================================== *)

Section GroupFacts.

Local Open Scope string_scope.

Variable ic : bool.
Variable P : nat -> string -> Prop.

Lemma groups_ok_free (r : regex) : group_free r = true -> groups_ok ic P r.
Proof.
  induction r; simpl; intros H; auto;
    try (apply andb_true_iff in H; destruct H; split; auto).
  discriminate.
Qed.

Lemma match_here_sound (r : regex) (pos : nat) (s : string) (m : rematch) :
  groups_ok ic P r ->
  match_here ic r pos s = Some m ->
  caps_ok P (m_caps m)
  /\ (forall i, mandatory i r = true -> has i (m_caps m) = true).
Proof.
  intros Hg E. unfold match_here in E.
  eapply rmatch_sound in E; [|exact Hg|constructor].
  destruct E as (u & s' & cs' & _ & _ & Hcs & Hm & Hk).
  inversion Hk; subst m; simpl. split; auto.
Qed.

Lemma findall_from_sound (r : regex) (s : string) :
  groups_ok ic P r ->
  forall (pos skip : nat) (m : rematch),
    In m (findall_from ic r pos skip s) ->
    caps_ok P (m_caps m)
    /\ (forall i, mandatory i r = true -> has i (m_caps m) = true).
Proof.
  intros Hg. induction s as [|c s IH]; intros pos skip m H.
  - destruct skip; simpl in H; [|destruct H].
    destruct (match_here ic r pos "") as [m'|] eqn:E; [|destruct H].
    destruct H as [<-|[]]. eapply match_here_sound; [exact Hg|exact E].
  - destruct skip; simpl in H.
    + destruct (match_here ic r pos (String c s)) as [m'|] eqn:E.
      * destruct H as [<-|H]; [eapply match_here_sound; [exact Hg|exact E]|].
        exact (IH _ _ _ H).
      * exact (IH _ _ _ H).
    + exact (IH _ _ _ H).
Qed.

Lemma caps_group_ok (i : nat) (m : rematch) :
  caps_ok P (m_caps m) -> has i (m_caps m) = true -> P i (group_or_empty i m).
Proof.
  intros Hcs Hm. unfold has, group_or_empty, group in *.
  induction (m_caps m) as [|[j w] cs IH]; simpl in *; [discriminate|].
  inversion Hcs; subst.
  destruct (Nat.eqb i j) eqn:E.
  - apply Nat.eqb_eq in E. subst j. assumption.
  - auto.
Qed.

Lemma caps_group_opt (i : nat) (m : rematch) :
  caps_ok P (m_caps m) ->
  group_or_empty i m = "" \/ P i (group_or_empty i m).
Proof.
  intros Hcs. destruct (has i (m_caps m)) eqn:Hh.
  - right. apply caps_group_ok; assumption.
  - left. unfold has, group_or_empty, group in *.
    destruct (cap_get i (m_caps m)); [discriminate|reflexivity].
Qed.

End GroupFacts.

Section DateGroups.

Local Open Scope string_scope.

Lemma lang_lit (s w : string) : lang false (lit s) w -> w = s.
Proof.
  revert w. induction s as [|c s IH]; intros w H; simpl in H.
  - inversion H. reflexivity.
  - inversion H as [| |r1 r2 u v Hu Hv| | | | |]; subst.
    inversion Hu as [|cl a Ha| | | | | |]; subst.
    simpl in Ha. apply Ascii.eqb_eq in Ha. subst a.
    apply IH in Hv. subst v. reflexivity.
Qed.

Lemma lang_alts (l : list regex) (w : string) :
  l <> [] -> lang false (alts l) w -> exists r, In r l /\ lang false r w.
Proof.
  induction l as [|r l IH]; intros Hne H; [congruence|].
  destruct l as [|r' l].
  - exists r. split; [left; reflexivity|exact H].
  - change (alts (r :: r' :: l)) with (Alt r (alts (r' :: l))) in H.
    inversion H; subst.
    + exists r. split; [left; reflexivity|assumption].
    + destruct IH as (r0 & Hin & L); [discriminate|assumption|].
      exists r0. split; [right; exact Hin|exact L].
Qed.

Lemma lang_month (w : string) : lang false month_re w -> In w month_names.
Proof.
  unfold month_re. intros H.
  apply lang_alts in H; [|discriminate].
  destruct H as (r & Hin & L). apply in_map_iff in Hin.
  destruct Hin as (name & <- & Hin). apply lang_lit in L. subst w. exact Hin.
Qed.

Lemma lang_digits (r : regex) (w : string) :
  (forall c, allowed false r c = true -> is_digit c = true) ->
  lang false (Seq digit r) w -> isdigit w = true.
Proof.
  intros Ha H. pose proof (lang_chars H) as A.
  inversion H as [| |r1 r2 u v Hu Hv| | | | |]; subst.
  inversion Hu as [|cl a Hc| | | | | |]; subst.
  unfold isdigit. cbn [append truthy andb].
  eapply all_chars_weaken; [|exact A].
  intros c Hc'. simpl in Hc'. apply orb_true_iff in Hc'.
  destruct Hc' as [Hc'|Hc']; [exact Hc'|exact (Ha _ Hc')].
Qed.

Lemma lang_d12 (w : string) : lang false d12 w -> isdigit w = true.
Proof.
  apply lang_digits. intros c. simpl. rewrite orb_false_r. auto.
Qed.

Lemma lang_d2 (w : string) : lang false d2 w -> isdigit w = true.
Proof. apply lang_digits. intros c. simpl. auto. Qed.

Lemma lang_d4 (w : string) : lang false d4 w -> isdigit w = true.
Proof.
  apply lang_digits. intros c. simpl.
  destruct (is_digit c); simpl; auto.
Qed.

Lemma date_re_groups : groups_ok false date_group date_re.
Proof.
  unfold date_re. cbn [seqs groups_ok].
  repeat split; try (apply groups_ok_free; reflexivity); intros w L.
  - apply lang_month, L.
  - apply lang_d12, L.
  - apply lang_d4, L.
Qed.

Lemma time_part_re_groups : groups_ok false date_group time_part_re.
Proof.
  unfold time_part_re. cbn [seqs groups_ok Opt].
  repeat split; try (apply groups_ok_free; reflexivity); intros w L.
  - apply lang_d12, L.
  - apply lang_d2, L.
  - apply lang_d2, L.
Qed.

Lemma time_date_re_groups : groups_ok false date_group time_date_re.
Proof. split; [apply date_re_groups|apply time_part_re_groups]. Qed.

Lemma alt_date_re_groups : groups_ok false alt_group alt_date_re.
Proof.
  unfold alt_date_re. cbn [seqs groups_ok Opt].
  repeat split; try (apply groups_ok_free; reflexivity); intros w L.
  - apply lang_d12, L.
  - apply lang_month, L.
  - apply lang_d4, L.
Qed.

Lemma month_num_range (name : string) :
  In name month_names -> (1 <= month_num name <= 12)%Z.
Proof.
  intros H. simpl in H.
  repeat (destruct H as [<-|H]; [vm_compute; split; discriminate|]).
  destruct H.
Qed.

Lemma month_not_digits (name : string) :
  In name month_names -> match_ digits_re name = None.
Proof.
  intros H. simpl in H.
  repeat (destruct H as [<-|H]; [reflexivity|]).
  destruct H.
Qed.

Lemma digits_match (w : string) :
  isdigit w = true -> is_some (match_ digits_re w) = true.
Proof.
  unfold isdigit. intros H. apply andb_true_iff in H. destruct H as [Ht Hd].
  destruct w as [|c w]; [discriminate|].
  cbn [all_chars] in Hd. apply andb_true_iff in Hd. destruct Hd as [Hc _].
  unfold match_, match_here, digits_re, Plus, digit.
  cbn [rmatch class_ok]. rewrite Hc.
  destruct (String.length w); [reflexivity|].
  match goal with |- is_some (match ?x with _ => _ end) = true => destruct x end;
    reflexivity.
Qed.

Lemma py_int_digits (w : string) :
  isdigit w = true -> py_int w = Ok (digits_val 0 w).
Proof. unfold py_int. intros ->. reflexivity. Qed.

Lemma seconds_of_ok (w : string) :
  w = "" \/ isdigit w = true -> exists s, seconds_of w = Ok s.
Proof.
  unfold seconds_of. intros [->|H]; [exists 0%Z; reflexivity|].
  rewrite (py_int_digits _ H). destruct (truthy w); eauto.
Qed.

(** The groups of a match of pattern 1, found by a search or by
    [findall]. *)
Lemma timed_groups (m : rematch) :
  caps_ok date_group (m_caps m)
  /\ (forall i, mandatory i time_date_re = true -> has i (m_caps m) = true) ->
  In (group_or_empty 1 m) month_names
  /\ isdigit (group_or_empty 2 m) = true /\ isdigit (group_or_empty 3 m) = true
  /\ isdigit (group_or_empty 4 m) = true /\ isdigit (group_or_empty 5 m) = true
  /\ (group_or_empty 6 m = "" \/ isdigit (group_or_empty 6 m) = true).
Proof.
  intros [Hc Hm].
  pose proof (fun i H => @caps_group_ok date_group i m Hc (Hm i H)) as G.
  split; [exact (G 1 eq_refl)|]. split; [exact (G 2 eq_refl)|].
  split; [exact (G 3 eq_refl)|]. split; [exact (G 4 eq_refl)|].
  split; [exact (G 5 eq_refl)|]. exact (@caps_group_opt date_group 6 m Hc).
Qed.

Lemma simple_groups (m : rematch) :
  caps_ok date_group (m_caps m)
  /\ (forall i, mandatory i date_re = true -> has i (m_caps m) = true) ->
  In (group_or_empty 1 m) month_names
  /\ isdigit (group_or_empty 2 m) = true /\ isdigit (group_or_empty 3 m) = true.
Proof.
  intros [Hc Hm].
  pose proof (fun i H => @caps_group_ok date_group i m Hc (Hm i H)) as G.
  split; [exact (G 1 eq_refl)|]. split; [exact (G 2 eq_refl)|exact (G 3 eq_refl)].
Qed.

Lemma alt_groups (m : rematch) :
  caps_ok alt_group (m_caps m)
  /\ (forall i, mandatory i alt_date_re = true -> has i (m_caps m) = true) ->
  isdigit (group_or_empty 1 m) = true
  /\ In (group_or_empty 2 m) month_names /\ isdigit (group_or_empty 3 m) = true.
Proof.
  intros [Hc Hm].
  pose proof (fun i H => @caps_group_ok alt_group i m Hc (Hm i H)) as G.
  split; [exact (G 1 eq_refl)|]. split; [exact (G 2 eq_refl)|exact (G 3 eq_refl)].
Qed.

Lemma rejects_intro (y d h mi s : Z) (name : string) (A : Type)
      (k : datetime -> result A) (e : exn) :
  In name month_names ->
  (date_obj <-? mk_datetime y (month_num name) d h mi s ;; k date_obj) = Raise e ->
  (forall t, k t <> Raise e) ->
  datetime_rejects e.
Proof.
  intros Hn H Hk. unfold bind_res in H.
  destruct (mk_datetime y (month_num name) d h mi s) as [t|e'] eqn:D.
  - destruct (Hk t H).
  - inversion H; subst e'. exists y, (month_num name), d, h, mi, s.
    split; [apply month_num_range, Hn|exact D].
Qed.

End DateGroups.

Ltac digits_in H :=
  rewrite ?py_int_digits in H by assumption; cbn [bind_res] in H.

Ltac seconds_in H G :=
  let s := fresh "s" in
  let Hs := fresh "Hs" in
  destruct (seconds_of_ok G) as (s & Hs); rewrite Hs in H; cbn [bind_res] in H.

Ltac reject_with H G :=
  let X := fresh "X" in
  refine (@rejects_intro _ _ _ _ _ _ _ _ _ G H _);
  intros ? X; cbv beta in X; discriminate X.

(** X13.  A date that one of the three patterns found is dropped only
    because no such date exists.  The month group is one of the names of
    [month_map], so the default of [month_map.get(month, 1)] is never used,
    and the other groups are digits, so no [int()] fails; the page source
    tells the tuples of pattern 3 from those of pattern 2 by their first
    item without error.  What is left to raise is the construction of the
    datetime: year 0, a day the month does not have, an hour above 23. *)
Theorem candidate_fails_only_at_datetime :
  (forall t m e, search time_date_re t = Some m ->
                 span_timed_candidate t m = Raise e -> datetime_rejects e)
  /\ (forall t m e, search date_re t = Some m ->
                    span_simple_candidate m = Raise e -> datetime_rejects e)
  /\ (forall t m e, search alt_date_re t = Some m ->
                    span_alt_candidate m = Raise e -> datetime_rejects e)
  /\ (forall ps p m e, In p date_patterns -> In m (findall (fst p) ps) ->
                       source_candidate (match_tuple (snd p) m) = Raise e ->
                       datetime_rejects e).
Proof.
  split; [|split; [|split]].
  - intros t m e S H. unfold search in S.
    eapply search_from_sound with (P := date_group) in S;
      [|apply time_date_re_groups].
    destruct (@timed_groups m S) as (G1 & G2 & G3 & G4 & G5 & G6).
    unfold span_timed_candidate in H. digits_in H. seconds_in H G6.
    reject_with H G1.
  - intros t m e S H. unfold search in S.
    eapply search_from_sound with (P := date_group) in S;
      [|apply date_re_groups].
    destruct (@simple_groups m S) as (G1 & G2 & G3).
    unfold span_simple_candidate in H. digits_in H.
    reject_with H G1.
  - intros t m e S H. unfold search in S.
    eapply search_from_sound with (P := alt_group) in S;
      [|apply alt_date_re_groups].
    destruct (@alt_groups m S) as (G1 & G2 & G3).
    unfold span_alt_candidate in H. digits_in H.
    reject_with H G2.
  - intros ps p m e Hp S H. unfold findall in S.
    destruct Hp as [<-|[<-|[<-|[]]]]; cbn [fst snd] in S, H;
      unfold source_candidate, match_tuple in H;
      cbn [map seq List.length Nat.leb item nth] in H.
    + eapply findall_from_sound with (P := date_group) in S;
        [|apply time_date_re_groups].
      destruct (@timed_groups m S) as (G1 & G2 & G3 & G4 & G5 & G6).
      digits_in H. seconds_in H G6. reject_with H G1.
    + eapply findall_from_sound with (P := date_group) in S;
        [|apply date_re_groups].
      destruct (@simple_groups m S) as (G1 & G2 & G3).
      rewrite (@month_not_digits _ G1) in H. cbn [is_some] in H.
      digits_in H. reject_with H G1.
    + eapply findall_from_sound with (P := alt_group) in S;
        [|apply alt_date_re_groups].
      destruct (@alt_groups m S) as (G1 & G2 & G3).
      rewrite (@digits_match _ G1) in H.
      digits_in H. reject_with H G2.
Qed.

Lemma candidate_fails_only_at_datetime_witness :
  datetime_rejects (ValueError "day is out of range for month").
Proof.
  destruct candidate_fails_only_at_datetime as (H1 & _).
  eapply (H1 "February 30, 2023 at 3:15 PM"); vm_compute; reflexivity.
Defined.

(* ===================================================================== *)
(** * [main.py]: the rows taken from the sheet *)
(* ===================================================================== *)

Section RowFacts.

Local Open Scope list_scope.

Lemma select_rows_step (max_urls : option Z) (i : Z) (url_row flag_row : list string)
      (rest : list (list string * list string)) (acc : list row_task) :
  select_rows max_urls i ((url_row, flag_row) :: rest) acc
  = if blank_row url_row || is_processed flag_row
    then select_rows max_urls (i + 1) rest acc
    else if limit_reached max_urls (List.length (acc ++ [MkTask i (clean_url url_row)]))
         then acc ++ [MkTask i (clean_url url_row)]
         else select_rows max_urls (i + 1) rest (acc ++ [MkTask i (clean_url url_row)]).
Proof.
  cbn [select_rows]. destruct (blank_row url_row); [reflexivity|].
  destruct (is_processed flag_row); reflexivity.
Qed.

Lemma select_rows_no_limit (max_urls : option Z) :
  (forall n, limit_reached max_urls n = false) ->
  forall rows i acc,
    select_rows max_urls i rows acc = acc ++ unprocessed i rows.
Proof.
  intros Hl. induction rows as [|[u f] rest IH]; intros i acc.
  - simpl. rewrite app_nil_r. reflexivity.
  - rewrite select_rows_step. cbn [unprocessed].
    destruct (blank_row u || is_processed f).
    + apply IH.
    + rewrite Hl, IH, <- app_assoc. reflexivity.
Qed.

Lemma select_rows_limit (k : Z) :
  (0 < k)%Z ->
  forall rows i acc,
    List.length acc < Z.to_nat k ->
    select_rows (Some k) i rows acc
    = acc ++ firstn (Z.to_nat k - List.length acc) (unprocessed i rows).
Proof.
  intros Hk. induction rows as [|[u f] rest IH]; intros i acc Hacc.
  - simpl. rewrite firstn_nil, app_nil_r. reflexivity.
  - rewrite select_rows_step. cbn [unprocessed].
    destruct (blank_row u || is_processed f).
    + apply IH, Hacc.
    + rewrite length_app. cbn [List.length app].
      replace (Z.to_nat k - List.length acc)
        with (S (Z.to_nat k - (List.length acc + 1))) by lia.
      cbn [firstn]. unfold limit_reached.
      destruct (Z.eqb_spec k 0) as [->|_]; [lia|]. cbn [negb andb].
      destruct (Z.leb_spec k (Z.of_nat (List.length acc + 1))) as [Hle|Hlt].
      * replace (Z.to_nat k - (List.length acc + 1)) with 0 by lia.
        reflexivity.
      * rewrite IH; [|rewrite length_app; simpl; lia].
        rewrite length_app, <- app_assoc. reflexivity.
Qed.

Lemma select_rows_at_once (max_urls : option Z) :
  (forall n, limit_reached max_urls n = true) ->
  forall rows i acc,
    select_rows max_urls i rows acc = acc ++ firstn 1 (unprocessed i rows).
Proof.
  intros Hl. induction rows as [|[u f] rest IH]; intros i acc.
  - simpl. rewrite app_nil_r. reflexivity.
  - rewrite select_rows_step. cbn [unprocessed].
    destruct (blank_row u || is_processed f).
    + apply IH.
    + rewrite Hl. reflexivity.
Qed.


Lemma unprocessed_ascend (rows : list (list string * list string)) :
  forall i, rows_ascend (unprocessed i rows)
            /\ Forall (fun t => (i <= task_row t < i + Z.of_nat (List.length rows))%Z)
                      (unprocessed i rows).
Proof.
  induction rows as [|[u f] rest IH]; intros i.
  - split; constructor.
  - destruct (IH (i + 1)%Z) as [Hs Hb].
    assert (Hb' : Forall (fun t => (i < task_row t
                                    < i + Z.of_nat (S (List.length rest)))%Z)
                         (unprocessed (i + 1) rest)).
    { eapply Forall_impl; [|exact Hb]. intros t Ht. cbv beta in *. lia. }
    cbn [unprocessed List.length].
    destruct (blank_row u || is_processed f); cbn [app].
    + split; [exact Hs|]. eapply Forall_impl; [|exact Hb'].
      intros t Ht. cbv beta in *. lia.
    + split.
      * constructor; [exact Hs|]. eapply Forall_impl; [|exact Hb'].
        intros t Ht. cbv beta in *. cbn [task_row]. lia.
      * constructor; [cbn [task_row]; lia|].
        eapply Forall_impl; [|exact Hb']. intros t Ht. cbv beta in *. lia.
Qed.

Lemma In_firstn_in (A : Type) (n : nat) (l : list A) (x : A) :
  In x (firstn n l) -> In x l.
Proof.
  revert n. induction l as [|a l IH]; intros n H.
  - rewrite firstn_nil in H. destruct H.
  - destruct n; [destruct H|]. destruct H as [->|H]; [left; reflexivity|].
    right. eapply IH; eauto.
Qed.

Lemma ascend_firstn (n : nat) (l : list row_task) :
  rows_ascend l -> rows_ascend (firstn n l).
Proof.
  unfold rows_ascend. revert n. induction l as [|a l IH]; intros n H.
  - rewrite firstn_nil. constructor.
  - destruct n; [constructor|]. inversion H; subst. cbn [firstn].
    constructor; [apply IH; assumption|].
    apply Forall_forall. intros x Hx.
    apply (proj1 (Forall_forall _ _) H3). eapply In_firstn_in; eauto.
Qed.



(** Whatever the limit, what is selected is the beginning of the rows
    that are neither blank nor flagged. *)
Lemma select_urls_firstn (urls_data processed_flags : list (list string))
      (start_row : Z) (max_urls : option Z) :
  exists n,
    select_urls urls_data processed_flags start_row max_urls
    = firstn n (select_urls urls_data processed_flags start_row None)
    /\ (forall k, max_urls = Some k -> (0 < k)%Z -> n = Z.to_nat k)
    /\ (max_urls = None \/ max_urls = Some 0%Z ->
        select_urls urls_data processed_flags start_row max_urls
        = select_urls urls_data processed_flags start_row None).
Proof.
  unfold select_urls.
  set (rows := combine urls_data (extend_flags processed_flags (List.length urls_data))).
  rewrite (@select_rows_no_limit None (fun _ => eq_refl)). cbn [app].
  destruct max_urls as [k|].
  - destruct (Z.compare_spec k 0) as [->|Hneg|Hpos].
    + exists (List.length (unprocessed start_row rows)).
      rewrite (@select_rows_no_limit (Some 0%Z) (fun _ => eq_refl)). cbn [app].
      rewrite firstn_all. repeat split; auto. intros k' H Hk'.
      inversion H; subst. lia.
    + exists 1. rewrite select_rows_at_once.
      * cbn [app]. repeat split; auto.
        -- intros k' H Hk'. inversion H; subst. lia.
        -- intros [H|H]; [discriminate|]. inversion H; subst. lia.
      * intros n. unfold limit_reached.
        destruct (Z.eqb_spec k 0); [lia|]. cbn [negb andb].
        apply Z.leb_le. lia.
    + exists (Z.to_nat k). rewrite (select_rows_limit Hpos); [|simpl; lia].
      cbn [app List.length]. rewrite Nat.sub_0_r. repeat split; auto.
      * intros k' H _. inversion H; subst. reflexivity.
      * intros [H|H]; [discriminate|]. inversion H; subst. lia.
  - exists (List.length (unprocessed start_row rows)).
    rewrite (@select_rows_no_limit None (fun _ => eq_refl)). cbn [app].
    rewrite firstn_all. repeat split; auto. intros k H. discriminate.
Qed.



Lemma select_urls_from_start (urls_data processed_flags : list (list string))
      (start_row : Z) (max_urls : option Z) :
  Forall (fun t => (start_row <= task_row t)%Z)
         (select_urls urls_data processed_flags start_row max_urls).
Proof.
  destruct (select_urls_firstn urls_data processed_flags start_row max_urls)
    as (n & -> & _).
  unfold select_urls.
  rewrite (@select_rows_no_limit None (fun _ => eq_refl)). cbn [app].
  set (rows := combine urls_data (extend_flags processed_flags (List.length urls_data))).
  destruct (unprocessed_ascend rows start_row) as [_ Hb].
  apply Forall_forall. intros t Ht. apply In_firstn_in in Ht.
  pose proof (proj1 (Forall_forall _ _) Hb t Ht) as B. cbv beta in B. lia.
Qed.

End RowFacts.



(** X15.  The rows returned go up strictly, so no row is returned twice,
    and each lies in the range read: from [start_row] on, below
    [start_row] plus the number of rows of the range. *)
Theorem select_urls_ascend :
  forall (urls_data processed_flags : list (list string)) (start_row : Z)
         (max_urls : option Z),
    rows_ascend (select_urls urls_data processed_flags start_row max_urls)
    /\ Forall (fun t => (start_row <= task_row t
                         < start_row + Z.of_nat (List.length urls_data))%Z)
              (select_urls urls_data processed_flags start_row max_urls).
Proof.
  intros urls_data processed_flags start_row max_urls.
  destruct (select_urls_firstn urls_data processed_flags start_row max_urls)
    as (n & -> & _).
  unfold select_urls.
  rewrite (@select_rows_no_limit None (fun _ => eq_refl)). cbn [app].
  set (rows := combine urls_data (extend_flags processed_flags (List.length urls_data))).
  destruct (unprocessed_ascend rows start_row) as [Hs Hb]. split.
  - apply ascend_firstn, Hs.
  - apply Forall_forall. intros t Ht. apply In_firstn_in in Ht.
    pose proof (proj1 (Forall_forall _ _) Hb t Ht) as B.
    assert (List.length rows <= List.length urls_data).
    { unfold rows. rewrite length_combine. lia. }
    cbv beta in B. lia.
Qed.

(** X16.  A positive [max_urls] cuts the selection after that many rows:
    the rows returned are the first [max_urls] of those returned without
    a limit, so never more than [max_urls]. *)
Theorem select_urls_limit :
  forall (urls_data processed_flags : list (list string)) (start_row k : Z),
    (0 < k)%Z ->
    select_urls urls_data processed_flags start_row (Some k)
    = firstn (Z.to_nat k) (select_urls urls_data processed_flags start_row None)
    /\ (Z.of_nat (List.length (select_urls urls_data processed_flags start_row (Some k)))
        <= k)%Z.
Proof.
  intros urls_data processed_flags start_row k Hk.
  destruct (select_urls_firstn urls_data processed_flags start_row (Some k))
    as (n & E & Hn & _).
  rewrite (Hn k eq_refl Hk) in E. split; [exact E|].
  rewrite E, length_firstn. lia.
Qed.

Lemma select_urls_limit_witness :
  select_urls sample_urls sample_flags 2 (Some 2%Z)
  = firstn 2 (select_urls sample_urls sample_flags 2 None)
  /\ (Z.of_nat (List.length (select_urls sample_urls sample_flags 2 (Some 2%Z))) <= 2)%Z.
Proof.
  apply (@select_urls_limit sample_urls sample_flags 2 2). lia.
Defined.

Section RangeFacts.

Local Open Scope string_scope.

Lemma adjust_range_A1 (rest : string) :
  adjust_range ("A1:" ++ rest) = Ok ("A2:" ++ upto ":" rest).
Proof.
  unfold adjust_range, startswith.
  replace (prefix "A1:" ("A1:" ++ rest)) with true by (destruct rest; reflexivity).
  unfold split. cbn [append String.length split_fuel].
  replace (cut ":" (String "A" (String "1" (String ":" rest))))
    with (Some ("A1", rest)) by (destruct rest; reflexivity).
  cbn [nth_error]. rewrite <- (first_piece_upto ":" rest).
  destruct (cut ":" rest) as [[x y]|]; reflexivity.
Qed.

Lemma start_row_A2 (b : string) : start_row_of ("A2:" ++ b) = Ok 2%Z.
Proof.
  unfold start_row_of. rewrite split_first_piece. reflexivity.
Qed.

End RangeFacts.

(** X17.  With a range that begins with "A1:" the header row is left out:
    the cells are read from "A2:" on (up to the end of the range as far as
    a second colon), the flags from P2 on, and every row returned is row 2
    or below it in the sheet. *)
Theorem header_row_skipped :
  forall (W : Type) (sheet : worksheet W) (rest : string) (max_urls : option Z)
         (w w' : W) (tasks : list row_task),
    worksheet_rows sheet ("A1:" ++ rest) max_urls w = (w', Ok tasks) ->
    (exists w1 w2 urls_data processed_flags,
        get_values sheet ("A2:" ++ upto ":" rest) w1 = (w2, Ok urls_data)
        /\ get_values sheet (flags_range 2 (List.length urls_data)) w2
           = (w', Ok processed_flags)
        /\ tasks = select_urls urls_data processed_flags 2 max_urls)
    /\ Forall (fun t => (2 <= task_row t)%Z) tasks.
Proof.
  intros W sheet rest max_urls w w' tasks H. unfold worksheet_rows in H.
  open_bind H as all_data.
  rewrite adjust_range_A1 in H. unfold lift at 1 in H.
  apply bind_inv_ok in H. destruct H as (w1 & r & Hr & H).
  inversion Hr; subst r w1. clear Hr.
  pose proof (start_row_A2 (upto ":" rest)) as S2.
  cbn [append] in S2, H. rewrite S2 in H. unfold lift at 1 in H.
  apply bind_inv_ok in H. destruct H as (w1 & r & Hr & H).
  inversion Hr; subst r w1. clear Hr.
  open_bind H as urls_data. open_bind H as processed_flags.
  unfold ret in H. inversion H; subst. split.
  - exists w0, w1, urls_data, processed_flags. auto.
  - apply select_urls_from_start.
Qed.

Lemma header_row_skipped_witness :
  Forall (fun t => (2 <= task_row t)%Z)
         (select_urls sample_urls sample_flags 2 None).
Proof.
  apply (@header_row_skipped unit (fixed_sheet sample_urls sample_flags)
           "A100" None tt tt (select_urls sample_urls sample_flags 2 None)).
  reflexivity.
Defined.

(* ===================================================================== *)
(** * [main.py]: the update of the sheet *)
(* ===================================================================== *)

Section ProcessFacts.

Local Open Scope list_scope.

Context {W E : Type}.
Variable drv : driver W E.
Variable urlparse : string -> result parsed_url.
Variable urlunsplit : string -> string -> string -> string -> string -> string.
Variable sheet : worksheet W.

Lemma scrape_quora_answer_url (url : string) (w : W) :
  exists w' r,
    scrape_quora_answer drv urlparse urlunsplit url w = (w', Ok r)
    /\ answer_url r = url.
Proof.
  unfold scrape_quora_answer, try_except.
  destruct (scrape_body drv urlparse urlunsplit url w) as [w1 [r1|e]] eqn:Hb.
  - exists w1, r1. split; [reflexivity|].
    apply scrape_body_record in Hb.
    destruct Hb as (wa & wb & b & _ & _ & _ & Hu & _). exact Hu.
  - rewrite error_record_run. eexists. eexists. split; reflexivity.
Qed.

Lemma update_cell_step (A : Type) (row col : Z) (v : string)
      (rest : M (logged (W := W)) A) (w : W) (log : list cell_write)
      (wl' : logged (W := W)) (res : result A) :
  (update_cell sheet row col v ;; rest)%py (w, log) = (wl', res) ->
  (exists e, snd wl' = log /\ res = Raise e)
  \/ (exists w1, rest (w1, log ++ [(row, col, v)]) = (wl', res)).
Proof.
  unfold bind, update_cell. cbn [fst snd].
  destruct (update sheet row col v w) as [w1 [u|e]]; intros H.
  - right. exists w1. exact H.
  - left. exists e. inversion H. auto.
Qed.

Lemma update_row_log (row : Z) (r : answer_record) (w w' : W)
      (log log' : list cell_write) (res : result unit) :
  update_row drv sheet row r (w, log) = ((w', log'), res) ->
  exists stamp k, k <= 9 /\ log' = log ++ firstn k (row_block row r stamp).
Proof.
  assert (F : forall (stamp : string) (k : nat) (l : list cell_write),
             k <= 9 -> l = log ++ firstn k (row_block row r stamp) ->
             exists stamp k, k <= 9 /\ l = log ++ firstn k (row_block row r stamp)).
  { intros stamp k l Hk Hl. exists stamp, k. auto. }
  unfold update_row. intros H.
  do 7 (apply update_cell_step in H;
        destruct H as [(? & Hl & _)|(? & H)];
        [cbn [snd] in Hl; subst log';
         first [apply (F EmptyString 0); [lia|]; cbn [firstn row_block];
                rewrite <- ?app_assoc; cbn [app]; rewrite ?app_nil_r; reflexivity
               |apply (F EmptyString 1); [lia|]; cbn [firstn row_block];
                rewrite <- ?app_assoc; cbn [app]; rewrite ?app_nil_r; reflexivity
               |apply (F EmptyString 2); [lia|]; cbn [firstn row_block];
                rewrite <- ?app_assoc; cbn [app]; rewrite ?app_nil_r; reflexivity
               |apply (F EmptyString 3); [lia|]; cbn [firstn row_block];
                rewrite <- ?app_assoc; cbn [app]; rewrite ?app_nil_r; reflexivity
               |apply (F EmptyString 4); [lia|]; cbn [firstn row_block];
                rewrite <- ?app_assoc; cbn [app]; rewrite ?app_nil_r; reflexivity
               |apply (F EmptyString 5); [lia|]; cbn [firstn row_block];
                rewrite <- ?app_assoc; cbn [app]; rewrite ?app_nil_r; reflexivity
               |apply (F EmptyString 6); [lia|]; cbn [firstn row_block];
                rewrite <- ?app_assoc; cbn [app]; rewrite ?app_nil_r; reflexivity]|]).
  unfold bind at 1, off_sheet at 1 in H. cbn [fst snd] in H.
  rewrite get_now_run in H.
  match type of H with
  | context [strftime_YmdHMS ?t] => set (stamp := strftime_YmdHMS t) in H
  end.
  apply update_cell_step in H.
  destruct H as [(? & Hl & _)|(? & H)].
  { cbn [snd] in Hl. subst log'. apply (F stamp 7); [lia|].
    cbn [firstn row_block]. rewrite <- ?app_assoc. cbn [app]. reflexivity. }
  apply update_cell_step in H.
  destruct H as [(? & Hl & _)|(? & H)].
  { cbn [snd] in Hl. subst log'. apply (F stamp 8); [lia|].
    cbn [firstn row_block]. rewrite <- ?app_assoc. cbn [app]. reflexivity. }
  unfold off_sheet, do_sleep in H. cbn [fst snd] in H.
  inversion H; subst. apply (F stamp 9); [lia|].
  cbn [firstn row_block]. rewrite <- ?app_assoc. cbn [app]. reflexivity.
Qed.

Lemma process_loop_run (tasks : list row_task) :
  forall (acc : list row_result) (w w' : W) (log log' : list cell_write)
         (res : result (list row_result)),
    process_loop drv urlparse urlunsplit sheet tasks acc (w, log)
    = ((w', log'), res) ->
    exists new out,
      res = Ok (acc ++ out) /\ log' = log ++ new /\ run_of tasks new out.
Proof.
  induction tasks as [|t tasks IH]; intros acc w w' log log' res H.
  - cbn [process_loop] in H. unfold ret in H. inversion H; subst.
    exists [], []. rewrite !app_nil_r. repeat split. constructor.
  - cbn [process_loop] in H. unfold bind at 1, off_sheet at 1 in H.
    cbn [fst snd] in H.
    destruct (scrape_quora_answer_url (task_url t) w) as (w1 & r & Hr & Hu).
    rewrite Hr in H.
    destruct (error r) as [msg|] eqn:Er; cbn [is_some] in H.
    + destruct (IH _ _ _ _ _ _ H) as (new & out & -> & -> & R).
      exists new, out. repeat split. apply run_of_error, R.
    + unfold bind at 1, try_except at 1 in H.
      destruct (update_row drv sheet (task_row t) r (w1, log))
        as [[w2 log2] ru] eqn:U.
      apply update_row_log in U. destruct U as (stamp & k & Hk & ->).
      assert (H' : process_loop drv urlparse urlunsplit sheet tasks
                     (acc ++ [MkResult (task_row t) r])
                     (random_pause sheet w2,
                      log ++ firstn k (row_block (task_row t) r stamp))
                   = ((w', log'), res)).
      { destruct ru; exact H. }
      destruct (IH _ _ _ _ _ _ H') as (new & out & -> & -> & R).
      exists (firstn k (row_block (task_row t) r stamp) ++ new),
             (MkResult (task_row t) r :: out).
      rewrite <- !app_assoc. repeat split.
      apply run_of_row; assumption.
Qed.

Lemma firstn_block_flag (k : nat) (row row' : Z) (r : answer_record) (stamp : string) :
  k <= 9 ->
  In (row', 16%Z, "TRUE"%string) (firstn k (row_block row r stamp)) ->
  k = 9 /\ row' = row.
Proof.
  intros Hk H.
  do 9 (destruct k as [|k];
        [cbn [firstn row_block In] in H;
         repeat (destruct H as [H|H]; [discriminate H|]); destruct H|]).
  destruct k; [|lia]. split; [reflexivity|].
  cbn [firstn row_block In] in H.
  repeat (destruct H as [H|H]; [try discriminate H|]);
    [inversion H; reflexivity|destruct H].
Qed.

Lemma run_of_flag (tasks : list row_task) (log : list cell_write)
      (results : list row_result) :
  run_of tasks log results ->
  forall row, In (row, 16%Z, "TRUE"%string) log ->
    exists pre post r stamp,
      log = pre ++ row_block row r stamp ++ post
      /\ In (MkResult row r) results /\ error r = None.
Proof.
  induction 1 as [|t ts log res R IH|t r stamp k ts log res Er Hu Hk R IH];
    intros row Hin.
  - destruct Hin.
  - exact (IH row Hin).
  - apply in_app_iff in Hin. destruct Hin as [Hin|Hin].
    + destruct (@firstn_block_flag _ _ _ _ _ Hk Hin) as [-> ->].
      exists [], log, r, stamp. cbn [firstn row_block app].
      repeat split; auto. left. reflexivity.
    + destruct (IH row Hin) as (pre & post & r' & stamp' & -> & Hres & Er').
      exists (firstn k (row_block (task_row t) r stamp) ++ pre), post, r', stamp'.
      rewrite <- app_assoc. repeat split; auto. right. exact Hres.
Qed.

Lemma run_of_writes (tasks : list row_task) (log : list cell_write)
      (results : list row_result) :
  run_of tasks log results ->
  (forall c, In c log ->
     exists r stamp, In c (row_block (fst (fst c)) r stamp)
                     /\ In (MkResult (fst (fst c)) r) results)
  /\ (forall x, In x results ->
        error (data x) = None
        /\ exists t, In t tasks /\ task_row t = result_row x
                     /\ answer_url (data x) = task_url t)
  /\ List.length results <= List.length tasks.
Proof.
  induction 1 as [|t ts log res R (IH1 & IH2 & IH3)
                  |t r stamp k ts log res Er Hu Hk R (IH1 & IH2 & IH3)].
  - split; [intros c []|]. split; [intros x []|]. simpl. lia.
  - split; [exact IH1|]. split; [|simpl; lia].
    intros x Hx. destruct (IH2 x Hx) as (He & t' & Ht & Hrow & Hurl).
    split; [exact He|]. exists t'. repeat split; auto. right. exact Ht.
  - split; [|split; [|simpl; lia]].
    + intros c Hc. apply in_app_iff in Hc. destruct Hc as [Hc|Hc].
      * apply In_firstn_in in Hc.
        assert (Hrow : fst (fst c) = task_row t).
        { cbn [row_block In] in Hc.
          repeat (destruct Hc as [<-|Hc]; [reflexivity|]). destruct Hc. }
        rewrite Hrow. exists r, stamp. split; [exact Hc|left; reflexivity].
      * destruct (IH1 c Hc) as (r' & stamp' & Hb & Hres).
        exists r', stamp'. split; [exact Hb|right; exact Hres].
    + intros x [<-|Hx].
      * split; [exact Er|]. exists t. repeat split; auto. left. reflexivity.
      * destruct (IH2 x Hx) as (He & t' & Ht & Hrow & Hurl).
        split; [exact He|]. exists t'. repeat split; auto. right. exact Ht.
Qed.

End ProcessFacts.

(** X18.  A row is marked as processed only after its data were written:
    whenever "TRUE" was written to column 16 of a row, the eight updates
    of columns 2, 7, 8, 9, 10, 11, 12 and 13 of that row were accepted
    just before it, in this order, with the fields of a record that has no
    error and that is among the results.  The function itself never
    raises. *)
Theorem processed_flag_follows_data :
  forall (W E : Type) (drv : driver W E)
         (urlparse : string -> result parsed_url)
         (urlunsplit : string -> string -> string -> string -> string -> string)
         (sheet : worksheet W) (quora_urls : list row_task)
         (w w' : W) (log : list cell_write) (res : result (list row_result)),
    process_quora_urls drv urlparse urlunsplit sheet quora_urls (w, [])
    = ((w', log), res) ->
    exists results,
      res = Ok results
      /\ forall row,
          In (row, 16%Z, "TRUE") log ->
          exists pre post r stamp,
            log = (pre ++ row_block row r stamp ++ post)%list
            /\ In (MkResult row r) results /\ error r = None.
Proof.
  intros W E drv urlparse urlunsplit sheet quora_urls w w' log res H.
  unfold process_quora_urls in H. apply process_loop_run in H.
  destruct H as (new & out & -> & -> & R). cbn [app].
  exists out. split; [reflexivity|]. exact (run_of_flag R).
Qed.

(** X19.  A task whose record carries an error leaves no trace, and the
    others are all kept: every update the sheet accepted belongs to the
    nine updates of a record that is among the results, each result has a
    record without error, scraped from the URL of a task with the same
    row, and there are no more results than tasks.  A result is kept even
    when the sheet refused an update of its row. *)
Theorem process_results_and_updates :
  forall (W E : Type) (drv : driver W E)
         (urlparse : string -> result parsed_url)
         (urlunsplit : string -> string -> string -> string -> string -> string)
         (sheet : worksheet W) (quora_urls : list row_task)
         (w w' : W) (log : list cell_write) (results : list row_result),
    process_quora_urls drv urlparse urlunsplit sheet quora_urls (w, [])
    = ((w', log), Ok results) ->
    (forall c, In c log ->
       exists r stamp, In c (row_block (fst (fst c)) r stamp)
                       /\ In (MkResult (fst (fst c)) r) results)
    /\ (forall x, In x results ->
          error (data x) = None
          /\ exists t, In t quora_urls /\ task_row t = result_row x
                       /\ answer_url (data x) = task_url t)
    /\ List.length results <= List.length quora_urls.
Proof.
  intros W E drv urlparse urlunsplit sheet quora_urls w w' log results H.
  unfold process_quora_urls in H. apply process_loop_run in H.
  destruct H as (new & out & Hres & -> & R). cbn [app] in *.
  inversion Hres; subst. exact (run_of_writes R).
Qed.

Lemma processed_flag_follows_data_witness :
  exists results,
    snd sample_run = Ok results
    /\ forall row,
        In (row, 16%Z, "TRUE") (snd (fst sample_run)) ->
        exists pre post r stamp,
          snd (fst sample_run) = (pre ++ row_block row r stamp ++ post)%list
          /\ In (MkResult row r) results /\ error r = None.
Proof.
  apply (@processed_flag_follows_data _ _ scripted urlparse_whole urlunsplit_path
           accepting_sheet [MkTask 2 answer_page_url] views_page
           (fst (fst sample_run)) (snd (fst sample_run)) (snd sample_run)).
  unfold sample_run.
  destruct (process_quora_urls _ _ _ _ _ _) as [[w l] r]. reflexivity.
Defined.

Example sample_run_marks_row :
  In (2%Z, 16%Z, "TRUE") (snd (fst sample_run))
  /\ In (2%Z, 9%Z, "1200") (snd (fst sample_run))
  /\ List.length (snd (fst sample_run)) = 9.
Proof. vm_compute. repeat split; auto 12. Qed.

Lemma process_results_and_updates_witness :
  (forall c, In c (snd (fst sample_run)) ->
     exists r stamp, In c (row_block (fst (fst c)) r stamp)
                     /\ In (MkResult (fst (fst c)) r) (results_of (snd sample_run)))
  /\ (forall x, In x (results_of (snd sample_run)) ->
        error (data x) = None
        /\ exists t, In t [MkTask 2 answer_page_url] /\ task_row t = result_row x
                     /\ answer_url (data x) = task_url t)
  /\ List.length (results_of (snd sample_run)) <= 1.
Proof.
  apply (@process_results_and_updates _ _ scripted urlparse_whole urlunsplit_path
           accepting_sheet [MkTask 2 answer_page_url] views_page
           (fst (fst sample_run))).
  vm_compute. reflexivity.
Defined.

(* ===================================================================== *)
(** * [main.py]: the code read from the sheet *)
(* ===================================================================== *)

Section CodeFacts.

Local Open Scope string_scope.

Context {W Sp Sh : Type}.
Variable gc : code_client W Sp Sh.

Lemma read_code_inv (code_sheet : Sh) (max_attempts retry_interval : nat)
      (todo : nat) :
  forall (attempt : nat) (w w' : W) (code : string),
    read_code gc code_sheet max_attempts retry_interval attempt todo w
    = (w', Ok (Some code)) ->
    isdigit code = true /\ 4 <= String.length code
    /\ exists cell w1 w2 w3 t,
        acell_value gc code_sheet "A1" w1 = (w2, Ok (Some cell))
        /\ code = strip cell
        /\ read_clock gc w2 = (w3, t)
        /\ update_code_cell gc code_sheet 1 1
             ("Code used at " ++ strftime_YmdHMS t) w3 = (w', Ok tt).
Proof.
  induction todo as [|todo IH]; intros attempt w w' code H.
  - discriminate.
  - cbn [read_code] in H. apply bind_inv_ok in H.
    destruct H as (w1 & code_cell & Hcell & H).
    destruct (looks_like_code code_cell) eqn:L.
    + destruct code_cell as [c|]; [|discriminate].
      unfold bind at 1 in H.
      destruct (read_clock gc w1) as [w2 t] eqn:C.
      apply bind_inv_ok in H. destruct H as (w3 & [] & Hu & H).
      unfold ret in H. inversion H; subst.
      unfold looks_like_code in L.
      apply andb_true_iff in L. destruct L as [L L3].
      apply andb_true_iff in L. destruct L as [_ L2].
      split; [exact L2|]. split; [apply Nat.leb_le, L3|].
      exists c, w, w1, w2, t. auto.
    + apply bind_inv_ok in H. destruct H as (w2 & u & _ & H).
      exact (IH _ _ _ _ H).
Qed.

End CodeFacts.

(** X20.  A code is handed over only once it was cleared from the sheet:
    when the function returns a code, it is the text of cell A1 without
    the white space around it, it consists of digits, at least four, and
    the update that overwrites A1 with "Code used at" and the time was
    accepted after the cell was read.  When that update is refused the
    code is withheld. *)
Theorem code_returned_after_clearing :
  forall (W Sp Sh : Type) (gc : code_client W Sp Sh) (spreadsheet_id : string)
         (max_attempts retry_interval : nat) (w w' : W) (code : string),
    get_2fa_code_from_sheet gc spreadsheet_id max_attempts retry_interval w
    = (w', Ok (Some code)) ->
    isdigit code = true /\ 4 <= String.length code
    /\ exists code_sheet cell w1 w2 w3 t,
        acell_value gc code_sheet "A1" w1 = (w2, Ok (Some cell))
        /\ code = strip cell
        /\ read_clock gc w2 = (w3, t)
        /\ update_code_cell gc code_sheet 1 1
             ("Code used at " ++ strftime_YmdHMS t) w3 = (w', Ok tt).
Proof.
  intros W Sp Sh gc spreadsheet_id max_attempts retry_interval w w' code H.
  unfold get_2fa_code_from_sheet in H. apply try_none_inv in H.
  open_bind H as spreadsheet. open_bind H as code_sheet.
  apply read_code_inv in H. destruct H as (Hd & Hl & He).
  split; [exact Hd|]. split; [exact Hl|]. exists code_sheet. exact He.
Qed.

Lemma code_returned_after_clearing_witness :
  isdigit "123456" = true /\ 4 <= String.length "123456"
  /\ exists code_sheet cell w1 w2 w3 t,
      acell_value (code_sheet_with (Some " 123456 ") true) code_sheet "A1" w1
      = (w2, Ok (Some cell))
      /\ "123456" = strip cell
      /\ read_clock (code_sheet_with (Some " 123456 ") true) w2 = (w3, t)
      /\ update_code_cell (code_sheet_with (Some " 123456 ") true) code_sheet 1 1
           ("Code used at " ++ strftime_YmdHMS t) w3 = (tt, Ok tt).
Proof.
  apply (@code_returned_after_clearing _ _ _ (code_sheet_with (Some " 123456 ") true)
           "sheet" 5 20 tt tt "123456").
  reflexivity.
Defined.

(** A code that was read is withheld when the sheet refuses the update,
    and a cell that does not look like a code gives none. *)
Example code_withheld :
  snd (get_2fa_code_from_sheet (code_sheet_with (Some " 123456 ") false) "sheet" 5 20 tt)
  = Ok None
  /\ snd (get_2fa_code_from_sheet (code_sheet_with (Some "12a456") true) "sheet" 5 20 tt)
     = Ok None
  /\ snd (get_2fa_code_from_sheet (code_sheet_with (Some "123") true) "sheet" 5 20 tt)
     = Ok None.
Proof. repeat split; reflexivity. Qed.

(** The limit is applied before [main] keeps the Quora URLs: a row of
    another site uses up a place. *)
Example limit_counts_other_sites :
  map task_row
      (quora_tasks (select_urls [["http://c"]; ["https://www.quora.com/a"]] [] 2
                                (Some 1%Z)))
  = []
  /\ map task_row
         (quora_tasks (select_urls [["http://c"]; ["https://www.quora.com/a"]] [] 2
                                   None))
     = [3%Z].
Proof. split; reflexivity. Qed.
